(** * Scanner agent: classifier post-processing, control-plane client,
      chunk planning, scan pipeline and source diff.

    A shallow embedding of the Python sources
      app/services/data_analysis_service.py
      app/send_request.py
      app/services/file_service.py
      app/services/base_scan_service.py
      app/services/s3_service.py
      app/worker_tasks/multiprocessing_tasks.py
    with the properties the specification states about them and further
    properties of the same code.

    Conventions.
    - A Python [str] is a [string]; every [ascii] stands for one code point
      below 256, so [String.length] is Python's [len] on such strings.
    - Python [bytes] are [list byte].
    - Python [int] is [Z].
    - A function whose body can raise returns a [result]; a [try/except]
      becomes a [match] on it. *)

From Stdlib Require Import ZArith List Bool Lia.
From Stdlib Require Import Strings.Ascii Strings.String Strings.Byte.
From Stdlib Require Import Numbers.DecimalString Numbers.DecimalZ.
From Stdlib Require Import Numbers.DecimalPos.
From stdpp Require Import base strings gmap list.

Import ListNotations.
Set Warnings "-register-all".
Local Open Scope string_scope.
Local Open Scope Z_scope.

(** ** Exceptions *)

Inductive exn : Type :=
| ValueError
| TypeError
| AttributeError
| OSError
| BadArchive
| ZeroDivisionError
| OverflowError
| ValidationError.

Inductive result (A : Type) : Type :=
| Ok (a : A)
| Raise (e : exn).
Arguments Ok {A} a.
Arguments Raise {A} e.

Definition rbind {A B} (m : result A) (k : A -> result B) : result B :=
  match m with
  | Ok a => k a
  | Raise e => Raise e
  end.

(** ** Python string primitives *)

Module PyStr.

(** [c] is matched by the character class [A-Za-z0-9]. *)
Definition is_alnum (c : ascii) : bool :=
  let n := nat_of_ascii c in
  (((65 <=? n) && (n <=? 90)) || ((97 <=? n) && (n <=? 122))
   || ((48 <=? n) && (n <=? 57)))%nat.

Definition star (c : ascii) : ascii :=
  if is_alnum c then "*"%char else c.

(** [re.sub('[A-Za-z0-9]', '*', s)] *)
Fixpoint sub_alnum (s : string) : string :=
  match s with
  | EmptyString => EmptyString
  | String c r => String (star c) (sub_alnum r)
  end.

Definition len (s : string) : Z := Z.of_nat (String.length s).

(** A slice bound as Python clamps it against the length [n]. *)
Definition clamp (n i : Z) : Z :=
  if i <? 0 then Z.max 0 (n + i) else Z.min i n.

(** [s[lo:hi]]; [None] is an omitted bound. *)
Definition slice (s : string) (lo hi : option Z) : string :=
  let n := len s in
  let a := match lo with None => 0 | Some i => clamp n i end in
  let b := match hi with None => n | Some i => clamp n i end in
  substring (Z.to_nat a) (Z.to_nat (b - a)) s.

(** [s.startswith(p)] *)
Definition startswith (p s : string) : bool := String.prefix p s.

(** [s.endswith(p)] *)
Definition endswith (p s : string) : bool :=
  let n := String.length s in
  let k := String.length p in
  ((k <=? n)%nat && String.eqb (substring (n - k) k s) p).

(** [s.endswith(tuple)] *)
Definition endswith_any (ps : list string) (s : string) : bool :=
  existsb (fun p => endswith p s) ps.

(** [needle in hay] for two strings. *)
Fixpoint contains (needle hay : string) : bool :=
  String.prefix needle hay ||
  match hay with
  | EmptyString => false
  | String _ r => contains needle r
  end.

(** [c in s] for a one-character needle. *)
Fixpoint mem_char (c : ascii) (s : string) : bool :=
  match s with
  | EmptyString => false
  | String d r => Ascii.eqb c d || mem_char c r
  end.

(** [s.count(c)] for a one-character [c]. *)
Fixpoint count_char (c : ascii) (s : string) : nat :=
  match s with
  | EmptyString => 0%nat
  | String d r => ((if Ascii.eqb c d then 1 else 0) + count_char c r)%nat
  end.

(** [s.split(sep)] for a one-character separator: the pieces between the
    occurrences of [sep], never an empty list. *)
Fixpoint split_char (sep : ascii) (s : string) : list string :=
  match s with
  | EmptyString => [EmptyString]
  | String c r =>
      if Ascii.eqb c sep then EmptyString :: split_char sep r
      else match split_char sep r with
           | [] => [String c EmptyString]
           | p :: ps => String c p :: ps
           end
  end.

(** [sep.join(pieces)] *)
Fixpoint join (sep : ascii) (pieces : list string) : string :=
  match pieces with
  | [] => EmptyString
  | [p] => p
  | p :: rest => p ++ String sep (join sep rest)
  end.

(** [xs[-1]] on a list of strings that is never empty here. *)
Definition last_piece (xs : list string) : string := List.last xs EmptyString.

(** [str(n)] for an integer. *)
Definition str_of_Z (n : Z) : string := NilZero.string_of_int (Z.to_int n).

End PyStr.

(** ** Python floats *)

Module PyFloat.

(** A finite [float]: the double [mantissa * 2^exponent]. *)
Record float : Type := mkFloat {
  mantissa : Z;
  exponent : Z
}.

(** The integer nearest to [n / d], for [0 <= n] and [0 < d]; a tie goes
    to the even one. *)
Definition round_half_even (n d : Z) : Z :=
  let q := n / d in
  let r := n mod d in
  if 2 * r <? d then q
  else if d <? 2 * r then q + 1
  else if Z.even q then q else q + 1.

(** [n / (d * 2^e)] as a fraction of two integers. *)
Definition scaled (n d e : Z) : Z * Z :=
  if e <? 0 then (n * 2 ^ (- e), d) else (n, d * 2 ^ e).

(** [a / b] on two [int]s. The exact quotient is rounded once, to the
    nearest double, ties to even: the exponent [e] is the one that puts
    the quotient between [2^52 * 2^e] and [2^53 * 2^e], and not below
    [-1074], the exponent of the subnormal doubles; a quotient that rounds
    to [2^1024] or more raises. *)
Definition truediv (a b : Z) : result float :=
  if b =? 0 then Raise ZeroDivisionError
  else if a =? 0 then Ok (mkFloat 0 0)
  else
    let n := Z.abs a in
    let d := Z.abs b in
    let e0 := Z.log2 n - Z.log2 d - 53 in
    let e1 := if (scaled n d e0).1 <? 2 ^ 53 * (scaled n d e0).2
              then e0 else e0 + 1 in
    let e := Z.max e1 (-1074) in
    let m := round_half_even (scaled n d e).1 (scaled n d e).2 in
    if (971 <? e) || ((e =? 971) && (2 ^ 53 <=? m)) then Raise OverflowError
    else Ok (mkFloat (Z.sgn a * Z.sgn b * m) e).

(** [math.ceil(x)] *)
Definition ceil (x : float) : Z :=
  if exponent x <? 0 then - ((- mantissa x) / 2 ^ (- exponent x))
  else mantissa x * 2 ^ exponent x.

End PyFloat.

(** ** app/services/data_analysis_service.py *)

Module DataAnalysis.
Import PyStr.

(** [DataAnalysisService._get_region] *)
Definition _get_region (entity_type : string) : string :=
  if String.eqb (slice entity_type None (Some 2)) "US" then "USA"
  else if String.eqb (slice entity_type None (Some 2)) "IN" then "India"
  else "All".

(** [str.encode('utf-8')] on code points below 256: one byte below 128,
    two bytes from 128 on. *)
Definition utf8_char (c : ascii) : list byte :=
  let n := nat_of_ascii c in
  if (n <? 128)%nat then [byte_of_ascii c]
  else [byte_of_ascii (ascii_of_nat (192 + n / 64));
        byte_of_ascii (ascii_of_nat (128 + n mod 64))].

Fixpoint utf8_encode (s : string) : list byte :=
  match s with
  | EmptyString => []
  | String c r => utf8_char c ++ utf8_encode r
  end.

Definition hex_digit (n : nat) : ascii :=
  if (n <? 10)%nat then ascii_of_nat (48 + n) else ascii_of_nat (87 + n).

(** [.hexdigest()]: two lower-case hexadecimal digits per byte. *)
Fixpoint hexdigest (bs : list byte) : string :=
  match bs with
  | [] => EmptyString
  | b :: r =>
      let n := Byte.to_nat b in
      String (hex_digit (n / 16)) (String (hex_digit (n mod 16)) (hexdigest r))
  end.

Section Hashing.
(** [hashlib.sha384]: from the message to its 48-byte digest. *)
Variable sha384 : list byte -> list byte.

(** [DataAnalysisService.hash_data] *)
Definition hash_data (data : string) : string :=
  hexdigest (sha384 (utf8_encode data)).
End Hashing.

(** The body of the [try] block of [DataAnalysisService.mask_data]. *)
Definition mask_data_body (entity data : string) : result string :=
  if String.eqb data "" then Ok ""
  else if contains "EMAIL" entity && mem_char "@" data then
    match split_char "@" data with
    | [username; domain] =>
        if String.eqb entity "EMAIL_ADDRESS" then
          let domain := last_piece (split_char "." domain) in
          Ok (slice data None (Some 1)
              ++ sub_alnum (slice data (Some 1) (Some (len data - len domain)))
              ++ domain)
        else
          Ok (slice data None (Some 2)
              ++ sub_alnum (slice data (Some 2) (Some (len data - len domain)))
              ++ domain)
    | _ => Raise ValueError
    end
  else if String.eqb entity "US_SSN" || String.eqb entity "PERSON" then
    if len data <=? 4 then
      Ok (slice data None (Some 1) ++ sub_alnum (slice data (Some 1) None))
    else if (4 <? len data) && (len data <=? 6) then
      Ok (slice data None (Some 2) ++ sub_alnum (slice data (Some 2) None))
    else
      Ok (slice data None (Some 2)
          ++ sub_alnum (slice data (Some 2) (Some (-2)))
          ++ slice data (Some (-2)) None)
  else
    Ok (sub_alnum data).

(** [DataAnalysisService.mask_data]: the [except Exception] arm only logs,
    and the [return data] after it sees [data] as it was when the
    exception was raised, which is the argument. *)
Definition mask_data (entity data : string) : result string :=
  match mask_data_body entity data with
  | Ok masked => Ok masked
  | Raise _ => Ok data
  end.

(** The entries of [file_data] in [_process_data] that the claims speak
    of; the random [id], the floating-point [score] and [is_custom_regex]
    are left out. *)
Record Finding : Type := mkFinding {
  file_name : string;
  pii_type : string;
  pii_region : string;
  pii_hash : string;
  pii_data : string;
  column_name : option string
}.

Section Findings.
Variable sha384 : list byte -> list byte.

(** One iteration of the loop of [_process_data] for the engine result
    [(_, value)] whose classifier name is [recognizer]. *)
Definition process_result (object_name recognizer value : string)
    (column : option string) : result Finding :=
  rbind (mask_data recognizer value) (fun masked =>
  Ok {| file_name := object_name;
        pii_type := recognizer;
        pii_region := _get_region recognizer;
        pii_hash := hash_data sha384 value;
        pii_data := masked;
        column_name := column |}).
End Findings.

End DataAnalysis.

(** ** app/send_request.py *)

Module SendRequest.

(** A decoded JSON document; [JNull] is also Python's [None]. *)
Inductive Json : Type :=
| JNull
| JBool (b : bool)
| JNum (n : Z)
| JStr (s : string)
| JList (items : list Json)
| JObj (fields : list (string * Json)).

(** Python truthiness of a decoded document. *)
Definition truthy (j : Json) : bool :=
  match j with
  | JNull => false
  | JBool b => b
  | JNum n => negb (n =? 0)
  | JStr s => negb (String.eqb s "")
  | JList items => match items with [] => false | _ => true end
  | JObj fields => match fields with [] => false | _ => true end
  end.

(** What one HTTP exchange gives: the connection fails (aiohttp raises),
    or a status arrives with a body; the body is [None] when
    [response.json()] raises on it. *)
Inductive Response : Type :=
| ConnectionFailed
| Http (status : Z) (body : option Json).

Inductive Event : Type :=
| Sent (attempt : Z)
| TokenRefreshed
| Slept (seconds : Z).

Inductive Outcome : Type :=
| Returned (v : Json)
| AwaitingResponse.

Definition body_or_none (body : option Json) : Json :=
  match body with
  | Some j => j
  | None => JNull
  end.

(** [make_request], run against the responses the control plane gives to
    the successive requests. Every recursive call of the source sends one
    more request and so consumes one more response; when the list is
    used up the call is still waiting for the network. The
    [except Exception] arm logs and falls off the end of the function,
    which returns [None]. Every retry is a call nested in the one before
    it, and the interpreter is taken to have the stack for all the calls
    the list asks for: in the source a nesting of about a thousand calls
    ends with a RecursionError, which the [except Exception] arm turns
    into [None]. *)
Fixpoint make_request (responses : list Response) (attempt : Z)
    : list Event * Outcome :=
  match responses with
  | [] => ([Sent attempt], AwaitingResponse)
  | ConnectionFailed :: _ => ([Sent attempt], Returned JNull)
  | Http status body :: rest =>
      if (status =? 404) || (status =? 422) then
        ([Sent attempt], Returned JNull)
      else if status =? 401 then
        if attempt =? 2 then ([Sent attempt], Returned JNull)
        else
          let '(events, out) := make_request rest (attempt + 1) in
          (Sent attempt :: TokenRefreshed :: events, out)
      else if (status =? 424) || (500 <? status) then
        match body with
        | None => ([Sent attempt], Returned JNull)
        | Some _ =>
            let '(events, out) := make_request rest 0 in
            (Sent attempt :: Slept 1 :: events, out)
        end
      else ([Sent attempt], Returned (body_or_none body))
  end.

(** [send_request] called without a [response_model]: a string result is
    returned as it is, any other falsy result becomes [None]. *)
Definition send_request_plain (result : Json) : Json :=
  match result with
  | JStr _ => result
  | _ => if truthy result then result else JNull
  end.

(** [send_request] called with a [response_model] that is a model class,
    such as [FileMetadataRead]: a string result is returned as it is,
    another falsy result becomes [None], and every other result goes
    through [parse_obj_as], which raises when the document does not
    validate; [parses] is that validation, and the parsed object is kept
    as its document. *)
Definition send_request_model (parses : Json -> bool) (reply : Json)
    : result Json :=
  match reply with
  | JStr _ => Ok reply
  | _ =>
      if truthy reply then
        if parses reply then Ok reply else Raise ValidationError
      else Ok JNull
  end.

End SendRequest.

(** ** app/schemas/file_data.py *)

Module Schemas.

Inductive FileStatus : Type :=
| IGNORED
| WAIT_FOR_SCAN
| RESCAN_IN_PROGRESS
| SCANNED
| IN_PROGRESS
| SKIPPED
| FAILED.

(** A [datetime], as a reading of the clock. *)
Definition datetime : Type := Z.

(** [DataChunk]: a chunk as discovery plans it, and as the control plane
    returns it inside a metadata record. Its [id] is a UUID, drawn afresh
    when none is given. *)
Record DataChunk : Type := mkDataChunk {
  dc_id : string;
  dc_object_name : option string;
  dc_fetch_path : option string;
  dc_offset : option string;
  dc_limit : option Z;
  dc_scanned_at : option datetime;
  dc_status : FileStatus;
  dc_hash : option string;
  dc_instance_id : option string;
  dc_labels : option (list string);
  dc_latest_data_type : option datetime
}.

(** [DataChunkUpdate], without [sensitive_data]. *)
Record DataChunkUpdate : Type := mkDataChunkUpdate {
  dcu_id : option string;
  dcu_object_name : option string;
  dcu_fetch_path : option string;
  dcu_offset : option string;
  dcu_limit : option Z;
  dcu_scanned_at : option datetime;
  dcu_is_phi : option bool;
  dcu_status : option FileStatus;
  dcu_hash : option string;
  dcu_metadata_id : option string;
  dcu_instance_id : option string;
  dcu_latest_data_type : option datetime
}.

(** [ObjectContents]: the fields discovery, diff and scan read or write. *)
Record ObjectContents : Type := mkObjectContents {
  full_path : string;
  object_name : string;
  size : Z;
  service : string;
  fetch_path : string;
  etag : string;
  status : option FileStatus;
  data_chunks : list DataChunk;
  current_chunk : option DataChunkUpdate
}.

Definition set_status (st : FileStatus) (c : ObjectContents) : ObjectContents :=
  mkObjectContents (full_path c) (object_name c) (size c) (service c)
    (fetch_path c) (etag c) (Some st) (data_chunks c) (current_chunk c).

Definition set_data_chunks (cs : list DataChunk) (c : ObjectContents)
    : ObjectContents :=
  mkObjectContents (full_path c) (object_name c) (size c) (service c)
    (fetch_path c) (etag c) (status c) cs (current_chunk c).

(** [FileMetadata] as read from the control plane: the fields the diff
    reads. Its [chunks] are parsed as [DataChunk] and kept as dicts. *)
Record FileMetadata : Type := mkFileMetadata {
  fm_id : string;
  file_full_path : option string;
  file_etag : string;
  file_size : Z;
  fm_status : FileStatus;
  chunks : list DataChunk
}.

Definition set_file_size (n : Z) (m : FileMetadata) : FileMetadata :=
  mkFileMetadata (fm_id m) (file_full_path m) (file_etag m) n (fm_status m)
    (chunks m).

End Schemas.

(** ** app/core/config.py *)

Module Config.

Definition CHUNK_BYTES_CAPACITY : Z := 1000000.

Definition UNSUPPORTED_EXTENSIONS : list string :=
  [".png"; ".jpg"; ".jpeg"; ".gif"; ".bmp"; ".svg"; ".tif"; ".tiff";
   ".ico"; ".mbox"; ".webm"].

(** The settings read from the machine at start-up. *)
Record Settings : Type := mkSettings {
  SCANNER_ID : string;
  INITIAL_DISK_SPACE : Z
}.

(** [settings.OVERLAP_BYTES] *)
Definition OVERLAP_BYTES : Z := 255.

End Config.

(** ** app/services/file_service.py *)

Module FileService.
Import PyStr PyFloat Schemas Config.

Definition ARCHIVE_EXTENSIONS : list string :=
  [".zip"; ".tar"; ".tar.gz"; ".tar.bz2"].
Definition CONTAINER_TYPES : list string :=
  [".csv"; ".doc"; ".docx"; ".xlsx"; ".xls"; ".pdf"].

Inductive Compression : Type := NoCompression | Gzip | Bzip2.

(** The bytes of an object, as [zipfile] and [tarfile] read them: plain
    bytes that are no archive, a zip archive or a tar archive, with for
    every member its name, its uncompressed size and its own bytes. *)
Inductive Blob : Type :=
| Raw (content : list byte)
| ZipArchive (members : Members)
| TarArchive (c : Compression) (members : Members)
with Members : Type :=
| NoMember
| Member (name : string) (file_size : Z) (content : Blob) (rest : Members).

(** [not object_data] *)
Definition blob_empty (b : Blob) : bool :=
  match b with
  | Raw [] => true
  | _ => false
  end.

(** [object_data.startswith(b'PK')]: a zip archive starts with its
    signature, an uncompressed tar archive with the name of its first
    member, a compressed one with the signature of the compressor. *)
Definition startswith_PK (b : Blob) : bool :=
  match b with
  | Raw (x50 :: x4b :: _) => true
  | Raw _ => false
  | ZipArchive _ => true
  | TarArchive NoCompression (Member name _ _ _) => startswith "PK" name
  | TarArchive _ _ => false
  end.

(** [FileService.get_tar_read_mode] *)
Definition get_tar_read_mode (value : string) : string :=
  if endswith "tar.gz" value then "r:gz"
  else if endswith "tar.bz2" value then "r:bz2"
  else "r".

(** Whether [tarfile.open(mode=mode)] accepts an archive compressed with
    [c]: mode ["r"] is transparent, the others name one compressor. *)
Definition tar_mode_accepts (mode : string) (c : Compression) : bool :=
  if String.eqb mode "r" then true
  else if String.eqb mode "r:gz" then
    match c with Gzip => true | _ => false end
  else if String.eqb mode "r:bz2" then
    match c with Bzip2 => true | _ => false end
  else false.

(** [FileService.get_uncompressed_size]; opening bytes that are not the
    expected archive raises. *)
Fixpoint get_uncompressed_size (full_path : string) (object_data : Blob)
    {struct object_data} : result Z :=
  if endswith ".zip" full_path || startswith_PK object_data then
    match object_data with
    | ZipArchive ms => members_size ms
    | _ => Raise BadArchive
    end
  else if endswith_any [".tar"; ".tar.gz"; ".tar.bz2"] full_path then
    match object_data with
    | TarArchive c ms =>
        if tar_mode_accepts (get_tar_read_mode full_path) c
        then members_size ms
        else Raise BadArchive
    | _ => Raise BadArchive
    end
  else Ok 0
with members_size (ms : Members) {struct ms} : result Z :=
  match ms with
  | NoMember => Ok 0
  | Member name file_size content rest =>
      rbind (if endswith_any ARCHIVE_EXTENSIONS name
             then get_uncompressed_size name content
             else Ok 0) (fun nested =>
      rbind (members_size rest) (fun others =>
      Ok (file_size + nested + others)))
  end.

(** [ceil(a / b)]: the quotient is a float, and the ceiling is taken of
    the float. *)
Definition ceil_div (a b : Z) : result Z :=
  rbind (truediv a b) (fun quotient => Ok (ceil quotient)).

(** [range(n)] *)
Definition range (n : Z) : list Z := map Z.of_nat (seq 0 (Z.to_nat n)).

(** [s.rsplit(sep)[-1]] for a non-empty [sep]: what follows the last
    occurrence of [sep], or all of [s] when there is none. *)
Fixpoint rsplit_last (sep s : string) : string :=
  match s with
  | EmptyString => EmptyString
  | String c r =>
      if contains sep r then rsplit_last sep r
      else if String.prefix sep s
           then substring (String.length sep) (String.length s) s
           else s
  end.

(** What the service gets from its connector, the local disk and the
    parsers of container formats. *)
Record Connector : Type := mkConnector {
  read_data : string -> result (option Blob);
  path_exists : string -> bool;
  open_read : string -> result Blob;
  get_content_size : Blob -> string -> result Z;
  unpack_archive_locally : string -> Blob -> list (string * string);
  getsize : string -> result Z;
  (** [psutil.disk_usage('/').free], read when the archive is checked *)
  disk_free : Z;
  (** the [uuid4()] drawn for the chunk at index [i] of a path *)
  uuid4 : string -> Z -> string
}.

(** [disk_usage.check_archive_size] *)
Definition check_archive_size (free size : Z) : bool :=
  if size <? free then true else false.

Section Service.
Variable settings : Settings.
Variable env : Connector.

(** [FileService.check_archive_memory_cost]: [None] when estimating the
    size raised. *)
Definition check_archive_memory_cost (full_path : string)
    (object_data : Blob) : option bool :=
  match get_uncompressed_size full_path object_data with
  | Ok uncompressed_size =>
      Some (check_archive_size (disk_free env) uncompressed_size)
  | Raise _ => None
  end.

Definition new_chunk (fetch_path : string) (i : Z) : DataChunk :=
  {| dc_id := uuid4 env fetch_path i;
     dc_object_name := Some (rsplit_last "::" fetch_path);
     dc_fetch_path := Some fetch_path;
     dc_offset := Some (str_of_Z (i * CHUNK_BYTES_CAPACITY));
     dc_limit := Some CHUNK_BYTES_CAPACITY;
     dc_scanned_at := None;
     dc_status := WAIT_FOR_SCAN;
     dc_hash := None;
     dc_instance_id := Some (SCANNER_ID settings);
     dc_labels := None;
     dc_latest_data_type := None |}.

(** The size [create_file_chunks] plans with: for a container format
    the size of its extracted content; [None] when nothing could be
    read. *)
Definition planned_size (fetch_path object_name : string) (size : Z)
    : result (option Z) :=
  if endswith_any CONTAINER_TYPES fetch_path then
    if path_exists env fetch_path then
      rbind (open_read env fetch_path) (fun data =>
      rbind (get_content_size env data object_name) (fun n => Ok (Some n)))
    else
      rbind (read_data env fetch_path) (fun object_data =>
      match object_data with
      | None => Ok None
      | Some data =>
          if blob_empty data then Ok None
          else rbind (get_content_size env data object_name)
                     (fun n => Ok (Some n))
      end)
  else Ok (Some size).

(** [FileService.create_file_chunks] *)
Definition create_file_chunks (fetch_path object_name : string) (size : Z)
    : result (list DataChunk) :=
  if endswith_any UNSUPPORTED_EXTENSIONS object_name then Ok []
  else
    rbind (planned_size fetch_path object_name size) (fun planned =>
    match planned with
    | None => Ok []
    | Some size =>
        if size =? 0 then Ok []
        else
          rbind (ceil_div size CHUNK_BYTES_CAPACITY) (fun n =>
          Ok (map (new_chunk fetch_path) (range n)))
    end).

(** The loop of [collect_file_chunks] over the unpacked members. *)
Fixpoint chunks_of_unpacked (members : list (string * string))
    : result (list DataChunk) :=
  match members with
  | [] => Ok []
  | (fetch_path, object_name) :: rest =>
      rbind (getsize env fetch_path) (fun n =>
      rbind (create_file_chunks fetch_path object_name n) (fun chunks =>
      rbind (chunks_of_unpacked rest) (fun more => Ok (chunks ++ more)%list)))
  end.

(** The end of the [try] block: an object without chunks is done. *)
Definition without_chunks_scanned (content : ObjectContents)
    : ObjectContents :=
  match data_chunks content with
  | [] => set_status SCANNED content
  | _ => content
  end.

(** The [try] block of [collect_file_chunks]. *)
Definition collect_file_chunks_body (content : ObjectContents)
    : result (option ObjectContents) :=
  if endswith_any ARCHIVE_EXTENSIONS (fetch_path content) then
    if INITIAL_DISK_SPACE settings <=? size content then
      Ok (Some (set_status SKIPPED content))
    else
      rbind (read_data env (fetch_path content)) (fun object_data =>
      match object_data with
      | None => Ok None
      | Some data =>
          if blob_empty data then Ok None
          else
            match check_archive_memory_cost (full_path content) data with
            | Some true =>
                rbind (chunks_of_unpacked
                         (unpack_archive_locally env (full_path content) data))
                      (fun chunks =>
                Ok (Some (without_chunks_scanned
                            (set_data_chunks chunks content))))
            | _ => Ok None
            end
      end)
  else
    rbind (create_file_chunks (fetch_path content) (object_name content)
                              (size content)) (fun chunks =>
    Ok (Some (without_chunks_scanned (set_data_chunks chunks content)))).

(** [FileService.collect_file_chunks] *)
Definition collect_file_chunks (content : ObjectContents)
    : option ObjectContents :=
  if size content =? 0 then Some (set_status SCANNED content)
  else
    match collect_file_chunks_body content with
    | Ok r => r
    | Raise _ => Some (set_status FAILED content)
    end.

End Service.

(** [FileService.get_tar_archive_extension] *)
Definition get_tar_archive_extension (file_name : string) : string :=
  if endswith "tar.gz" file_name then "tar.gz"
  else if endswith "tar.bz2" file_name then "tar.bz2"
  else "tar".

End FileService.

(** ** app/services/base_scan_service.py and
       app/worker_tasks/multiprocessing_tasks.py *)

Module ScanService.
Import PyStr Schemas Config SendRequest.

(** A pandas [DataFrame]: named columns of cells, a missing cell being
    [NaN]. *)
Inductive Cell : Type :=
| NaN
| Value (v : string).

Definition DataFrame : Type := list (string * list Cell).

(** What [fetch_data] gives back for a chunk. *)
Inductive ChunkData : Type :=
| NoData
| Text (s : string)
| Frame (df : DataFrame).

(** A method bound to an object, such as [chunk.bool] written without a
    call ([DataFrame.bool] is a method of pandas 1.x and 2.x). *)
Inductive BoundMethod : Type :=
| DataFrame_bool (self : DataFrame).

(** Python truthiness of a method object: it defines neither [__bool__]
    nor [__len__]. *)
Definition method_truthy (m : BoundMethod) : bool := true.

(** Python truthiness of a string. *)
Definition str_truthy (s : string) : bool := negb (String.eqb s "").

(** [any(iterable)] *)
Definition any (bs : list bool) : bool := existsb (fun b => b) bs.

(** [BaseScanService.is_not_valid_chunk] *)
Definition is_not_valid_chunk (chunk : ChunkData) : bool :=
  any [ match chunk with
        | Text s => negb (str_truthy s)
        | _ => false
        end;
        match chunk with
        | Frame df => negb (method_truthy (DataFrame_bool df))
        | _ => false
        end;
        match chunk with
        | NoData => true
        | _ => false
        end ].

(** [BaseScanService.hash_data_chunk]; [md5] is [hashlib.md5] and
    [to_string] is [DataFrame.to_string(index=False)]. *)
Definition hash_data_chunk (md5 : list byte -> list byte)
    (to_string : DataFrame -> string) (chunk : ChunkData) : result string :=
  match chunk with
  | Frame df =>
      Ok (DataAnalysis.hexdigest
            (md5 (DataAnalysis.utf8_encode (to_string df))))
  | Text s => Ok (DataAnalysis.hexdigest (md5 (DataAnalysis.utf8_encode s)))
  | NoData => Raise AttributeError
  end.

(** The [update_params] of the batch update of chunks. *)
Record UpdateParams : Type := mkUpdateParams {
  up_object_size : Z;
  up_scanned_at : option datetime;
  up_instance_id : option string;
  up_labels : option (list string);
  up_hash : option string;
  up_status : FileStatus
}.

(** What the service does to the outside, in order: the requests to the
    control plane by method and endpoint, the reads from the source, and
    the stages of the analysis. *)
Inductive Effect : Type :=
| GetFileMetadata
| DeleteBatchMetadata (ids : list string)
| DeleteChunksBatch (ids : list string)
| PatchChunksBatch (metadata_id : string) (chunks : list string)
    (update_params : UpdateParams)
| PostChunksBatch (metadata_id : string) (metadata_size : Z)
    (metadata_status : FileStatus) (chunks : list DataChunk)
| PatchChunk (filter_params update_params : DataChunkUpdate)
| PutChunk (chunk : DataChunkUpdate)
| PostSensitiveData (metadata_id chunk_id : option string)
    (sensitive_data : list string)
| PutLastScanned (last_scanned : datetime)
| FetchData (fetch_path : string) (chunk_path : option string)
    (limit : option Z) (offset : Z)
| CompileHyperscanPatterns
| PhiProbe (object_name : string)
| Classify.

(** [str(o)], also inside an f-string: [None] prints as its name. *)
Definition fmt (o : option string) : string :=
  match o with
  | Some s => s
  | None => "None"
  end.

(** [int(s)] for the offset of a chunk: [None] is not a number, and a
    string has to be a decimal numeral, as [str] prints one; the signs,
    blanks and underscores [int] also reads are left out. *)
Definition int_of_offset (s : option string) : result Z :=
  match s with
  | None => Raise TypeError
  | Some s =>
      match NilZero.int_of_string s with
      | Some i => Ok (Z.of_int i)
      | None => Raise ValueError
      end
  end.

(** What a worker process finds around it when it runs one chunk. *)
Record Worker : Type := mkWorker {
  (** building the services and entering the service context succeed *)
  service_ready : bool;
  (** what [make_request] returns for the status update of the lease *)
  lease_reply : Json;
  (** [analysis_service.hyperscan] is there;
      [compile_hyperscan_patterns] itself logs what compiling raises *)
  hyperscan_ready : bool;
  fetch_data : string -> option string -> option Z -> Z -> result ChunkData;
  rescan_mode : bool;
  is_phi_in_file_data : string -> ChunkData -> bool;
  (** the batches [scan_file_object] yields, each a list of findings *)
  scan_file_object : string -> ChunkData -> list (list string);
  (** [datetime.utcnow()] when the chunk is saved *)
  utcnow_saved : datetime;
  (** [datetime.utcnow()] when the classification group is updated *)
  utcnow_finished : datetime
}.

(** The model [save_chunk] sends: the current chunk without its unset
    fields, with the status and the scan time overwritten. *)
Definition scanned_chunk (now : datetime) (chunk : DataChunkUpdate)
    : DataChunkUpdate :=
  {| dcu_id := dcu_id chunk;
     dcu_object_name := dcu_object_name chunk;
     dcu_fetch_path := dcu_fetch_path chunk;
     dcu_offset := dcu_offset chunk;
     dcu_limit := dcu_limit chunk;
     dcu_scanned_at := Some now;
     dcu_is_phi := dcu_is_phi chunk;
     dcu_status := Some SCANNED;
     dcu_hash := dcu_hash chunk;
     dcu_metadata_id := dcu_metadata_id chunk;
     dcu_instance_id := dcu_instance_id chunk;
     dcu_latest_data_type := dcu_latest_data_type chunk |}.

Definition set_hash (h : option string) (c : DataChunkUpdate) : DataChunkUpdate :=
  mkDataChunkUpdate (dcu_id c) (dcu_object_name c) (dcu_fetch_path c)
    (dcu_offset c) (dcu_limit c) (dcu_scanned_at c) (dcu_is_phi c)
    (dcu_status c) h (dcu_metadata_id c) (dcu_instance_id c)
    (dcu_latest_data_type c).

Definition set_is_phi (b : bool) (c : DataChunkUpdate) : DataChunkUpdate :=
  mkDataChunkUpdate (dcu_id c) (dcu_object_name c) (dcu_fetch_path c)
    (dcu_offset c) (dcu_limit c) (dcu_scanned_at c) (Some b)
    (dcu_status c) (dcu_hash c) (dcu_metadata_id c) (dcu_instance_id c)
    (dcu_latest_data_type c).

Definition set_latest_data_type (t : option datetime) (c : DataChunkUpdate)
    : DataChunkUpdate :=
  mkDataChunkUpdate (dcu_id c) (dcu_object_name c) (dcu_fetch_path c)
    (dcu_offset c) (dcu_limit c) (dcu_scanned_at c) (dcu_is_phi c)
    (dcu_status c) (dcu_hash c) (dcu_metadata_id c) (dcu_instance_id c) t.

Section Pipeline.
Variable w : Worker.

(** [BaseScanService.save_chunk]: one PUT; a failure of the request is
    logged and not raised. *)
Definition save_chunk (chunk : DataChunkUpdate) : list Effect :=
  [PutChunk (scanned_chunk (utcnow_saved w) chunk)].

(** The loop of [analyze_content_data] over the batches of findings:
    an empty batch is not sent. *)
Definition report (chunk : DataChunkUpdate) (batches : list (list string))
    : list Effect :=
  flat_map (fun sensitive_data =>
              match sensitive_data with
              | [] => []
              | _ => [PostSensitiveData (dcu_metadata_id chunk) (dcu_id chunk)
                                        sensitive_data]
              end) batches.

(** [BaseScanService.analyze_content_data]: what it did, and whether it
    returned or raised. *)
Definition analyze_content_data (content : ObjectContents)
    : list Effect * result unit :=
  match current_chunk content with
  | None => ([], Raise AttributeError)
  | Some chunk =>
      match int_of_offset (dcu_offset chunk) with
      | Raise e => ([], Raise e)
      | Ok offset =>
          let fetch := FetchData (fetch_path content) (dcu_fetch_path chunk)
                                 (dcu_limit chunk) offset in
          match fetch_data w (fetch_path content) (dcu_fetch_path chunk)
                           (dcu_limit chunk) offset with
          | Raise e => ([fetch], Raise e)
          | Ok data =>
              if is_not_valid_chunk data then
                (fetch :: save_chunk chunk, Ok tt)
              else
                let chunk :=
                  if rescan_mode w then set_hash None chunk else chunk in
                let chunk :=
                  set_is_phi (is_phi_in_file_data w (object_name content) data)
                             chunk in
                (fetch :: PhiProbe (object_name content) :: Classify
                   :: (report chunk (scan_file_object w (object_name content) data)
                       ++ save_chunk chunk)%list,
                 Ok tt)
          end
      end
  end.

(** [BaseScanService.scanning_update_status]: the request, and what
    [send_request] hands back for it. The id given to [DataChunkUpdate]
    goes through the validator of the field, which is [str]: the filter
    carries the id of the chunk, and the text None for a chunk that has
    none. *)
Definition scanning_update_status (object_content : DataChunkUpdate)
    (status : FileStatus) (scanner_id : string)
    (filter_status : option FileStatus) : Effect * Json :=
  (PatchChunk
     {| dcu_id := Some (fmt (dcu_id object_content));
        dcu_object_name := None; dcu_fetch_path := None;
        dcu_offset := None; dcu_limit := None; dcu_scanned_at := None;
        dcu_is_phi := None; dcu_status := filter_status;
        dcu_hash := None; dcu_metadata_id := None;
        dcu_instance_id := None; dcu_latest_data_type := None |}
     {| dcu_id := None;
        dcu_object_name := None; dcu_fetch_path := None;
        dcu_offset := None; dcu_limit := None; dcu_scanned_at := None;
        dcu_is_phi := None; dcu_status := Some status;
        dcu_hash := None; dcu_metadata_id := None;
        dcu_instance_id := Some scanner_id; dcu_latest_data_type := None |},
   send_request_plain (lease_reply w)).

(** [run_scanner]: every exception ends the run silently. *)
Definition run_scanner (object_content : ObjectContents)
    (latest_data_type : option datetime) (scanner_id : string)
    : list Effect :=
  match current_chunk object_content with
  | None => []
  | Some chunk =>
      let chunk := set_latest_data_type latest_data_type chunk in
      let object_content :=
        mkObjectContents (full_path object_content)
          (object_name object_content) (size object_content)
          (service object_content) (fetch_path object_content)
          (etag object_content) (status object_content)
          (data_chunks object_content) (Some chunk) in
      if negb (service_ready w) then []
      else
        let '(lease, update_result) :=
          scanning_update_status chunk IN_PROGRESS scanner_id
                                 (Some WAIT_FOR_SCAN) in
        if negb (truthy update_result) then [lease]
        else if negb (hyperscan_ready w) then [lease]
        else
          let '(effects, outcome) := analyze_content_data object_content in
          match outcome with
          | Ok _ =>
              (lease :: CompileHyperscanPatterns :: effects
                 ++ [PutLastScanned (utcnow_finished w)])%list
          | Raise _ => lease :: CompileHyperscanPatterns :: effects
          end
  end.

End Pipeline.

(** The lease of the specification: the conditional update of the status
    to IN_PROGRESS under the id of the scanner, filtered on the id of the
    chunk, as [str] prints it, and on the status WAIT_FOR_SCAN. *)
Definition lease_request (chunk : DataChunkUpdate) (scanner_id : string) : Effect :=
  PatchChunk
    (mkDataChunkUpdate (Some (fmt (dcu_id chunk))) None None None None None None
       (Some WAIT_FOR_SCAN) None None None None)
    (mkDataChunkUpdate None None None None None None None
       (Some IN_PROGRESS) None None (Some scanner_id) None).

(** Whether an effect is part of scanning a chunk: reading it, probing or
    classifying it, reporting findings or saving it. *)
Definition is_scan_work (e : Effect) : bool :=
  match e with
  | FetchData _ _ _ _ | CompileHyperscanPatterns | PhiProbe _ | Classify
  | PostSensitiveData _ _ _ | PutChunk _ | PutLastScanned _ => true
  | _ => false
  end.

(** The statuses an effect writes into the records of the control plane:
    those of its update parameters or of the records it sends. *)
Definition statuses_written (e : Effect) : list FileStatus :=
  match e with
  | PatchChunksBatch _ _ update_params => [up_status update_params]
  | PostChunksBatch _ _ metadata_status chunks =>
      metadata_status :: map dc_status chunks
  | PatchChunk _ update_params =>
      match dcu_status update_params with
      | Some st => [st]
      | None => []
      end
  | PutChunk chunk =>
      match dcu_status chunk with
      | Some st => [st]
      | None => []
      end
  | _ => []
  end.

(** *** The source diff *)

(** [d[k] = v] on a dict kept in insertion order: a key already there
    keeps its place and takes the new value. *)
Fixpoint dict_set {K V : Type} `{EqDecision K} (k : K) (v : V)
    (d : list (K * V)) : list (K * V) :=
  match d with
  | [] => [(k, v)]
  | (k', v') :: r =>
      if decide (k = k') then (k, v) :: r else (k', v') :: dict_set k v r
  end.

(** The dict a comprehension or a loop of assignments builds from the
    pairs in [kvs]. *)
Definition dict_of {K V : Type} `{EqDecision K} (kvs : list (K * V))
    : list (K * V) :=
  fold_left (fun d kv => dict_set kv.1 kv.2 d) kvs [].

(** [s.split(',')[i]]; the strings split here are built with the commas
    the index needs. *)
Definition comma_piece (i : nat) (s : string) : string :=
  nth i (split_char "," s) "".

(** The service object: the metadata it holds, and the replies the control
    plane will give to the next loads of the metadata. *)
Record Service : Type := mkService {
  stored_source_metadata : list FileMetadata;
  replies : list (list FileMetadata)
}.

(** A method of the service: it may raise, it changes the service, and it
    acts on the outside. *)
Definition M (A : Type) : Type := Service -> result A * Service * list Effect.

Definition ret {A} (a : A) : M A := fun s => (Ok a, s, []).

Definition bind {A B} (m : M A) (k : A -> M B) : M B := fun s =>
  match m s with
  | (Ok a, s', es) =>
      match k a s' with
      | (r, s'', es') => (r, s'', (es ++ es')%list)
      end
  | (Raise e, s', es) => (Raise e, s', es)
  end.

Definition emit (e : Effect) : M unit := fun s => (Ok tt, s, [e]).

Definition lift {A} (r : result A) : M A := fun s => (r, s, []).

Definition get_service : M Service := fun s => (Ok s, s, []).

(** The run [r], after the effects [es] have happened. *)
Definition after_effects {A} (es : list Effect)
    (r : result A * Service * list Effect) : result A * Service * list Effect :=
  (r.1.1, r.1.2, (es ++ r.2)%list).

Notation "'let*' x ':=' m 'in' k" := (bind m (fun x => k))
  (at level 10, x name, m at level 100, k at level 200).

(** The service whose record at position [i] has been given the size
    [n]. *)
Definition resized (i : nat) (n : Z) (s : Service) : Service :=
  mkService (alter (set_file_size n) i (stored_source_metadata s)) (replies s).

(** [meta_obj.file_size = n] on the record at position [i] of
    [stored_source_metadata]. *)
Definition assign_file_size (i : nat) (n : Z) : M unit := fun s =>
  (Ok tt, resized i n s, []).

(** [{meta.file_full_path: meta for meta in stored_source_metadata}]: a
    path is bound to the last record that has it. The dict holds the
    records of the list themselves, not copies of them; here it holds
    their positions in the list. *)
Definition metadata_by_path (stored : list FileMetadata)
    : gmap (option string) nat :=
  fold_left (fun d im => <[file_full_path im.2 := im.1]> d)
            (combine (seq 0 (List.length stored)) stored) ∅.

Section Diff.
Variable scanner_id : string.
Variable sha384 : list byte -> list byte.
Variable fetch_data : string -> option string -> option Z -> Z -> result ChunkData.
(** What [make_request] returns for the batch deletion of metadata. *)
Variable deletion_reply : Json.
(** Whether a document validates as a [FileMetadataRead]. *)
Variable parses_as_metadata : Json -> bool.

(** [BaseScanService.load_stored_metadata]: a failed load leaves an empty
    list. *)
Definition load_stored_metadata : M unit := fun s =>
  match replies s with
  | metadata :: later => (Ok tt, mkService metadata later, [GetFileMetadata])
  | [] => (Ok tt, mkService [] [], [GetFileMetadata])
  end.

(** [BaseScanService.delete_file_metadata]: the request, and the parse of
    its reply as a [FileMetadataRead], which is not inside a [try]. *)
Definition delete_file_metadata (ids : list string) : M unit :=
  let* _ := emit (DeleteBatchMetadata ids) in
  let* _ := lift (send_request_model parses_as_metadata deletion_reply) in
  ret tt.

(** [BaseScanService.remove_deleted_metadata] *)
Definition remove_deleted_metadata (fetched_objects : list ObjectContents)
    : M unit :=
  let* s := get_service in
  let source_objects_paths : gset (option string) :=
    list_to_set (map (fun obj => Some (full_path obj)) fetched_objects) in
  let db_objects_dict :=
    dict_of (map (fun metadata => (file_full_path metadata, fm_id metadata))
                 (stored_source_metadata s)) in
  let db_object_paths : gset (option string) :=
    list_to_set (map fst db_objects_dict) in
  let files_to_delete := db_object_paths ∖ source_objects_paths in
  if bool_decide (files_to_delete = ∅) then ret tt
  else
    let meta_ids :=
      map snd (filter (fun kv => kv.1 ∈ files_to_delete) db_objects_dict) in
    match meta_ids with
    | [] => ret tt
    | _ =>
        let* _ := delete_file_metadata meta_ids in
        load_stored_metadata
    end.

(** [f'{path}{offset}'], the key of a chunk in the tombstone set. *)
Definition tombstone_key (path offset : option string) : string :=
  fmt path ++ fmt offset.

(** [BaseScanService.remove_deleted_chunks]; the ids go out in the order
    of the dict, the source iterates a set whose order is not specified. *)
Definition remove_deleted_chunks (fetched_objects : list ObjectContents)
    : M (gset string) :=
  let* s := get_service in
  let source_objects_chunks : gset string :=
    list_to_set
      (flat_map (fun obj =>
                   map (fun chunk => tombstone_key (Some (full_path obj))
                                                   (dc_offset chunk))
                       (data_chunks obj))
                fetched_objects) in
  let db_object_chunks_dict :=
    dict_of
      (flat_map (fun meta =>
                   map (fun chunk => (tombstone_key (file_full_path meta)
                                                    (dc_offset chunk),
                                      dc_id chunk))
                       (chunks meta))
                (stored_source_metadata s)) in
  let chunks_to_delete : gset string :=
    list_to_set (map fst db_object_chunks_dict) ∖ source_objects_chunks in
  let chunk_ids :=
    map snd (filter (fun kv => kv.1 ∈ chunks_to_delete) db_object_chunks_dict) in
  match chunk_ids with
  | [] => ret chunks_to_delete
  | _ =>
      let* _ := emit (DeleteChunksBatch chunk_ids) in
      let* _ := load_stored_metadata in
      ret chunks_to_delete
  end.

(** [analysis_service.hash_data(data)] on whatever was fetched: only a
    string has [encode]. On a frame the attribute [encode] is looked up
    among the columns, and a column of that name is not callable. *)
Definition hash_fetched (data : ChunkData) : result string :=
  match data with
  | Text s => Ok (DataAnalysis.hash_data sha384 s)
  | Frame df =>
      if existsb (fun column => String.eqb column.1 "encode") df
      then Raise TypeError
      else Raise AttributeError
  | NoData => Raise AttributeError
  end.

(** [f'{path},{offset},{hash}'] *)
Definition chunk_key (path offset hash : string) : string :=
  path ++ "," ++ offset ++ "," ++ hash.

(** The planned chunks of [obj] outside the tombstone set. *)
Definition live_planned (deleted_chunks : gset string) (obj : ObjectContents)
    : list DataChunk :=
  filter (fun chunk =>
            tombstone_key (Some (full_path obj)) (dc_offset chunk)
            ∉ deleted_chunks)
         (data_chunks obj).

(** The read the diff issues for a planned chunk whose offset is a
    numeral. *)
Definition fetch_of (obj : ObjectContents) (chunk : DataChunk) : Effect :=
  FetchData (fetch_path obj) (dc_fetch_path chunk) (dc_limit chunk)
            (match int_of_offset (dc_offset chunk) with
             | Ok offset => offset
             | Raise _ => 0
             end).

(** The fetch of [chunk] succeeds and gives the text [body chunk]. *)
Definition fetches_text (obj : ObjectContents) (body : DataChunk -> string)
    (chunk : DataChunk) : Prop :=
  exists offset,
    int_of_offset (dc_offset chunk) = Ok offset
    /\ fetch_data (fetch_path obj) (dc_fetch_path chunk) (dc_limit chunk) offset
       = Ok (Text (body chunk)).

(** The key of a planned chunk whose body was fetched and hashed. *)
Definition fresh_key (obj : ObjectContents) (body : DataChunk -> string)
    (chunk : DataChunk) : string :=
  chunk_key (full_path obj) (fmt (dc_offset chunk))
            (DataAnalysis.hash_data sha384 (body chunk)).

(** The first inner loop of [remove_deleted_files_from_db]: fetch and hash
    every planned chunk that is not in the tombstone set. *)
Fixpoint fetch_object_chunks (deleted_chunks : gset string)
    (obj : ObjectContents) (planned : list DataChunk) : M (list string) :=
  match planned with
  | [] => ret []
  | chunk :: later =>
      if bool_decide (tombstone_key (Some (full_path obj)) (dc_offset chunk)
                      ∈ deleted_chunks)
      then fetch_object_chunks deleted_chunks obj later
      else
        let* offset := lift (int_of_offset (dc_offset chunk)) in
        let* _ := emit (FetchData (fetch_path obj) (dc_fetch_path chunk)
                                  (dc_limit chunk) offset) in
        let* data := lift (fetch_data (fetch_path obj) (dc_fetch_path chunk)
                                      (dc_limit chunk) offset) in
        let* hash := lift (hash_fetched data) in
        let* more := fetch_object_chunks deleted_chunks obj later in
        ret (chunk_key (full_path obj) (fmt (dc_offset chunk)) hash :: more)
  end.

(** The stored chunks of [meta_obj] outside the tombstone set. *)
Definition live_stored (deleted_chunks : gset string) (meta_obj : FileMetadata)
    : list DataChunk :=
  filter (fun chunk =>
            tombstone_key (file_full_path meta_obj) (dc_offset chunk)
            ∉ deleted_chunks)
         (chunks meta_obj).

(** [f'{meta_obj.file_full_path},{chunk.get("offset")},{chunk.get("hash")}'] *)
Definition stored_key (meta_obj : FileMetadata) (chunk : DataChunk) : string :=
  chunk_key (fmt (file_full_path meta_obj)) (fmt (dc_offset chunk))
            (fmt (dc_hash chunk)).

(** The second inner loop: the stored chunks outside the tombstone set,
    keyed by path, offset and stored hash. *)
Definition metadata_chunk_keys (deleted_chunks : gset string)
    (meta_obj : FileMetadata) : list (string * string) :=
  dict_of
    (map (fun chunk =>
            (stored_key meta_obj chunk, dc_id chunk ++ "," ++ fm_id meta_obj))
         (live_stored deleted_chunks meta_obj)).

(** The [update_params] of [update_metadata_existing_chunks]. *)
Definition reset_params (metadata : FileMetadata) : UpdateParams :=
  {| up_object_size := file_size metadata;
     up_scanned_at := None;
     up_instance_id := Some scanner_id;
     up_labels := None;
     up_hash := None;
     up_status := WAIT_FOR_SCAN |}.

(** [BaseScanService.update_metadata_existing_chunks] *)
Definition update_metadata_existing_chunks (object_chunks : list string)
    (metadata : FileMetadata) (metadata_chunks : list (string * string))
    : M (gset string) :=
  let chunks_to_update : gset string :=
    list_to_set (map fst metadata_chunks) ∖ list_to_set object_chunks in
  let filter_chunks :=
    map (fun kv => comma_piece 0 kv.2)
        (filter (fun kv => kv.1 ∈ chunks_to_update) metadata_chunks) in
  match filter_chunks with
  | [] => ret chunks_to_update
  | _ =>
      let* _ := emit (PatchChunksBatch (fm_id metadata) filter_chunks
                                       (reset_params metadata)) in
      ret chunks_to_update
  end.

(** [BaseScanService.create_newly_added_chunks] *)
Definition create_newly_added_chunks (source_objects_chunks : list string)
    (db_chunks : list (string * string)) (metadata : FileMetadata)
    (obj_value : ObjectContents) (updated_chunks : gset string) : M unit :=
  let filtered_chunks : gset string :=
    list_to_set source_objects_chunks ∖ list_to_set (map fst db_chunks) in
  let offsets_to_update := map (comma_piece 1) (elements updated_chunks) in
  let offsets_to_create :=
    filter (fun offset => offset ∉ offsets_to_update)
           (map (comma_piece 1) (elements filtered_chunks)) in
  let chunks_to_create_list :=
    filter (fun chunk => dc_offset chunk ∈ map Some offsets_to_create)
           (data_chunks obj_value) in
  match chunks_to_create_list with
  | [] => ret tt
  | _ => emit (PostChunksBatch (fm_id metadata) (file_size metadata)
                               WAIT_FOR_SCAN chunks_to_create_list)
  end.

(** The body of the loop of [remove_deleted_files_from_db] for one source
    object whose stored record is [meta_obj], after the size guard. *)
Definition reconcile_chunks (deleted_chunks : gset string)
    (obj : ObjectContents) (meta_obj : FileMetadata) : M unit :=
  let* object_chunks :=
    fetch_object_chunks deleted_chunks obj (data_chunks obj) in
  let metadata_chunks := metadata_chunk_keys deleted_chunks meta_obj in
  let* updated_chunks :=
    update_metadata_existing_chunks object_chunks meta_obj metadata_chunks in
  create_newly_added_chunks object_chunks metadata_chunks meta_obj obj
                            updated_chunks.

(** The loop of [remove_deleted_files_from_db] over [objects_paths_sizes].
    [metadata_paths_sizes] gives for a path the position of its record in
    [stored_source_metadata], which no step of the loop loads again; the
    new size is assigned to that record before anything is fetched. *)
Fixpoint reconcile_objects (deleted_chunks : gset string)
    (items : list (string * Z * ObjectContents))
    (metadata_paths_sizes : gmap (option string) nat) : M unit := fun s =>
  match items with
  | [] => ret tt s
  | (key, obj) :: later =>
      match metadata_paths_sizes !! Some key.1
            ≫= (fun i => (fun meta_obj => (i, meta_obj))
                           <$> stored_source_metadata s !! i) with
      | None => reconcile_objects deleted_chunks later metadata_paths_sizes s
      | Some (i, meta_obj) =>
          if file_size meta_obj =? key.2 then
            reconcile_objects deleted_chunks later metadata_paths_sizes s
          else
            (let* _ := assign_file_size i key.2 in
             let* _ := reconcile_chunks deleted_chunks obj
                                        (set_file_size key.2 meta_obj) in
             reconcile_objects deleted_chunks later metadata_paths_sizes) s
      end
  end.

(** [BaseScanService.remove_deleted_files_from_db] *)
Definition remove_deleted_files_from_db (fetched_objects : list ObjectContents)
    : M unit :=
  let* s := get_service in
  match stored_source_metadata s with
  | [] => ret tt
  | _ =>
      let* _ := remove_deleted_metadata fetched_objects in
      let* deleted_chunks := remove_deleted_chunks fetched_objects in
      let* s := get_service in
      let metadata_paths_sizes :=
        metadata_by_path (stored_source_metadata s) in
      let objects_paths_sizes :=
        dict_of (map (fun obj => ((full_path obj, size obj), obj))
                     fetched_objects) in
      reconcile_objects deleted_chunks objects_paths_sizes metadata_paths_sizes
  end.

End Diff.

End ScanService.

(** ** app/services/data_analysis_service.py: the batches of findings *)

Module Findings.
Import PyStr Schemas DataAnalysis ScanService.

Definition SENSITIVE_DATA_CHUNK : Z := 100000.

(** [DataAnalysisService.is_db_service] *)
Definition is_db_service (service : string) : bool :=
  existsb (String.eqb service)
    ["RedshiftCluster"; "SnowflakeDatabases"; "RelationalDatabaseService";
     "DynamoDB"; "DocumentDBCluster"].

Section Batches.
Variable sha384 : list byte -> list byte.
(** [self.id_name_mapper] *)
Variable id_name_mapper : gmap Z string.
(** The results [_analyze] yields for a text, each an id and a value;
    the empty list it yields last is skipped by the loop. *)
Variable _analyze : string -> list (Z * string).

(** The loop of [_process_data]: [processed_results] is the batch under
    construction. An id without a name makes [_get_region(None)] raise,
    which ends the loop; the batch is yielded as it stands. A yielded
    batch is the list as it is when it is yielded; the generator clears
    it when it is resumed. *)
Fixpoint process_results (object_name : string) (column_name : option string)
    (results : list (Z * string)) (processed_results : list Finding)
    : list (list Finding) :=
  match results with
  | [] => [processed_results]
  | (_id, value) :: later =>
      match id_name_mapper !! _id with
      | None => [processed_results]
      | Some recognizer =>
          match process_result sha384 object_name recognizer value
                               column_name with
          | Raise _ => [processed_results]
          | Ok file_data =>
              let processed_results :=
                (processed_results ++ [file_data])%list in
              if SENSITIVE_DATA_CHUNK
                 <=? Z.of_nat (List.length processed_results)
              then processed_results
                   :: process_results object_name column_name later []
              else process_results object_name column_name later
                                   processed_results
          end
      end
  end.

(** [file_data] is the finding made of [result], whose id has a name. *)
Definition finding_of (object_name : string) (column_name : option string)
    (result : Z * string) (file_data : Finding) : Prop :=
  exists recognizer,
    id_name_mapper !! result.1 = Some recognizer
    /\ process_result sha384 object_name recognizer result.2 column_name
       = Ok file_data.

(** [if column_name:] an empty name is no name. *)
Definition truthy_column (column_name : option string) : option string :=
  match column_name with
  | Some name => if String.eqb name "" then None else Some name
  | None => None
  end.

(** [DataAnalysisService._process_data] on the text [data]. *)
Definition _process_data (object_name data : string)
    (column_name : option string) : list (list Finding) :=
  process_results object_name (truthy_column column_name) (_analyze data) [].

End Batches.

End Findings.

(** ** app/services/s3_service.py, with the readers of
       app/services/file_service.py *)

Module S3Service.
Import PyStr Schemas Config ScanService.

Definition CSV_DELIMITERS : list string :=
  [","; String "009" ""; ";"; "|"].
Definition CSV_ENCODINGS : list string :=
  ["ISO-8859-1"; "utf-8"; "windows-1252"; "utf-16"; "utf-16le"; "utf-16be";
   "ascii"].

(** [l[lo:hi]] on a list. *)
Definition slice_list {A : Type} (l : list A) (lo hi : Z) : list A :=
  let n := Z.of_nat (List.length l) in
  let a := clamp n lo in
  let b := clamp n hi in
  firstn (Z.to_nat (b - a)) (skipn (Z.to_nat a) l).

(** [df.iloc[lo:hi]]: the rows from [lo] to [hi] of every column. *)
Definition iloc (df : DataFrame) (lo hi : Z) : DataFrame :=
  map (fun column => (column.1, slice_list column.2 lo hi)) df.

(** What [pd.read_csv] gives for one encoding and one delimiter. *)
Inductive CsvOutcome : Type :=
| CsvFrame (content : DataFrame)
| CsvUnreadable
    (** [UnicodeError] or [ParserError]: the next combination is tried *)
| CsvError.
    (** any other exception, [EmptyDataError] included *)

(** The parsers of the container formats and the decoder of plain
    objects. *)
Record Parsers : Type := mkParsers {
  (** the text of every page, [PdfFileReader] and [extractText] *)
  pdf_pages : list byte -> result (list string);
  (** the sheets read by [pd.read_excel] with the given engine, joined by
      [pd.concat(..., ignore_index=True)] *)
  read_excel : string -> list byte -> result DataFrame;
  (** [pd.read_csv] with the given encoding and delimiter *)
  read_csv : list byte -> string -> string -> CsvOutcome;
  (** the texts of the paragraphs of a [docx.Document] *)
  docx_paragraphs : list byte -> result (list string);
  (** the standard output of [antiword] *)
  antiword : list byte -> result string;
  (** [bytes.decode(errors='replace')] *)
  decode_replace : list byte -> string
}.

(** [offset + limit]; [limit] is an [Optional[int]] of the chunk. *)
Definition window_end (offset : Z) (limit : option Z) : result Z :=
  match limit with
  | Some limit => Ok (offset + limit)
  | None => Raise TypeError
  end.

(** The loops of the [csv] branch of [prepare_file] over the delimiters
    and the encodings: the first combination that parses wins. *)
Fixpoint read_csv_first (p : Parsers) (object_data : list byte)
    (attempts : list (string * string)) : result (option DataFrame) :=
  match attempts with
  | [] => Ok None
  | (delimiter, encoding) :: rest =>
      match read_csv p object_data encoding delimiter with
      | CsvFrame content => Ok (Some content)
      | CsvUnreadable => read_csv_first p object_data rest
      | CsvError => Raise ValueError
      end
  end.

(** The [try] block of [FileService.prepare_file]. *)
Definition prepare_file_body (p : Parsers) (object_data : list byte)
    (file_name : string) (limit : option Z) (offset : Z) : result ChunkData :=
  if endswith "pdf" file_name then
    rbind (pdf_pages p object_data) (fun pages =>
    rbind (window_end offset limit) (fun stop =>
    Ok (Text (slice (String.concat "" pages) (Some offset) (Some stop)))))
  else if endswith_any ["xlsx"; "xls"] file_name then
    rbind (read_excel p (if endswith "xlsx" file_name
                         then "openpyxl" else "xlrd") object_data)
          (fun combined_df =>
    rbind (window_end offset limit) (fun stop =>
    Ok (Frame (iloc combined_df offset stop))))
  else if endswith "csv" file_name then
    rbind (read_csv_first p object_data
                          (list_prod CSV_DELIMITERS CSV_ENCODINGS))
          (fun content =>
    match content with
    | Some content =>
        rbind (window_end offset limit) (fun stop =>
        Ok (Frame (iloc content offset stop)))
    | None => Ok NoData
    end)
  else if endswith "docx" file_name then
    rbind (docx_paragraphs p object_data) (fun paragraphs =>
    rbind (window_end offset limit) (fun stop =>
    Ok (Text (slice (join "010" (filter (fun text => text <> "") paragraphs))
                    (Some offset) (Some stop)))))
  else if endswith "doc" file_name then
    rbind (antiword p object_data) (fun stdout =>
    rbind (window_end offset limit) (fun stop =>
    Ok (Text (slice stdout (Some offset) (Some stop)))))
  else if endswith_any UNSUPPORTED_EXTENSIONS file_name then Ok (Text "")
  else
    rbind (window_end offset limit) (fun stop =>
    Ok (Text (slice (decode_replace p object_data) (Some offset) (Some stop)))).

(** [FileService.prepare_file]: every exception gives [None]. *)
Definition prepare_file (p : Parsers) (object_data : list byte)
    (file_name : string) (limit : option Z) (offset : Z) : ChunkData :=
  match prepare_file_body p object_data file_name limit offset with
  | Ok data => data
  | Raise _ => NoData
  end.

(** The files on the local disk, by path. *)
Definition Disk : Type := gmap string (list byte).

(** [FileService.read_archive_object_chunk]: a file that cannot be opened
    gives [None]. *)
Definition read_archive_object_chunk (p : Parsers) (disk : Disk)
    (chunk_path : string) (limit : option Z) (offset : Z) : ChunkData :=
  match disk !! chunk_path with
  | Some content =>
      prepare_file p content (last_piece (split_char "/" chunk_path))
                   limit offset
  | None => NoData
  end.

(** What the service reads from its bucket. *)
Record Bucket : Type := mkBucket {
  (** [str(self.source)] *)
  source : string;
  (** [S3Service.read_data]: the whole object, [None] when the request
      fails *)
  read_data : string -> option (list byte);
  (** [S3Service.read_data_chunk fetch_path limit offset]: the answer to
      a request with the header [Range: bytes={offset}-{offset+limit}],
      [None] when the request fails *)
  read_data_chunk : string -> Z -> Z -> option (list byte);
  (** the local disk after [FileService.unpack_archive_locally] has run
      to its end on the bytes of an archive *)
  unpack_archive_locally : string -> list byte -> Disk -> Disk
}.

(** [S3Service.fetch_data]: what it returns or raises, and the local disk
    it leaves. *)
Definition fetch_data (b : Bucket) (p : Parsers) (disk : Disk)
    (fetch_path : string) (chunk_path : option string) (limit : option Z)
    (offset : Z) : result ChunkData * Disk :=
  match (if 0 <? offset
         then match limit with
              | Some limit => Ok (Some (limit + OVERLAP_BYTES))
              | None => Raise TypeError
              end
         else Ok limit) with
  | Raise e => (Raise e, disk)
  | Ok limit =>
      let offset := if 0 <? offset then offset - OVERLAP_BYTES else offset in
      if endswith_any FileService.ARCHIVE_EXTENSIONS fetch_path then
        match chunk_path with
        | None => (Raise TypeError, disk)
        | Some chunk_path =>
            match disk !! chunk_path with
            | Some _ =>
                (Ok (read_archive_object_chunk p disk chunk_path limit offset),
                 disk)
            | None =>
                match read_data b fetch_path with
                | None | Some [] => (Ok NoData, disk)
                | Some object_data =>
                    let full_path := source b ++ "/" ++ fetch_path in
                    let disk :=
                      unpack_archive_locally b full_path object_data disk in
                    (Ok (read_archive_object_chunk p disk chunk_path limit
                                                   offset), disk)
                end
            end
        end
      else
        let object_data :=
          if endswith_any FileService.CONTAINER_TYPES fetch_path
          then read_data b fetch_path
          else match limit with
               | Some limit => read_data_chunk b fetch_path limit offset
               | None => None
               end in
        match object_data with
        | None | Some [] => (Ok NoData, disk)
        | Some object_data =>
            (Ok (prepare_file p object_data fetch_path limit offset), disk)
        end
  end.

(** A name that takes the last branch of [prepare_file]: its bytes are
    decoded as text. *)
Definition read_as_text (file_name : string) : Prop :=
  endswith_any ["pdf"; "xlsx"; "xls"; "csv"; "docx"; "doc"] file_name = false
  /\ endswith_any UNSUPPORTED_EXTENSIONS file_name = false.

(** A path that [fetch_data] reads by range and as text. *)
Definition plain_text (fetch_path : string) : Prop :=
  endswith_any FileService.ARCHIVE_EXTENSIONS fetch_path = false
  /\ endswith_any FileService.CONTAINER_TYPES fetch_path = false
  /\ read_as_text fetch_path.

End S3Service.

(** ** app/services/base_scan_service.py: the filters of discovery *)

Module Discovery.
Import PyStr Schemas ScanService.

(** [DataClassification]: the lists the filters read. *)
Record DataClassification : Type := mkDataClassification {
  data_sources : option (list string);
  data_objects : option (list string)
}.

Inductive DataClassificationType : Type := SOURCE | OBJECT.

(** [not xs] for an optional list. *)
Definition falsy (xs : option (list string)) : bool :=
  match xs with
  | None | Some [] => true
  | Some _ => false
  end.

Definition listed (xs : option (list string)) : list string :=
  match xs with
  | Some xs => xs
  | None => []
  end.

(** The loop of [get_classification_includes]. *)
Fixpoint includes_loop (data_type : DataClassificationType)
    (classifications : list DataClassification) (included : gset string)
    : gset string :=
  match classifications with
  | [] => included
  | cl :: later =>
      if match data_type with
         | SOURCE => falsy (data_sources cl)
         | OBJECT => falsy (data_objects cl)
         end
      then ∅
      else includes_loop data_type later
             (included ∪ list_to_set
                           (match data_type with
                            | SOURCE => listed (data_sources cl)
                            | OBJECT => listed (data_objects cl)
                            end))
  end.

(** [BaseScanService.get_classification_includes], on the classifications
    the control plane returned. *)
Definition get_classification_includes (data_type : DataClassificationType)
    (classifications : list DataClassification) : gset string :=
  includes_loop data_type classifications ∅.

(** [BaseScanService.filter_objects_by_classifications]; the test of the
    name against the filename classifiers is [is_supported_filename]. *)
Definition filter_objects_by_classifications
    (is_supported_filename : ObjectContents -> bool)
    (classifications : list DataClassification)
    (objects : list ObjectContents) : list ObjectContents :=
  let included := get_classification_includes OBJECT classifications in
  List.filter (fun obj =>
                 (bool_decide (included = ∅)
                  || bool_decide (object_name obj ∈ included))
                 && is_supported_filename obj) objects.

(** The pairs of path and etag of the stored records that satisfy
    [keep]. *)
Definition path_etags (keep : FileMetadata -> bool)
    (stored_source_metadata : list FileMetadata)
    : gset (option string * string) :=
  list_to_set
    (map (fun obj => (file_full_path obj, file_etag obj))
         (filter (fun obj => keep obj = true) stored_source_metadata)).

(** [BaseScanService.filter_scanned] *)
Definition filter_scanned (stored_source_metadata : list FileMetadata)
    (objects : list ObjectContents) : list ObjectContents :=
  let db_data :=
    path_etags (fun obj => match fm_status obj with
                           | SCANNED => true
                           | _ => false
                           end) stored_source_metadata in
  filter (fun obj => (Some (full_path obj), etag obj) ∉ db_data) objects.

(** The objects [save_newly_added] makes records of, sends and returns,
    given the metadata it has just loaded. *)
Definition save_newly_added (stored_source_metadata : list FileMetadata)
    (filtered_objects : list ObjectContents) : list ObjectContents :=
  let db_path_with_etag :=
    path_etags (fun _ => true) stored_source_metadata in
  filter (fun obj => (Some (full_path obj), etag obj) ∉ db_path_with_etag)
         filtered_objects.

End Discovery.

(** ** app/schemas/analyzer.py and [BaseScanService.set_recognizers] *)

Module Recognizers.
Import Schemas.

(** [DataClassifiers]: the fields [set_recognizers] reads, but for
    [labels], which only feed [labels_mapper]. *)
Record DataClassifiers : Type := mkDataClassifiers {
  cl_name : string;
  cl_engine : option string;
  cl_patterns : option (list string);
  cl_created_at : datetime;
  cl_last_updated_at : option datetime
}.

(** [PatternRecognizer] *)
Record PatternRecognizer : Type := mkPatternRecognizer {
  pr_id : Z;
  pr_name : string;
  pr_patterns : list string
}.

(** [AnalyzerAttributes], without [labels_mapper]. *)
Record AnalyzerAttributes : Type := mkAnalyzerAttributes {
  hyperscan_recognizers : list PatternRecognizer;
  re2_recognizers : list PatternRecognizer;
  re_recognizers : list PatternRecognizer;
  id_name_mapper : gmap Z string;
  latest_data_type : option datetime
}.

(** [datetime.min], the first second of year 1, as a reading of the
    clock. *)
Definition datetime_min : datetime := -62135596800.

(** [AnalyzerAttributes.create_id_name_mapper]: the names by id, a later
    recognizer with the same id taking the place of an earlier one. *)
Definition create_id_name_mapper (attrs : AnalyzerAttributes)
    : AnalyzerAttributes :=
  let recognizers :=
    (hyperscan_recognizers attrs ++ re2_recognizers attrs
     ++ re_recognizers attrs)%list in
  mkAnalyzerAttributes (hyperscan_recognizers attrs) (re2_recognizers attrs)
    (re_recognizers attrs)
    (fold_left (fun mapper r => <[pr_id r := pr_name r]> mapper) recognizers
               {[ 0 := "PERSON" ]})
    (latest_data_type attrs).

(** What the loop of [set_recognizers] carries along. *)
Record Collected : Type := mkCollected {
  attrs : AnalyzerAttributes;
  last_created_at : datetime;
  last_updated_at : datetime
}.

Definition append_recognizer (engine : option string) (r : PatternRecognizer)
    (a : AnalyzerAttributes) : AnalyzerAttributes :=
  match engine with
  | Some "HYPERSCAN" =>
      mkAnalyzerAttributes (hyperscan_recognizers a ++ [r]) (re2_recognizers a)
        (re_recognizers a) (id_name_mapper a) (latest_data_type a)
  | Some "RE2" =>
      mkAnalyzerAttributes (hyperscan_recognizers a) (re2_recognizers a ++ [r])
        (re_recognizers a) (id_name_mapper a) (latest_data_type a)
  | Some "RE" =>
      mkAnalyzerAttributes (hyperscan_recognizers a) (re2_recognizers a)
        (re_recognizers a ++ [r]) (id_name_mapper a) (latest_data_type a)
  | _ => a
  end.

(** One turn of the loop for the data type at position [_id], counted
    from 1. *)
Definition collect (_id : Z) (data_type : DataClassifiers) (c : Collected)
    : Collected :=
  match cl_engine data_type, cl_patterns data_type with
  | Some "MITIE", _ | _, None | _, Some [] => c
  | engine, Some patterns =>
      let created :=
        if last_created_at c <? cl_created_at data_type
        then cl_created_at data_type else last_created_at c in
      let updated :=
        match cl_last_updated_at data_type with
        | Some t => if last_updated_at c <? t then t else last_updated_at c
        | None => last_updated_at c
        end in
      mkCollected
        (append_recognizer engine
           (mkPatternRecognizer _id (cl_name data_type) patterns) (attrs c))
        created updated
  end.

(** [enumerate(data_types, start)] folded through the loop. *)
Fixpoint collect_all (start : Z) (data_types : list DataClassifiers)
    (c : Collected) : Collected :=
  match data_types with
  | [] => c
  | data_type :: later =>
      collect_all (start + 1) later (collect start data_type c)
  end.

(** [BaseScanService.set_recognizers] on the data types it has
    fetched. *)
Definition set_recognizers (data_types : list DataClassifiers)
    : AnalyzerAttributes :=
  let c := collect_all 1 data_types
             (mkCollected (mkAnalyzerAttributes [] [] [] ∅ None)
                          datetime_min datetime_min) in
  let a := create_id_name_mapper (attrs c) in
  mkAnalyzerAttributes (hyperscan_recognizers a) (re2_recognizers a)
    (re_recognizers a) (id_name_mapper a)
    (Some (Z.max (last_created_at c) (last_updated_at c))).

(** All the recognizers of the three engines. *)
Definition recognizers (a : AnalyzerAttributes) : list PatternRecognizer :=
  (hyperscan_recognizers a ++ re2_recognizers a ++ re_recognizers a)%list.

(** The recognizer [r] was made of the data type at position [pr_id r],
    counted from [start]. *)
Definition made_of (start : Z) (data_types : list DataClassifiers)
    (r : PatternRecognizer) : Prop :=
  exists data_type,
    start <= pr_id r
    /\ data_types !! Z.to_nat (pr_id r - start) = Some data_type
    /\ pr_name r = cl_name data_type
    /\ cl_patterns data_type = Some (pr_patterns r).

End Recognizers.

(** ** Scenarios of the specification, as concrete inputs *)

Module Scenarios.
Import Schemas Config SendRequest FileService ScanService.

Definition settings : Settings :=
  {| SCANNER_ID := "i-0123456789abcdef0"; INITIAL_DISK_SPACE := 1000000000 |}.

(** An object as discovery builds it, before its chunks are planned. *)
Definition discovered (name : string) (n : Z) : ObjectContents :=
  {| full_path := "bucket/" ++ name;
     object_name := name;
     size := n;
     service := "S3";
     fetch_path := name;
     etag := "etag-1";
     status := Some WAIT_FOR_SCAN;
     data_chunks := [];
     current_chunk := None |}.

(** A connector whose objects are all [data], on a disk with [free] bytes
    left; nothing is unpacked on the local disk. *)
Definition connector (data : Blob) (free : Z) : Connector :=
  {| read_data := fun _ => Ok (Some data);
     path_exists := fun _ => false;
     open_read := fun _ => Raise OSError;
     get_content_size := fun _ _ => Ok 0;
     unpack_archive_locally := fun _ _ => [];
     getsize := fun _ => Raise OSError;
     disk_free := free;
     uuid4 := fun path i => path ++ "#" ++ PyStr.str_of_Z i |}.

(** A gzip-compressed tar archive with one member of 5000 bytes. *)
Definition small_archive : Blob :=
  TarArchive Gzip (Member "rows.txt" 5000 (Raw [x61]) NoMember).

(** A chunk waiting in the queue, as the control plane hands it out. *)
Definition queued_chunk : DataChunkUpdate :=
  {| dcu_id := Some "chunk-1";
     dcu_object_name := Some "notes.txt";
     dcu_fetch_path := Some "notes.txt";
     dcu_offset := Some "0";
     dcu_limit := Some 1000000;
     dcu_scanned_at := None;
     dcu_is_phi := None;
     dcu_status := Some WAIT_FOR_SCAN;
     dcu_hash := None;
     dcu_metadata_id := Some "meta-1";
     dcu_instance_id := None;
     dcu_latest_data_type := None |}.

(** The object of [queued_chunk]. *)
Definition queued : ObjectContents :=
  {| full_path := "bucket/notes.txt";
     object_name := "notes.txt";
     size := 12;
     service := "S3";
     fetch_path := "notes.txt";
     etag := "etag-1";
     status := Some WAIT_FOR_SCAN;
     data_chunks := [];
     current_chunk := Some queued_chunk |}.

(** A worker whose lease request is answered with [reply], whose fetch
    gives [data], and whose classifiers find nothing. *)
Definition worker (reply : Json) (data : ChunkData) : Worker :=
  {| service_ready := true;
     lease_reply := reply;
     hyperscan_ready := true;
     fetch_data := fun _ _ _ _ => Ok data;
     rescan_mode := false;
     is_phi_in_file_data := fun _ _ => false;
     scan_file_object := fun _ _ => [[]];
     utcnow_saved := 1700000000;
     utcnow_finished := 1700000001 |}.

(** A frame of one column in which every cell is missing. *)
Definition nan_frame : DataFrame := [("email", [NaN; NaN; NaN])].

(** A stand-in for SHA-384 in the scenarios: the first four bytes of the
    message. *)
Definition toy_digest (message : list byte) : list byte := firstn 4 message.

(** Scenario 3, the source: an object of two planned chunks whose second
    chunk now starts with another byte. *)
Definition planned_chunk (offset : string) : DataChunk :=
  {| dc_id := "new-" ++ offset;
     dc_object_name := Some "notes.txt";
     dc_fetch_path := Some "notes.txt";
     dc_offset := Some offset;
     dc_limit := Some 1000000;
     dc_scanned_at := None;
     dc_status := WAIT_FOR_SCAN;
     dc_hash := None;
     dc_instance_id := Some "i-0123456789abcdef0";
     dc_labels := None;
     dc_latest_data_type := None |}.

Definition source_object (n : Z) : ObjectContents :=
  {| full_path := "bucket/notes.txt";
     object_name := "notes.txt";
     size := n;
     service := "S3";
     fetch_path := "notes.txt";
     etag := "etag-2";
     status := Some WAIT_FOR_SCAN;
     data_chunks := [planned_chunk "0"; planned_chunk "1000000"];
     current_chunk := None |}.

Definition source_text (chunk : DataChunk) : string :=
  if String.eqb (fmt (dc_offset chunk)) "0" then "aaaa" else "Xbbb".

Definition source_fetch (fetch_path : string) (chunk_path : option string)
    (limit : option Z) (offset : Z) : result ChunkData :=
  Ok (Text (if offset =? 0 then "aaaa" else "Xbbb")).

(** Scenario 3, the control plane: both chunks scanned, with the hashes of
    [aaaa] and [bbbb]. *)
Definition stored_chunk (id offset hash : string) : DataChunk :=
  {| dc_id := id;
     dc_object_name := Some "notes.txt";
     dc_fetch_path := Some "notes.txt";
     dc_offset := Some offset;
     dc_limit := Some 1000000;
     dc_scanned_at := Some 1690000000;
     dc_status := SCANNED;
     dc_hash := Some hash;
     dc_instance_id := Some "i-0123456789abcdef0";
     dc_labels := Some [];
     dc_latest_data_type := Some 1680000000 |}.

Definition stored_record (n : Z) : FileMetadata :=
  {| fm_id := "meta-1";
     file_full_path := Some "bucket/notes.txt";
     file_etag := "etag-1";
     file_size := n;
     fm_status := SCANNED;
     chunks := [stored_chunk "chunk-a" "0" "61616161";
                stored_chunk "chunk-b" "1000000" "62626262"] |}.

(** A chunk as the pipeline saved it: SCANNED, without a hash. *)
Definition saved_chunk (id offset : string) : DataChunk :=
  {| dc_id := id;
     dc_object_name := Some "notes.txt";
     dc_fetch_path := Some "notes.txt";
     dc_offset := Some offset;
     dc_limit := Some 1000000;
     dc_scanned_at := Some 1690000000;
     dc_status := SCANNED;
     dc_hash := None;
     dc_instance_id := Some "i-0123456789abcdef0";
     dc_labels := Some [];
     dc_latest_data_type := Some 1680000000 |}.

Definition saved_record (n : Z) : FileMetadata :=
  {| fm_id := "meta-1";
     file_full_path := Some "bucket/notes.txt";
     file_etag := "etag-1";
     file_size := n;
     fm_status := SCANNED;
     chunks := [saved_chunk "chunk-a" "0"; saved_chunk "chunk-b" "1000000"] |}.

(** The object of scenario 3 grown to three chunks. *)
Definition grown_object (n : Z) : ObjectContents :=
  {| full_path := "bucket/notes.txt";
     object_name := "notes.txt";
     size := n;
     service := "S3";
     fetch_path := "notes.txt";
     etag := "etag-2";
     status := Some WAIT_FOR_SCAN;
     data_chunks := [planned_chunk "0";
                     planned_chunk "1000000";
                     planned_chunk "2000000"];
     current_chunk := None |}.

End Scenarios.

(** ** Inputs for the reads from S3 *)

Module S3Scenarios.
Import S3Service.

(** Parsers that fail on every container, and a decoder for ASCII. *)
Definition ascii_parsers : Parsers :=
  {| pdf_pages := fun _ => Raise ValueError;
     read_excel := fun _ _ => Raise ValueError;
     read_csv := fun _ _ _ => CsvError;
     docx_paragraphs := fun _ => Raise ValueError;
     antiword := fun _ => Raise OSError;
     decode_replace := string_of_list_byte |}.

(** A bucket whose answers all hold the two bytes of [hi]. *)
Definition short_bucket : Bucket :=
  {| source := "bucket";
     read_data := fun _ => Some [x68; x69];
     read_data_chunk := fun _ _ _ => Some [x68; x69];
     unpack_archive_locally := fun _ _ disk => disk |}.

(** A worker that reads from S3: only the returned value of [fetch_data]
    reaches the pipeline. *)
Definition s3_worker (b : Bucket) (p : Parsers) (disk : Disk)
    : ScanService.Worker :=
  {| ScanService.service_ready := true;
     ScanService.lease_reply := SendRequest.JNum 1;
     ScanService.hyperscan_ready := true;
     ScanService.fetch_data := fun fetch_path chunk_path limit offset =>
       (fetch_data b p disk fetch_path chunk_path limit offset).1;
     ScanService.rescan_mode := false;
     ScanService.is_phi_in_file_data := fun _ _ => false;
     ScanService.scan_file_object := fun _ _ => [[]];
     ScanService.utcnow_saved := 1700000000;
     ScanService.utcnow_finished := 1700000001 |}.

(** The third chunk of a plain object of three million bytes. *)
Definition third_chunk : Schemas.DataChunkUpdate :=
  {| Schemas.dcu_id := Some "chunk-3";
     Schemas.dcu_object_name := Some "notes.txt";
     Schemas.dcu_fetch_path := Some "notes.txt";
     Schemas.dcu_offset := Some "2000000";
     Schemas.dcu_limit := Some 1000000;
     Schemas.dcu_scanned_at := None;
     Schemas.dcu_is_phi := None;
     Schemas.dcu_status := Some Schemas.WAIT_FOR_SCAN;
     Schemas.dcu_hash := None;
     Schemas.dcu_metadata_id := Some "meta-1";
     Schemas.dcu_instance_id := None;
     Schemas.dcu_latest_data_type := None |}.

Definition third : Schemas.ObjectContents :=
  {| Schemas.full_path := "bucket/notes.txt";
     Schemas.object_name := "notes.txt";
     Schemas.size := 3000000;
     Schemas.service := "S3";
     Schemas.fetch_path := "notes.txt";
     Schemas.etag := "etag-1";
     Schemas.status := Some Schemas.WAIT_FOR_SCAN;
     Schemas.data_chunks := [];
     Schemas.current_chunk := Some third_chunk |}.

End S3Scenarios.


(** * Properties *)

(** ** Strings *)

Module PyStrFacts.
Import PyStr.

Lemma append_nil (b : string) : EmptyString ++ b = b.
Proof. reflexivity. Qed.

Lemma append_cons x (a b : string) : String x a ++ b = String x (a ++ b).
Proof. reflexivity. Qed.

Lemma append_assoc (a b c : string) : (a ++ b) ++ c = a ++ (b ++ c).
Proof.
  induction a as [|x a IH]; [reflexivity|].
  now rewrite !append_cons, IH.
Qed.

Lemma split_char_nonempty sep s : split_char sep s <> [].
Proof.
  destruct s as [|c r]; simpl; [discriminate|].
  destruct (Ascii.eqb c sep); [discriminate|].
  destruct (split_char sep r); discriminate.
Qed.

Lemma join_split_char sep s : join sep (split_char sep s) = s.
Proof.
  induction s as [|c r IH]; simpl; [reflexivity|].
  destruct (Ascii.eqb c sep) eqn:E.
  - apply Ascii.eqb_eq in E; subst c.
    pose proof (split_char_nonempty sep r) as Hne.
    destruct (split_char sep r) as [|p ps]; [contradiction|].
    simpl in *. now rewrite IH.
  - destruct (split_char sep r) as [|p ps] eqn:Hs.
    + now destruct (split_char_nonempty sep r).
    + destruct ps; simpl in *; now rewrite <- IH.
Qed.

Lemma split_char_length sep s :
  List.length (split_char sep s) = S (count_char sep s).
Proof.
  induction s as [|c r IH]; simpl; [reflexivity|].
  rewrite (Ascii.eqb_sym sep c).
  destruct (Ascii.eqb c sep); simpl.
  - now rewrite IH.
  - destruct (split_char sep r); simpl in *; lia.
Qed.

Lemma mem_char_count c s : mem_char c s = true <-> (1 <= count_char c s)%nat.
Proof.
  induction s as [|d r IH]; simpl.
  - split; [discriminate|lia].
  - destruct (Ascii.eqb c d); simpl; [split; [lia|reflexivity]|exact IH].
Qed.

Lemma join_last_suffix sep pieces :
  pieces <> [] ->
  exists before, join sep pieces = before ++ List.last pieces EmptyString.
Proof.
  induction pieces as [|p rest IH]; [congruence|]. intros _.
  destruct rest as [|q rest'].
  - exists EmptyString. reflexivity.
  - destruct IH as [before Hb]; [discriminate|].
    exists (p ++ String sep before).
    change (join sep (p :: q :: rest')) with (p ++ String sep (join sep (q :: rest'))).
    rewrite Hb.
    change (List.last (p :: q :: rest') EmptyString)
      with (List.last (q :: rest') EmptyString).
    rewrite append_assoc. reflexivity.
Qed.

(** The last piece of a split is a suffix of the string. *)
Lemma last_piece_suffix sep s :
  exists before, s = before ++ last_piece (split_char sep s).
Proof.
  destruct (join_last_suffix sep (split_char sep s) (split_char_nonempty sep s))
    as [before Hb].
  exists before. unfold last_piece. now rewrite <- Hb, join_split_char.
Qed.

Lemma split_char_two sep s u d :
  split_char sep s = [u; d] -> s = u ++ String sep d.
Proof.
  intros H. rewrite <- (join_split_char sep s), H. reflexivity.
Qed.

Lemma substring_0_app a b : substring 0 (String.length a) (a ++ b) = a.
Proof.
  induction a as [|c a IH].
  - destruct b; reflexivity.
  - rewrite append_cons. simpl. now rewrite IH.
Qed.

Lemma length_app a b :
  String.length (a ++ b) = (String.length a + String.length b)%nat.
Proof.
  induction a as [|c a IH]; [reflexivity|].
  rewrite append_cons. simpl. now rewrite IH.
Qed.

Lemma sub_alnum_length s : String.length (sub_alnum s) = String.length s.
Proof. induction s; simpl; congruence. Qed.

Lemma sub_alnum_get s i :
  String.get i (sub_alnum s) = option_map star (String.get i s).
Proof.
  revert i; induction s as [|c r IH]; intros i; simpl; [reflexivity|].
  destruct i; simpl; [reflexivity|apply IH].
Qed.

(** [s[:1]] and [s[1:len(s) - len(tail)]] on a string with one leading
    character, a middle and a tail. *)
Lemma slice_head c middle tail :
  slice (String c (middle ++ tail)) None (Some 1) = String c EmptyString.
Proof.
  unfold slice, len, clamp. simpl String.length.
  replace (1 <? 0) with false by reflexivity.
  rewrite Z.min_l by lia.
  change (Z.to_nat 0) with 0%nat. change (Z.to_nat (1 - 0)) with 1%nat.
  simpl. destruct (middle ++ tail); reflexivity.
Qed.

Lemma slice_middle c middle tail :
  slice (String c (middle ++ tail)) (Some 1)
        (Some (len (String c (middle ++ tail)) - len tail)) = middle.
Proof.
  unfold slice, len, clamp. simpl String.length. rewrite length_app.
  replace (1 <? 0) with false by reflexivity.
  rewrite Z.min_l by lia.
  destruct (_ <? 0) eqn:E; [apply Z.ltb_lt in E; lia|].
  rewrite Z.min_l by lia.
  change (Z.to_nat 1) with 1%nat.
  replace (Z.to_nat _) with (String.length middle) by lia.
  simpl. apply substring_0_app.
Qed.

(** [s[:2]] on a string of two characters or more. *)
Lemma slice_two a b rest :
  slice (String a (String b rest)) None (Some 2) = String a (String b EmptyString).
Proof.
  unfold slice, len, clamp. simpl String.length.
  replace (2 <? 0) with false by reflexivity.
  rewrite Z.min_l by lia.
  change (Z.to_nat 0) with 0%nat. change (Z.to_nat (2 - 0)) with 2%nat.
  simpl. destruct rest; reflexivity.
Qed.

End PyStrFacts.

(** ** Floats *)

Module PyFloatFacts.
Import PyFloat.

(** Rounding to the nearest integer moves a quotient by half a unit at
    most. *)
Lemma round_half_even_near n d :
  0 < d -> 2 * Z.abs (round_half_even n d * d - n) <= d.
Proof.
  intros Hd. unfold round_half_even.
  pose proof (Z.div_mod n d ltac:(lia)) as Hdm.
  pose proof (Z.mod_pos_bound n d Hd) as Hb.
  destruct (Z.ltb_spec (2 * (n mod d)) d).
  - replace (n / d * d - n) with (- (n mod d)) by lia. lia.
  - destruct (Z.ltb_spec d (2 * (n mod d))).
    + replace ((n / d + 1) * d - n) with (d - n mod d) by lia. lia.
    + destruct (Z.even (n / d)).
      * replace (n / d * d - n) with (- (n mod d)) by lia. lia.
      * replace ((n / d + 1) * d - n) with (d - n mod d) by lia. lia.
Qed.

(** The ceiling of [m / P] is the ceiling of [s / c] when [m / P] is
    within [1 / (2 * P)] of [s / c] and [1 / (2 * P)] is less than
    [1 / c]. *)
Lemma ceil_of_rounded (s c P m : Z) :
  0 < s -> 0 < c -> 0 < P -> c < 2 * P ->
  2 * Z.abs (m * c - s * P) <= c ->
  - ((- m) / P) = (s - 1) / c + 1.
Proof.
  intros Hs Hc HP HcP Hm.
  pose proof (Z.div_mod (s - 1) c ltac:(lia)) as Hdm.
  pose proof (Z.mod_pos_bound (s - 1) c Hc) as Hb.
  set (k := (s - 1) / c + 1).
  assert (Hlo : (k - 1) * c + 1 <= s) by (unfold k; lia).
  assert (Hhi : s <= k * c) by (unfold k; lia).
  assert (H1 : s * P <= k * c * P) by nia.
  assert (H2 : (k - 1) * c * P + P <= s * P) by nia.
  assert (Hup : m <= k * P) by nia.
  assert (Hdown : (k - 1) * P < m) by nia.
  assert (Hq : - m / P = - k).
  { symmetry. apply (Z.div_unique_pos (- m) P (- k) (k * P - m)); lia. }
  lia.
Qed.

End PyFloatFacts.

(** ** Masking, hashing and region of a finding *)

Module DataAnalysisFacts.
Import PyStr PyStrFacts DataAnalysis.

(** The region follows the first two characters of the classifier name:
    [US] gives USA, [IN] gives India, anything else gives All. *)
Lemma get_region_cases entity_type :
  (slice entity_type None (Some 2) = "US" -> _get_region entity_type = "USA")
  /\ (slice entity_type None (Some 2) = "IN" -> _get_region entity_type = "India")
  /\ (slice entity_type None (Some 2) <> "US" ->
      slice entity_type None (Some 2) <> "IN" ->
      _get_region entity_type = "All").
Proof.
  unfold _get_region. repeat split.
  - intros ->. reflexivity.
  - intros ->. reflexivity.
  - intros Hus Hin.
    destruct (String.eqb_spec (slice entity_type None (Some 2)) "US"); [contradiction|].
    destruct (String.eqb_spec (slice entity_type None (Some 2)) "IN"); [contradiction|].
    reflexivity.
Qed.

Lemma get_region_cases_witness :
  _get_region "US_SSN" = "USA" /\ _get_region "IN_PAN" = "India"
  /\ _get_region "CREDIT_CARD" = "All".
Proof.
  split; [|split].
  - exact (proj1 (get_region_cases "US_SSN") eq_refl).
  - exact (proj1 (proj2 (get_region_cases "IN_PAN")) eq_refl).
  - apply (proj2 (proj2 (get_region_cases "CREDIT_CARD"))); discriminate.
Defined.

(** C9, at the built-in classifier [UK_NHS]: a name that starts with UK is
    given the region All, there is no UK region. *)
Theorem get_region_uk_nhs :
  _get_region "UK_NHS" = "All"
  /\ forall rest, _get_region (String "U" (String "K" rest)) = "All".
Proof.
  split; [reflexivity|]. intros rest.
  unfold _get_region. now rewrite slice_two.
Qed.

Lemma mask_data_body_two_at entity data :
  contains "EMAIL" entity = true ->
  (2 <= count_char "@" data)%nat ->
  mask_data_body entity data = Raise ValueError.
Proof.
  intros He Hc. unfold mask_data_body.
  destruct (String.eqb_spec data "") as [->|_]; [simpl in Hc; lia|].
  rewrite He.
  assert (Hm : mem_char "@" data = true) by (apply mem_char_count; lia).
  rewrite Hm. simpl andb. cbv iota.
  pose proof (split_char_length "@" data) as Hl.
  destruct (split_char "@" data) as [|a [|b [|c r]]]; simpl in Hl; try lia; reflexivity.
Qed.

(** C10: [mask_data] returns on every input; whenever its body raises, it
    returns the value as it came in; the body does raise for a classifier
    whose name contains EMAIL on a value with two or more [@]; and the
    finding is then reported with the value unmasked. *)
Theorem mask_data_never_raises entity data :
  (exists v, mask_data entity data = Ok v)
  /\ (forall e, mask_data_body entity data = Raise e ->
                mask_data entity data = Ok data)
  /\ (contains "EMAIL" entity = true -> (2 <= count_char "@" data)%nat ->
      mask_data_body entity data = Raise ValueError
      /\ mask_data entity data = Ok data
      /\ forall sha384 object_name column,
           process_result sha384 object_name entity data column
           = Ok {| file_name := object_name;
                   pii_type := entity;
                   pii_region := _get_region entity;
                   pii_hash := hash_data sha384 data;
                   pii_data := data;
                   column_name := column |}).
Proof.
  unfold process_result, mask_data. split; [|split].
  - destruct (mask_data_body entity data); eauto.
  - intros e ->. reflexivity.
  - intros He Hc. rewrite (mask_data_body_two_at entity data He Hc). auto.
Qed.

Lemma mask_data_never_raises_witness :
  mask_data_body "EMAIL_ADDRESS" "a@b@c.com" = Raise ValueError
  /\ mask_data "EMAIL_ADDRESS" "a@b@c.com" = Ok "a@b@c.com"
  /\ forall sha384 object_name column,
       process_result sha384 object_name "EMAIL_ADDRESS" "a@b@c.com" column
       = Ok {| file_name := object_name;
               pii_type := "EMAIL_ADDRESS";
               pii_region := "All";
               pii_hash := hash_data sha384 "a@b@c.com";
               pii_data := "a@b@c.com";
               column_name := column |}.
Proof.
  apply (proj2 (proj2 (mask_data_never_raises "EMAIL_ADDRESS" "a@b@c.com"))).
  - reflexivity.
  - simpl. lia.
Defined.

Lemma mask_email_address data username domain :
  split_char "@" data = [username; domain] ->
  exists c middle,
    data = String c (middle ++ last_piece (split_char "." domain))
    /\ mask_data "EMAIL_ADDRESS" data =
       Ok (String c (sub_alnum middle ++ last_piece (split_char "." domain))).
Proof.
  intros Hsplit.
  pose proof (split_char_two _ _ _ _ Hsplit) as Hdata.
  destruct (last_piece_suffix "." domain) as [before Hdom].
  set (tld := last_piece (split_char "." domain)) in *.
  assert (Hshape : exists c middle, data = String c (middle ++ tld)).
  { rewrite Hdata, Hdom.
    destruct username as [|c u].
    - exists "@"%char, before. reflexivity.
    - exists c, (u ++ String "@" before). simpl.
      now rewrite append_assoc. }
  destruct Hshape as (c & middle & Hshape).
  exists c, middle. split; [exact Hshape|].
  unfold mask_data, mask_data_body.
  assert (Hm : mem_char "@" data = true).
  { apply mem_char_count.
    pose proof (split_char_length "@" data) as Hl. rewrite Hsplit in Hl.
    simpl in Hl. lia. }
  rewrite Hm, Hsplit.
  destruct (String.eqb_spec data "") as [He|_]; [rewrite He in Hshape; discriminate|].
  change (contains "EMAIL" "EMAIL_ADDRESS") with true.
  change (String.eqb "EMAIL_ADDRESS" "EMAIL_ADDRESS") with true.
  cbv iota beta. simpl andb. cbv iota. fold tld.
  rewrite Hshape at 1 2 3. rewrite slice_head, slice_middle.
  reflexivity.
Qed.

(** C8: for a value with exactly one [@], as every match of the
    EMAIL_ADDRESS pattern has, the finding of an
    EMAIL_ADDRESS classifier keeps the first character and the last
    dot-separated piece of the domain and replaces every character of
    [A-Za-z0-9] in between with an asterisk; its region is All and its hash
    is the SHA-384 hex digest of the UTF-8 bytes of the unmasked value. *)
Theorem email_address_finding sha384 object_name data username domain column :
  split_char "@" data = [username; domain] ->
  exists c middle,
    data = String c (middle ++ last_piece (split_char "." domain))
    /\ String.length (sub_alnum middle) = String.length middle
    /\ (forall i, String.get i (sub_alnum middle)
                  = option_map star (String.get i middle))
    /\ process_result sha384 object_name "EMAIL_ADDRESS" data column =
       Ok {| file_name := object_name;
             pii_type := "EMAIL_ADDRESS";
             pii_region := "All";
             pii_hash := hexdigest (sha384 (utf8_encode data));
             pii_data := String c (sub_alnum middle
                                   ++ last_piece (split_char "." domain));
             column_name := column |}.
Proof.
  intros Hsplit.
  destruct (mask_email_address data username domain Hsplit)
    as (c & middle & Hshape & Hmask).
  exists c, middle. split; [exact Hshape|].
  split; [apply sub_alnum_length|].
  split; [intros i; apply sub_alnum_get|].
  unfold process_result. rewrite Hmask. reflexivity.
Qed.

(** The address [abcdef@gmail.com] of six and five letters is reported
    as [a*****@*****.com], with the hash of the address itself; the
    stand-in for SHA-384 is the identity, so that the hash shows the
    bytes that were hashed. *)
Lemma email_address_finding_witness :
  process_result (fun message => message) "notes.txt" "EMAIL_ADDRESS"
                 "abcdef@gmail.com" None =
  Ok {| file_name := "notes.txt";
        pii_type := "EMAIL_ADDRESS";
        pii_region := "All";
        pii_hash := "61626364656640676d61696c2e636f6d";
        pii_data := "a*****@*****.com";
        column_name := None |}.
Proof.
  destruct (email_address_finding (fun message => message) "notes.txt"
              "abcdef@gmail.com" "abcdef" "gmail.com" None eq_refl)
    as (c & middle & Hshape & _ & _ & Hres).
  rewrite Hres. injection Hshape as <- Hshape.
  assert (Hmid : "bcdef@gmail.com" = middle ++ "com") by exact Hshape.
  assert (Hlen : String.length middle = 12%nat).
  { apply (f_equal String.length) in Hmid. rewrite length_app in Hmid.
    simpl in Hmid. lia. }
  assert (Hm : middle = "bcdef@gmail.").
  { rewrite <- (substring_0_app middle "com"), <- Hmid, Hlen. reflexivity. }
  rewrite Hm. reflexivity.
Defined.

(** The masked value of a well-formed address. *)
Lemma mask_email_example :
  mask_data "EMAIL_ADDRESS" "abcdef@gmail.com" = Ok "a*****@*****.com".
Proof. reflexivity. Qed.

End DataAnalysisFacts.

(** ** The control-plane client *)

Module SendRequestFacts.
Import SendRequest.

(** C4, at status 500: the body is handed to the caller at once, with no
    sleep and no second request, whatever the control plane would answer
    next. *)
Theorem make_request_returns_500_body :
  forall body later attempt,
    make_request (Http 500 (Some body) :: later) attempt
    = ([Sent attempt], Returned body).
Proof. intros body later attempt. reflexivity. Qed.

Lemma make_request_retry_step status body later attempt :
  status = 424 \/ 500 < status ->
  make_request (Http status (Some body) :: later) attempt
  = (Sent attempt :: Slept 1 :: (make_request later 0).1,
     (make_request later 0).2).
Proof.
  intros Hs. simpl.
  replace (status =? 404) with false by (symmetry; apply Z.eqb_neq; lia).
  replace (status =? 422) with false by (symmetry; apply Z.eqb_neq; lia).
  replace (status =? 401) with false by (symmetry; apply Z.eqb_neq; lia).
  replace ((status =? 424) || (500 <? status)) with true.
  - simpl. now destruct (make_request later 0).
  - symmetry. apply orb_true_iff.
    destruct Hs as [->|Hs]; [left; reflexivity|right; now apply Z.ltb_lt].
Qed.

(** A status 424, or any status above 500, with a JSON body: one second of
    sleep, then the same request again with the attempt counter at 0,
    whatever the counter was. *)
Lemma make_request_retries status body later attempt :
  status = 424 \/ 500 < status ->
  exists events,
    (make_request (Http status (Some body) :: later) attempt).1
    = Sent attempt :: Slept 1 :: events
    /\ make_request later 0
       = (events, (make_request (Http status (Some body) :: later) attempt).2).
Proof.
  intros Hs. rewrite (make_request_retry_step status body later attempt Hs).
  exists (make_request later 0).1. split; [reflexivity|].
  now destruct (make_request later 0).
Qed.

Lemma make_request_retries_witness :
  exists events,
    (make_request [Http 503 (Some (JStr "unavailable")); Http 200 (Some (JNum 1))]
                  2).1
    = Sent 2 :: Slept 1 :: events
    /\ make_request [Http 200 (Some (JNum 1))] 0 = (events, Returned (JNum 1)).
Proof.
  exact (make_request_retries 503 (JStr "unavailable")
           [Http 200 (Some (JNum 1))] 2 (or_intror eq_refl)).
Defined.

Lemma truthy_send_request_plain j : truthy (send_request_plain j) = truthy j.
Proof.
  destruct j as [|b|n|s|items|fields]; try reflexivity.
  - destruct b; reflexivity.
  - simpl. destruct (n =? 0) eqn:E; simpl; [reflexivity|now rewrite E].
  - destruct items; reflexivity.
  - destruct fields; reflexivity.
Qed.

End SendRequestFacts.

(** ** Chunk planning *)

Module FileServiceFacts.
Import PyStr PyFloat PyFloatFacts Schemas Config FileService.

(** Up to [2^34 * 1_000_000] bytes the float quotient by [1_000_000]
    is near enough to the exact one for its ceiling to be the exact
    ceiling. *)
Lemma ceil_div_exact s :
  0 < s <= 2 ^ 34 * 1000000 ->
  ceil_div s 1000000 = Ok ((s - 1) / 1000000 + 1).
Proof.
  intros Hs.
  destruct (Z.eq_dec s (2 ^ 34 * 1000000)) as [->|Hne];
    [vm_compute; reflexivity|].
  assert (Hlt : s < 2 ^ 34 * 1000000) by lia. clear Hne.
  unfold ceil_div, truediv.
  change (1000000 =? 0) with false. cbv iota.
  destruct (Z.eqb_spec s 0) as [E|_]; [lia|].
  rewrite (Z.abs_eq s) by lia.
  change (Z.abs 1000000) with 1000000.
  change (Z.log2 1000000) with 19.
  rewrite (Z.sgn_pos s) by lia. change (Z.sgn 1000000) with 1.
  pose proof (Z.log2_nonneg s) as Hl0.
  assert (Hl1 : Z.log2 s < 54).
  { apply Z.log2_lt_pow2; [lia|]. change (2 ^ 54) with 18014398509481984.
    change (2 ^ 34) with 17179869184 in Hlt. lia. }
  set (la := Z.log2 s) in *.
  cbv zeta.
  set (e1 := if (scaled s 1000000 (la - 19 - 53)).1
                <? 2 ^ 53 * (scaled s 1000000 (la - 19 - 53)).2
             then la - 19 - 53 else la - 19 - 53 + 1).
  assert (He1 : -72 <= e1 <= -19).
  { unfold e1, scaled.
    destruct (Z.ltb_spec (la - 19 - 53) 0); [|lia]. cbn [fst snd].
    destruct (Z.ltb_spec (s * 2 ^ (- (la - 19 - 53))) (2 ^ 53 * 1000000))
      as [|Hge]; [lia|].
    destruct (Z.eq_dec la 53) as [E|]; [|lia].
    exfalso. rewrite E in Hge.
    change (2 ^ (- (53 - 19 - 53))) with 524288 in Hge.
    change (2 ^ 53) with 9007199254740992 in Hge.
    change (2 ^ 34) with 17179869184 in Hlt. lia. }
  clearbody e1.
  rewrite (Z.max_l e1 (-1074)) by lia.
  unfold scaled. destruct (Z.ltb_spec e1 0); [|lia]. cbn [fst snd].
  destruct (Z.ltb_spec 971 e1); [lia|].
  destruct (Z.eqb_spec e1 971); [lia|].
  cbn [orb andb rbind]. f_equal.
  unfold ceil. cbn [mantissa exponent].
  destruct (Z.ltb_spec e1 0); [|lia].
  replace (1 * 1 * round_half_even (s * 2 ^ (- e1)) 1000000)
    with (round_half_even (s * 2 ^ (- e1)) 1000000) by lia.
  assert (HP : 2 ^ 19 <= 2 ^ (- e1)) by (apply Z.pow_le_mono_r; lia).
  change (2 ^ 19) with 524288 in HP.
  apply (ceil_of_rounded s 1000000 (2 ^ (- e1))); try lia.
  apply round_half_even_near. lia.
Qed.

(** One byte further the float quotient is [2^34] itself, and so is its
    ceiling: one less than the exact ceiling. *)
Lemma ceil_div_beyond :
  ceil_div (2 ^ 34 * 1000000 + 1) 1000000 = Ok (2 ^ 34)
  /\ (2 ^ 34 * 1000000 + 1 - 1) / 1000000 + 1 = 2 ^ 34 + 1.
Proof. split; vm_compute; reflexivity. Qed.

Lemma range_succ n : 0 <= n -> range (n + 1) <> [].
Proof.
  intros Hn. unfold range.
  replace (Z.to_nat (n + 1)) with (S (Z.to_nat n)) by lia. discriminate.
Qed.

Lemma create_file_chunks_planned settings env fetch_path object_name n s :
  endswith_any UNSUPPORTED_EXTENSIONS object_name = false ->
  planned_size env fetch_path object_name n = Ok (Some s) ->
  0 < s <= 2 ^ 34 * CHUNK_BYTES_CAPACITY ->
  create_file_chunks settings env fetch_path object_name n
  = Ok (map (new_chunk settings env fetch_path)
            (range ((s - 1) / CHUNK_BYTES_CAPACITY + 1))).
Proof.
  intros Hu Hp Hs. unfold create_file_chunks.
  rewrite Hu, Hp. cbn [rbind].
  destruct (Z.eqb_spec s 0); [lia|].
  unfold CHUNK_BYTES_CAPACITY in *. now rewrite (ceil_div_exact s Hs).
Qed.

Lemma planned_size_plain env fetch_path object_name n :
  endswith_any CONTAINER_TYPES fetch_path = false ->
  planned_size env fetch_path object_name n = Ok (Some n).
Proof. intros Hc. unfold planned_size. now rewrite Hc. Qed.

Lemma create_file_chunks_plain settings env fetch_path object_name n :
  0 < n <= 2 ^ 34 * CHUNK_BYTES_CAPACITY ->
  endswith_any UNSUPPORTED_EXTENSIONS object_name = false ->
  endswith_any CONTAINER_TYPES fetch_path = false ->
  create_file_chunks settings env fetch_path object_name n
  = Ok (map (new_chunk settings env fetch_path)
            (range ((n - 1) / CHUNK_BYTES_CAPACITY + 1))).
Proof.
  intros Hn Hu Hc.
  apply (create_file_chunks_planned settings env _ _ n n Hu); [|exact Hn].
  now apply planned_size_plain.
Qed.

(** C7, as amended, for an object whose fetch path is no archive:
    - an object of size 0 gets no new chunk and the status SCANNED;
    - an object of another size whose name has an unsupported extension
      gets no chunk and the status SCANNED;
    - otherwise the plan is made for the size [s] of the object, or, for
      a container format, for the size [s] of its extracted content; when
      [0 < s <= 2^34 * L], with [L = 1_000_000], the chunks have the
      offsets [0, L, ..., floor((s - 1) / L) * L], in this order and
      nothing else, every chunk with limit [L], and the object keeps its
      status.
    The bound is where the float quotient of the source stops giving the
    exact ceiling: one byte further one chunk is missing. *)
Theorem chunk_plan_of_object settings env content :
  (size content = 0 ->
   collect_file_chunks settings env content = Some (set_status SCANNED content)
   /\ data_chunks (set_status SCANNED content) = data_chunks content)
  /\ (size content <> 0 ->
      endswith_any ARCHIVE_EXTENSIONS (fetch_path content) = false ->
      (endswith_any UNSUPPORTED_EXTENSIONS (object_name content) = true ->
       collect_file_chunks settings env content
       = Some (set_status SCANNED (set_data_chunks [] content)))
      /\ (endswith_any UNSUPPORTED_EXTENSIONS (object_name content) = false ->
          (endswith_any CONTAINER_TYPES (fetch_path content) = false ->
           planned_size env (fetch_path content) (object_name content)
                        (size content)
           = Ok (Some (size content)))
          /\ forall s,
               planned_size env (fetch_path content) (object_name content)
                            (size content)
               = Ok (Some s) ->
               0 < s <= 2 ^ 34 * CHUNK_BYTES_CAPACITY ->
               exists planned,
                 collect_file_chunks settings env content = Some planned
                 /\ map dc_offset (data_chunks planned)
                    = map (fun i => Some (str_of_Z (i * CHUNK_BYTES_CAPACITY)))
                          (range ((s - 1) / CHUNK_BYTES_CAPACITY + 1))
                 /\ Forall (fun chunk =>
                              dc_limit chunk = Some CHUNK_BYTES_CAPACITY)
                           (data_chunks planned)
                 /\ status planned = status content))
  /\ (ceil_div (2 ^ 34 * CHUNK_BYTES_CAPACITY + 1) CHUNK_BYTES_CAPACITY
      = Ok (2 ^ 34)
      /\ (2 ^ 34 * CHUNK_BYTES_CAPACITY + 1 - 1) / CHUNK_BYTES_CAPACITY + 1
         = 2 ^ 34 + 1).
Proof.
  split; [|split; [|exact ceil_div_beyond]].
  - intros Hz. unfold collect_file_chunks. rewrite Hz. split; reflexivity.
  - intros Hnz Ha.
    unfold collect_file_chunks, collect_file_chunks_body.
    destruct (Z.eqb_spec (size content) 0) as [E|_]; [contradiction|].
    rewrite Ha. split.
    + intros Hu. unfold create_file_chunks. rewrite Hu. reflexivity.
    + intros Hu. split; [apply planned_size_plain|].
      intros s Hp Hs.
      rewrite (create_file_chunks_planned settings env _ _ _ s Hu Hp Hs).
      cbn [rbind].
      set (n := (s - 1) / CHUNK_BYTES_CAPACITY).
      assert (Hn : 0 <= n)
        by (apply Z.div_pos; unfold CHUNK_BYTES_CAPACITY; lia).
      pose proof (range_succ n Hn) as Hne.
      eexists. split; [reflexivity|].
      unfold without_chunks_scanned. simpl data_chunks.
      destruct (range (n + 1)) as [|i others] eqn:Hr; [contradiction|].
      simpl map at 1. cbv iota. simpl data_chunks.
      repeat split.
      * simpl. f_equal. now rewrite map_map.
      * apply List.Forall_forall. intros chunk Hin.
        change (new_chunk settings env (fetch_path content) i
                :: map (new_chunk settings env (fetch_path content)) others)
          with (map (new_chunk settings env (fetch_path content))
                    (i :: others)) in Hin.
        apply in_map_iff in Hin. destruct Hin as (j & <- & _). reflexivity.
Qed.

(** An object of exactly [L] bytes: one chunk, at offset 0. *)
Lemma chunk_plan_of_object_witness :
  exists planned,
    collect_file_chunks Scenarios.settings
      (Scenarios.connector (Raw []) 0)
      (Scenarios.discovered "notes.txt" 1000000) = Some planned
    /\ map dc_offset (data_chunks planned) = [Some "0"]
    /\ Forall (fun chunk => dc_limit chunk = Some 1000000) (data_chunks planned)
    /\ status planned = Some WAIT_FOR_SCAN.
Proof.
  apply (proj2 (proj2 (proj1 (proj2 (chunk_plan_of_object Scenarios.settings
                  (Scenarios.connector (Raw []) 0)
                  (Scenarios.discovered "notes.txt" 1000000)))
           ltac:(discriminate) eq_refl) eq_refl) 1000000).
  - reflexivity.
  - unfold CHUNK_BYTES_CAPACITY. lia.
Defined.

(** C7, as stated: an image of 10 bytes is a discovered object with a
    positive size, and it is planned with no chunk at all and marked
    SCANNED. *)
Lemma unsupported_extension_has_no_chunk :
  collect_file_chunks Scenarios.settings (Scenarios.connector (Raw []) 0)
    (Scenarios.discovered "photo.png" 10)
  = Some (set_status SCANNED (Scenarios.discovered "photo.png" 10))
  /\ data_chunks (set_status SCANNED (Scenarios.discovered "photo.png" 10)) = [].
Proof. split; reflexivity. Qed.

(** C6, as amended: an archive whose own size is below the disk space
    measured at start-up, and whose uncompressed total (nested archives
    included) is not below the free disk space, gives no object at all:
    no status is set and no chunk is planned for it in this round. SKIPPED
    is the status of an archive whose own size reaches the disk space
    measured at start-up; it keeps the chunks it came with. *)
Theorem archive_over_free_disk settings env content :
  size content <> 0 ->
  endswith_any ARCHIVE_EXTENSIONS (fetch_path content) = true ->
  (forall data uncompressed,
     size content < INITIAL_DISK_SPACE settings ->
     read_data env (fetch_path content) = Ok (Some data) ->
     blob_empty data = false ->
     get_uncompressed_size (full_path content) data = Ok uncompressed ->
     disk_free env <= uncompressed ->
     collect_file_chunks settings env content = None)
  /\ (INITIAL_DISK_SPACE settings <= size content ->
      collect_file_chunks settings env content
      = Some (set_status SKIPPED content)
      /\ data_chunks (set_status SKIPPED content) = data_chunks content).
Proof.
  intros Hnz Ha. unfold collect_file_chunks, collect_file_chunks_body.
  destruct (Z.eqb_spec (size content) 0) as [E|_]; [contradiction|].
  rewrite Ha. split.
  - intros data uncompressed Hsmall Hread Hne Hsize Hfree.
    destruct (Z.leb_spec (INITIAL_DISK_SPACE settings) (size content)); [lia|].
    rewrite Hread. simpl rbind. rewrite Hne.
    unfold check_archive_memory_cost, check_archive_size. rewrite Hsize.
    destruct (Z.ltb_spec uncompressed (disk_free env)); [lia|reflexivity].
  - intros Hbig.
    destruct (Z.leb_spec (INITIAL_DISK_SPACE settings) (size content)); [|lia].
    split; reflexivity.
Qed.

(** A [.tar.gz] of 100 bytes that unpacks to 5000 bytes, with 1000 bytes
    free. *)
Lemma archive_over_free_disk_witness :
  collect_file_chunks Scenarios.settings
    (Scenarios.connector Scenarios.small_archive 1000)
    (Scenarios.discovered "dump.tar.gz" 100) = None.
Proof.
  apply (proj1 (archive_over_free_disk Scenarios.settings
                  (Scenarios.connector Scenarios.small_archive 1000)
                  (Scenarios.discovered "dump.tar.gz" 100)
                  ltac:(discriminate) eq_refl)
           Scenarios.small_archive 5000).
  - reflexivity.
  - reflexivity.
  - reflexivity.
  - reflexivity.
  - simpl. lia.
Defined.

(** C6, as stated: the archive of the scenario unpacks to more than the
    free disk space, and the result is no object, neither a SKIPPED one
    nor any other. *)
Lemma archive_over_free_disk_not_skipped :
  get_uncompressed_size "bucket/dump.tar.gz" Scenarios.small_archive = Ok 5000
  /\ disk_free (Scenarios.connector Scenarios.small_archive 1000) = 1000
  /\ collect_file_chunks Scenarios.settings
       (Scenarios.connector Scenarios.small_archive 1000)
       (Scenarios.discovered "dump.tar.gz" 100) = None
  /\ collect_file_chunks Scenarios.settings
       (Scenarios.connector Scenarios.small_archive 1000)
       (Scenarios.discovered "dump.tar.gz" 100)
     <> Some (set_status SKIPPED (Scenarios.discovered "dump.tar.gz" 100)).
Proof. repeat split; discriminate. Qed.

(** The uncompressed total counts a nested archive twice: as a member, and
    again as the sum of its own members. *)
Lemma nested_archive_counted_with_its_members :
  get_uncompressed_size "outer.zip"
    (ZipArchive (Member "inner.tar" 300
                   (TarArchive NoCompression
                      (Member "a.txt" 120 (Raw []) NoMember)) NoMember))
  = Ok 420.
Proof. reflexivity. Qed.

End FileServiceFacts.

(** ** The scan pipeline of one chunk *)

Module PipelineFacts.
Import PyStr Schemas Config SendRequest ScanService.

Lemma report_only_posts chunk batches :
  Forall (fun e => exists m c b, e = PostSensitiveData m c b)
         (report chunk batches).
Proof.
  unfold report. induction batches as [|b bs IH]; simpl.
  - constructor.
  - apply Forall_app. split; [|exact IH].
    destruct b; [constructor|]. repeat constructor. eauto.
Qed.

(** C3: a run of the worker that does anything at all starts with the
    conditional update of the status, from WAIT_FOR_SCAN to IN_PROGRESS,
    filtered on the id of the chunk and on the status WAIT_FOR_SCAN; and
    when the reply to it is falsy (no row was updated), the run is that
    request and nothing else: no fetch, no classification, no finding, no
    saved chunk. *)
Theorem lease_guards_the_scan w object_content chunk latest_data_type scanner_id :
  current_chunk object_content = Some chunk ->
  (run_scanner w object_content latest_data_type scanner_id = []
   \/ exists rest,
        run_scanner w object_content latest_data_type scanner_id
        = lease_request chunk scanner_id :: rest)
  /\ (service_ready w = true ->
      exists rest,
        run_scanner w object_content latest_data_type scanner_id
        = lease_request chunk scanner_id :: rest)
  /\ (service_ready w = true -> truthy (lease_reply w) = false ->
      run_scanner w object_content latest_data_type scanner_id
      = [lease_request chunk scanner_id]).
Proof.
  intros Hc. unfold run_scanner. rewrite Hc.
  unfold scanning_update_status. rewrite SendRequestFacts.truthy_send_request_plain.
  change (PatchChunk _ _) with (lease_request chunk scanner_id).
  destruct (service_ready w); simpl negb; cbv iota.
  - destruct (truthy (lease_reply w)); simpl negb; cbv iota.
    + destruct (hyperscan_ready w); simpl negb; cbv iota.
      * destruct (analyze_content_data w _) as [effects [[]|e]];
          repeat split; eauto; discriminate.
      * repeat split; eauto; discriminate.
    + repeat split; eauto.
  - repeat split; eauto; discriminate.
Qed.

Lemma lease_guards_the_scan_witness :
  run_scanner (Scenarios.worker (JNum 0) (Text "contact me"))
              Scenarios.queued (Some 1699999999) "i-0123456789abcdef0"
  = [lease_request Scenarios.queued_chunk "i-0123456789abcdef0"].
Proof.
  apply (proj2 (proj2 (lease_guards_the_scan
                         (Scenarios.worker (JNum 0) (Text "contact me"))
                         Scenarios.queued Scenarios.queued_chunk
                         (Some 1699999999) "i-0123456789abcdef0" eq_refl)));
    reflexivity.
Defined.

(** With a truthy reply the same worker goes on to fetch, probe, classify
    and save. *)
Lemma leased_chunk_is_scanned :
  map is_scan_work
      (run_scanner (Scenarios.worker (JNum 1) (Text "contact me"))
                   Scenarios.queued (Some 1699999999) "i-0123456789abcdef0")
  = [false; true; true; true; true; true; true].
Proof. reflexivity. Qed.

(** The guard, case by case: a missing value and the empty string are
    invalid, any other string is valid, and so is every frame. *)
Lemma is_not_valid_chunk_cases :
  is_not_valid_chunk NoData = true
  /\ is_not_valid_chunk (Text "") = true
  /\ (forall s, s <> "" -> is_not_valid_chunk (Text s) = false)
  /\ (forall df, is_not_valid_chunk (Frame df) = false).
Proof.
  repeat split; try reflexivity.
  intros s Hs. unfold is_not_valid_chunk, str_truthy.
  destruct (String.eqb_spec s ""); [contradiction|reflexivity].
Qed.

(** The part of C5 the code keeps: after a fetch that gives nothing or the
    empty string, the chunk is saved at once, with no probe, no
    classification and no finding. *)
Lemma invalid_chunk_is_saved_unscanned w content chunk offset data :
  current_chunk content = Some chunk ->
  int_of_offset (dcu_offset chunk) = Ok offset ->
  fetch_data w (fetch_path content) (dcu_fetch_path chunk) (dcu_limit chunk)
             offset = Ok data ->
  data = NoData \/ data = Text "" ->
  analyze_content_data w content
  = ([FetchData (fetch_path content) (dcu_fetch_path chunk) (dcu_limit chunk)
                offset;
      PutChunk (scanned_chunk (utcnow_saved w) chunk)], Ok tt).
Proof.
  intros Hc Ho Hf Hd. unfold analyze_content_data.
  rewrite Hc, Ho, Hf. destruct Hd as [->| ->]; reflexivity.
Qed.

Lemma invalid_chunk_is_saved_unscanned_witness :
  analyze_content_data (Scenarios.worker (JNum 1) (Text "")) Scenarios.queued
  = ([FetchData "notes.txt" (Some "notes.txt") (Some 1000000) 0;
      PutChunk (scanned_chunk 1700000000 Scenarios.queued_chunk)], Ok tt).
Proof.
  exact (invalid_chunk_is_saved_unscanned
           (Scenarios.worker (JNum 1) (Text "")) Scenarios.queued
           Scenarios.queued_chunk 0 (Text "") eq_refl eq_refl eq_refl
           (or_intror eq_refl)).
Defined.

(** C5, at a frame in which every cell is missing: the guard lets it
    through, like every frame, and the chunk is probed and classified
    before it is saved. *)
Theorem nan_frame_is_analysed :
  is_not_valid_chunk (Frame Scenarios.nan_frame) = false
  /\ (forall df, is_not_valid_chunk (Frame df) = false)
  /\ analyze_content_data
       (Scenarios.worker (JNum 1) (Frame Scenarios.nan_frame)) Scenarios.queued
     = ([FetchData "notes.txt" (Some "notes.txt") (Some 1000000) 0;
         PhiProbe "notes.txt";
         Classify;
         PutChunk (scanned_chunk 1700000000
                     (set_is_phi false Scenarios.queued_chunk))], Ok tt).
Proof. repeat split. Qed.

(** C2, as amended: when the fetch of a chunk succeeds, the pipeline ends
    with one PUT of the chunk, and only one, with the status SCANNED and
    the time of saving as [scanned_at]. The [hash] it sends is the one the
    chunk came with, or none in rescan mode for valid content; it is never
    computed from the body. *)
Theorem finalised_chunk w content chunk offset data :
  current_chunk content = Some chunk ->
  int_of_offset (dcu_offset chunk) = Ok offset ->
  fetch_data w (fetch_path content) (dcu_fetch_path chunk) (dcu_limit chunk)
             offset = Ok data ->
  exists before final,
    analyze_content_data w content = ((before ++ [PutChunk final])%list, Ok tt)
    /\ Forall (fun e => forall c, e <> PutChunk c) before
    /\ dcu_status final = Some SCANNED
    /\ dcu_scanned_at final = Some (utcnow_saved w)
    /\ dcu_id final = dcu_id chunk
    /\ dcu_hash final
       = if negb (is_not_valid_chunk data) && rescan_mode w
         then None else dcu_hash chunk.
Proof.
  intros Hc Ho Hf. unfold analyze_content_data. rewrite Hc, Ho, Hf.
  destruct (is_not_valid_chunk data); simpl negb; simpl andb; cbv iota.
  - eexists [_], _. split; [reflexivity|].
    split; [repeat constructor; discriminate|repeat split].
  - unfold save_chunk.
    eexists (_ :: _ :: _ :: report _ _), _. split.
    { rewrite !app_comm_cons. reflexivity. }
    split.
    { repeat (constructor; [discriminate|]).
      eapply Forall_impl; [apply report_only_posts|].
      intros e (m & c & b & ->) c'. discriminate. }
    repeat split; simpl; destruct (rescan_mode w); reflexivity.
Qed.

Lemma finalised_chunk_witness :
  exists before final,
    analyze_content_data (Scenarios.worker (JNum 1) (Text "hello"))
                         Scenarios.queued
    = ((before ++ [PutChunk final])%list, Ok tt)
    /\ Forall (fun e => forall c, e <> PutChunk c) before
    /\ dcu_status final = Some SCANNED
    /\ dcu_scanned_at final = Some 1700000000
    /\ dcu_id final = Some "chunk-1"
    /\ dcu_hash final = None.
Proof.
  exact (finalised_chunk (Scenarios.worker (JNum 1) (Text "hello"))
           Scenarios.queued Scenarios.queued_chunk 0 (Text "hello")
           eq_refl eq_refl eq_refl).
Defined.

(** C2, as stated: a chunk that comes without a hash and whose body is
    [hello] is saved as SCANNED without a hash, whatever MD5 makes of the
    body. *)
Lemma saved_chunk_has_no_body_hash :
  analyze_content_data (Scenarios.worker (JNum 1) (Text "hello")) Scenarios.queued
  = ([FetchData "notes.txt" (Some "notes.txt") (Some 1000000) 0;
      PhiProbe "notes.txt";
      Classify;
      PutChunk (scanned_chunk 1700000000
                  (set_is_phi false Scenarios.queued_chunk))], Ok tt)
  /\ dcu_status (scanned_chunk 1700000000
                   (set_is_phi false Scenarios.queued_chunk)) = Some SCANNED
  /\ dcu_hash (scanned_chunk 1700000000
                 (set_is_phi false Scenarios.queued_chunk)) = None
  /\ ~ (exists md5 to_string h,
          hash_data_chunk md5 to_string (Text "hello") = Ok h
          /\ dcu_hash (scanned_chunk 1700000000
                         (set_is_phi false Scenarios.queued_chunk)) = Some h).
Proof.
  repeat split. intros (md5 & to_string & h & _ & Hh). discriminate.
Qed.

End PipelineFacts.

(** ** The source diff *)

Module DiffFacts.
Import PyStr PyStrFacts Schemas SendRequest ScanService.

Lemma dict_set_fresh {K V : Type} `{EqDecision K} (k : K) (v : V) d :
  k ∉ map fst d -> dict_set k v d = (d ++ [(k, v)])%list.
Proof.
  induction d as [|[k' v'] d IH]; intros Hk; [reflexivity|].
  simpl in *. apply not_elem_of_cons in Hk as [Hne Hk].
  destruct (decide (k = k')); [contradiction|]. now rewrite IH.
Qed.

Lemma dict_of_acc {K V : Type} `{EqDecision K} (kvs acc : list (K * V)) :
  NoDup (map fst (acc ++ kvs)) ->
  fold_left (fun d kv => dict_set kv.1 kv.2 d) kvs acc = (acc ++ kvs)%list.
Proof.
  revert acc. induction kvs as [|[k v] kvs IH]; intros acc Hnd; simpl.
  - now rewrite app_nil_r.
  - rewrite dict_set_fresh.
    + rewrite IH; rewrite <- app_assoc; [reflexivity|exact Hnd].
    + rewrite map_app in Hnd. apply NoDup_app in Hnd as (_ & Hd & _).
      intros Hin. apply (Hd k Hin). simpl. left.
Qed.

(** A dict built from pairs with distinct keys is the list of the pairs. *)
Lemma dict_of_NoDup {K V : Type} `{EqDecision K} (kvs : list (K * V)) :
  NoDup (map fst kvs) -> dict_of kvs = kvs.
Proof. intros Hnd. unfold dict_of. now rewrite dict_of_acc. Qed.

Lemma filter_map {A B : Type} (f : A -> B) (P : B -> Prop)
    `{forall y, Decision (P y)} (l : list A) :
  filter P (map f l) = map f (filter (fun x => P (f x)) l).
Proof.
  induction l as [|x l IH]; [reflexivity|]. simpl.
  rewrite !filter_cons. destruct (decide (P (f x))); simpl; now rewrite IH.
Qed.

Lemma split_char_app sep a b :
  mem_char sep a = false ->
  split_char sep (a ++ String sep b) = a :: split_char sep b.
Proof.
  induction a as [|c a IH]; intros Hm.
  - rewrite append_nil. simpl. now rewrite Ascii.eqb_refl.
  - rewrite append_cons. simpl in *.
    apply orb_false_iff in Hm as [Hc Hm].
    rewrite Ascii.eqb_sym, Hc, (IH Hm). reflexivity.
Qed.

(** [f'{a},{b}'.split(',')[0]] is [a] when [a] has no comma. *)
Lemma comma_piece_0 a b :
  mem_char "," a = false -> comma_piece 0 (a ++ "," ++ b) = a.
Proof.
  intros Hm. unfold comma_piece.
  change ("," ++ b) with (String "," b). now rewrite split_char_app.
Qed.

(** Two keys with the same path and comma-free offsets are equal only for
    equal offsets and equal hashes. *)
Lemma chunk_key_inj path o1 h1 o2 h2 :
  mem_char "," o1 = false -> mem_char "," o2 = false ->
  chunk_key path o1 h1 = chunk_key path o2 h2 -> o1 = o2 /\ h1 = h2.
Proof.
  intros H1 H2 Heq. unfold chunk_key in Heq.
  change ("," ++ o1 ++ "," ++ h1) with (String "," (o1 ++ String "," h1)) in Heq.
  change ("," ++ o2 ++ "," ++ h2) with (String "," (o2 ++ String "," h2)) in Heq.
  apply String.app_inj in Heq. injection Heq as Heq.
  assert (Hs : split_char "," (o1 ++ String "," h1)
               = split_char "," (o2 ++ String "," h2)) by now rewrite Heq.
  rewrite !split_char_app in Hs by assumption.
  injection Hs as -> Hh. split; [reflexivity|].
  apply String.app_inj in Heq. now injection Heq.
Qed.

(** A string that [int] reads as a decimal numeral holds no comma. *)
Lemma uint_of_string_no_comma (s : string) d :
  NilEmpty.uint_of_string s = Some d -> mem_char "," s = false.
Proof.
  revert d. induction s as [|a s IH]; intros d H; [reflexivity|].
  simpl in H. destruct (NilEmpty.uint_of_string s) as [d'|] eqn:Hs.
  - simpl. rewrite (IH d' eq_refl), orb_false_r.
    destruct a as [[] [] [] [] [] [] [] []]; try reflexivity; discriminate.
  - destruct a as [[] [] [] [] [] [] [] []]; discriminate.
Qed.

Lemma int_of_offset_no_comma (o : option string) (n : Z) :
  int_of_offset o = Ok n ->
  o = Some (fmt o) /\ mem_char "," (fmt o) = false.
Proof.
  destruct o as [s|]; [|discriminate]. simpl. intros H.
  split; [reflexivity|].
  destruct (NilZero.int_of_string s) as [i|] eqn:Hi; [|discriminate].
  unfold NilZero.int_of_string in Hi.
  destruct s as [|a s]; [discriminate|].
  destruct (Ascii.eqb_spec a "-") as [->|Hne].
  - destruct (NilZero.uint_of_string s) as [d|] eqn:Hd; [|discriminate].
    unfold NilZero.uint_of_string in Hd.
    destruct s as [|b s]; [discriminate|].
    change (mem_char "," (String "-" (String b s)))
      with (Ascii.eqb "," "-" || mem_char "," (String b s)).
    now rewrite (uint_of_string_no_comma _ _ Hd).
  - destruct (NilZero.uint_of_string (String a s)) as [d|] eqn:Hd; [|discriminate].
    unfold NilZero.uint_of_string in Hd.
    now rewrite (uint_of_string_no_comma _ _ Hd).
Qed.

Section Reconcile.
Variable scanner_id : string.
Variable sha384 : list byte -> list byte.
Variable fetch_data : string -> option string -> option Z -> Z -> result ChunkData.

(** A chunk that was fetched has an offset, which holds no comma. *)
Lemma fetched_offsets deleted obj body :
  Forall (fetches_text fetch_data obj body) (live_planned deleted obj) ->
  Forall (fun planned => dc_offset planned = Some (fmt (dc_offset planned))
                         /\ mem_char "," (fmt (dc_offset planned)) = false)
         (live_planned deleted obj).
Proof.
  intros Hfetch. eapply Forall_impl; [exact Hfetch|].
  intros chunk (offset & Ho & _). exact (int_of_offset_no_comma _ _ Ho).
Qed.

Lemma fetch_object_chunks_text deleted obj body planned s :
  Forall (fetches_text fetch_data obj body)
         (filter (fun chunk => tombstone_key (Some (full_path obj)) (dc_offset chunk)
                               ∉ deleted) planned) ->
  fetch_object_chunks sha384 fetch_data deleted obj planned s
  = (Ok (map (fresh_key sha384 obj body)
             (filter (fun chunk => tombstone_key (Some (full_path obj))
                                                 (dc_offset chunk) ∉ deleted)
                     planned)),
     s,
     map (fetch_of obj)
         (filter (fun chunk => tombstone_key (Some (full_path obj))
                                             (dc_offset chunk) ∉ deleted)
                 planned)).
Proof.
  induction planned as [|chunk later IH]; intros Hall; [reflexivity|].
  simpl fetch_object_chunks. rewrite filter_cons in *.
  destruct (decide (tombstone_key (Some (full_path obj)) (dc_offset chunk)
                    ∉ deleted)) as [Hout|Hin].
  - rewrite bool_decide_eq_false_2 by exact Hout.
    apply Forall_cons in Hall as [(offset & Ho & Hf) Hall].
    unfold bind, lift, emit, ret. rewrite Ho, Hf. simpl hash_fetched.
    rewrite (IH Hall). simpl. unfold fetch_of, fresh_key. rewrite Ho.
    now rewrite app_nil_r.
  - rewrite bool_decide_eq_true_2 by (destruct (decide (tombstone_key (Some (full_path obj)) (dc_offset chunk) ∈ deleted)); [assumption|contradiction]).
    exact (IH Hall).
Qed.

Lemma filter_ext_in {A : Type} (P Q : A -> Prop)
    `{forall x, Decision (P x)} `{forall x, Decision (Q x)} (l : list A) :
  (forall x, x ∈ l -> (P x <-> Q x)) -> filter P l = filter Q l.
Proof.
  induction l as [|x l IH]; intros Hpq; [reflexivity|].
  rewrite !filter_cons.
  assert (Hx : P x <-> Q x) by (apply Hpq; left).
  rewrite IH by (intros y Hy; apply Hpq; now right).
  destruct (decide (P x)), (decide (Q x)); tauto.
Qed.

Lemma update_metadata_existing_chunks_stale deleted meta_obj fresh s :
  NoDup (map (stored_key meta_obj) (live_stored deleted meta_obj)) ->
  Forall (fun chunk => mem_char "," (dc_id chunk) = false)
         (live_stored deleted meta_obj) ->
  update_metadata_existing_chunks scanner_id fresh meta_obj
    (metadata_chunk_keys deleted meta_obj) s
  = (Ok (list_to_set (map fst (metadata_chunk_keys deleted meta_obj))
         ∖ list_to_set fresh),
     s,
     match filter (fun chunk => stored_key meta_obj chunk ∉ fresh)
                  (live_stored deleted meta_obj) with
     | [] => []
     | stale =>
         [PatchChunksBatch (fm_id meta_obj) (map dc_id stale)
                           (reset_params scanner_id meta_obj)]
     end).
Proof.
  intros Hnd Hids. unfold update_metadata_existing_chunks, metadata_chunk_keys.
  rewrite dict_of_NoDup by (rewrite map_map; exact Hnd).
  rewrite (map_map _ fst). simpl.
  rewrite (filter_map _ (fun kv : string * string => kv.1 ∈ _)). simpl.
  rewrite (filter_ext_in _ (fun chunk => stored_key meta_obj chunk ∉ fresh)).
  2:{ intros chunk Hin. rewrite elem_of_difference, !elem_of_list_to_set.
      split; [tauto|]. intros Hf. split; [|exact Hf].
      apply list_elem_of_In, in_map. now apply list_elem_of_In. }
  rewrite map_map. simpl.
  assert (Hmap : forall l, Forall (fun chunk => mem_char "," (dc_id chunk) = false) l ->
            map (fun x => comma_piece 0 (dc_id x ++ "," ++ fm_id meta_obj)) l
            = map dc_id l).
  { induction 1 as [|x l Hx _ IH]; [reflexivity|]. simpl.
    now rewrite comma_piece_0, IH. }
  rewrite Hmap.
  2:{ apply Forall_forall. intros chunk Hin.
      apply list_elem_of_filter in Hin as [_ Hin].
      rewrite Forall_forall in Hids. now apply Hids. }
  destruct (filter _ (live_stored deleted meta_obj)); reflexivity.
Qed.

Lemma create_newly_added_chunks_posts source db metadata obj updated s :
  exists creates,
    create_newly_added_chunks source db metadata obj updated s
    = (Ok tt, s, creates)
    /\ Forall (fun e => exists a b c d, e = PostChunksBatch a b c d) creates.
Proof.
  unfold create_newly_added_chunks.
  destruct (filter _ (data_chunks obj)) as [|c cs].
  - exists []. split; [reflexivity|constructor].
  - eexists [_]. split; [reflexivity|]. repeat constructor. eauto.
Qed.

(** The body of the loop for an object whose size changed, when every
    fetch gives text and the stored chunks have distinct keys and ids
    without commas: one read per planned chunk outside the tombstone set,
    then one reset for the stored chunks outside the tombstone set whose
    key is not among the fresh ones, then the creations. *)
Lemma reconcile_chunks_effects deleted obj meta_obj body s :
  Forall (fetches_text fetch_data obj body) (live_planned deleted obj) ->
  NoDup (map (stored_key meta_obj) (live_stored deleted meta_obj)) ->
  Forall (fun chunk => mem_char "," (dc_id chunk) = false)
         (live_stored deleted meta_obj) ->
  exists creates,
    reconcile_chunks scanner_id sha384 fetch_data deleted obj meta_obj s
    = (Ok tt, s,
       (map (fetch_of obj) (live_planned deleted obj)
        ++ match filter (fun chunk =>
                           stored_key meta_obj chunk
                           ∉ map (fresh_key sha384 obj body)
                                 (live_planned deleted obj))
                        (live_stored deleted meta_obj) with
           | [] => []
           | stale =>
               [PatchChunksBatch (fm_id meta_obj) (map dc_id stale)
                                 (reset_params scanner_id meta_obj)]
           end
        ++ creates)%list)
    /\ Forall (fun e => exists a b c d, e = PostChunksBatch a b c d) creates.
Proof.
  intros Hfetch Hnd Hids. unfold reconcile_chunks, bind.
  rewrite (fetch_object_chunks_text deleted obj body (data_chunks obj) s Hfetch).
  fold (live_planned deleted obj).
  rewrite (update_metadata_existing_chunks_stale deleted meta_obj _ s Hnd Hids).
  destruct (create_newly_added_chunks_posts
              (map (fresh_key sha384 obj body) (live_planned deleted obj))
              (metadata_chunk_keys deleted meta_obj) meta_obj obj
              (list_to_set (map fst (metadata_chunk_keys deleted meta_obj))
               ∖ list_to_set (map (fresh_key sha384 obj body)
                                  (live_planned deleted obj))) s)
    as (creates & -> & Hposts).
  exists creates. split; [reflexivity|exact Hposts].
Qed.

(** Whether a stored chunk is stale, in terms of offsets and hashes: its key
    is among the fresh ones exactly when some planned chunk at its offset
    was hashed to its stored hash. *)
Lemma stored_key_fresh_iff deleted obj meta_obj body chunk :
  file_full_path meta_obj = Some (full_path obj) ->
  mem_char "," (fmt (dc_offset chunk)) = false ->
  Forall (fun planned => mem_char "," (fmt (dc_offset planned)) = false)
         (live_planned deleted obj) ->
  stored_key meta_obj chunk
  ∈ map (fresh_key sha384 obj body) (live_planned deleted obj)
  <-> exists planned,
        planned ∈ live_planned deleted obj
        /\ fmt (dc_offset planned) = fmt (dc_offset chunk)
        /\ DataAnalysis.hash_data sha384 (body planned) = fmt (dc_hash chunk).
Proof.
  intros Hpath Hc Hp. rewrite list_elem_of_In, in_map_iff.
  unfold stored_key, fresh_key. rewrite Hpath. simpl fmt.
  split.
  - intros (planned & Hkey & Hin). apply list_elem_of_In in Hin.
    exists planned. split; [exact Hin|].
    rewrite Forall_forall in Hp.
    apply chunk_key_inj in Hkey; [exact Hkey|now apply Hp|exact Hc].
  - intros (planned & Hin & Ho & Hh). exists planned.
    split; [now rewrite Ho, Hh|now apply list_elem_of_In].
Qed.

(** The loop of fetches reads the planned chunks outside the tombstone
    set, and nothing else. *)
Lemma fetch_object_chunks_live deleted obj planned s :
  fetch_object_chunks sha384 fetch_data deleted obj planned s
  = fetch_object_chunks sha384 fetch_data deleted obj
      (filter (fun chunk => tombstone_key (Some (full_path obj))
                                          (dc_offset chunk) ∉ deleted)
              planned) s.
Proof.
  induction planned as [|chunk later IH]; [reflexivity|].
  rewrite filter_cons.
  destruct (decide (tombstone_key (Some (full_path obj)) (dc_offset chunk)
                    ∉ deleted)) as [Hout|Hin].
  - simpl fetch_object_chunks.
    rewrite bool_decide_eq_false_2 by exact Hout.
    unfold bind, lift, emit, ret.
    destruct (int_of_offset (dc_offset chunk)) as [offset|e]; [|reflexivity].
    destruct (fetch_data _ _ _ offset) as [data|e]; [|reflexivity].
    destruct (hash_fetched sha384 data) as [hash|e]; [|reflexivity].
    now rewrite IH.
  - simpl fetch_object_chunks.
    rewrite bool_decide_eq_true_2
      by (destruct (decide (tombstone_key (Some (full_path obj))
                                          (dc_offset chunk) ∈ deleted));
          [assumption|contradiction]).
    exact IH.
Qed.

(** The loop of fetches ends at the first chunk whose read raises or
    gives something that cannot be hashed. *)
Lemma fetch_object_chunks_stops deleted obj body before chunk after offset e s :
  Forall (fun c => tombstone_key (Some (full_path obj)) (dc_offset c) ∉ deleted)
         (before ++ [chunk]) ->
  Forall (fetches_text fetch_data obj body) before ->
  int_of_offset (dc_offset chunk) = Ok offset ->
  rbind (fetch_data (fetch_path obj) (dc_fetch_path chunk) (dc_limit chunk)
                    offset)
        (hash_fetched sha384) = Raise e ->
  fetch_object_chunks sha384 fetch_data deleted obj (before ++ chunk :: after) s
  = (Raise e, s, map (fetch_of obj) (before ++ [chunk])).
Proof.
  intros Hlive Hfetch Ho He.
  induction before as [|c before IH].
  - simpl app. simpl fetch_object_chunks.
    apply Forall_cons in Hlive as [Hout _].
    rewrite bool_decide_eq_false_2 by exact Hout.
    unfold bind, lift, emit, ret. cbn [map]. unfold fetch_of. rewrite Ho.
    destruct (fetch_data _ _ _ offset) as [data|e']; simpl in He.
    + rewrite He. reflexivity.
    + now injection He as ->.
  - simpl app. simpl fetch_object_chunks.
    simpl app in Hlive. apply Forall_cons in Hlive as [Hout Hlive].
    apply Forall_cons in Hfetch as [(o & Hco & Hcf) Hfetch].
    rewrite bool_decide_eq_false_2 by exact Hout.
    unfold bind, lift, emit, ret. rewrite Hco, Hcf. simpl hash_fetched.
    rewrite (IH Hlive Hfetch). cbn [map]. unfold fetch_of at 2.
    rewrite Hco. reflexivity.
Qed.

Lemma reconcile_chunks_raises deleted obj meta_obj body before chunk after
    offset e s :
  live_planned deleted obj = (before ++ chunk :: after)%list ->
  Forall (fetches_text fetch_data obj body) before ->
  int_of_offset (dc_offset chunk) = Ok offset ->
  rbind (fetch_data (fetch_path obj) (dc_fetch_path chunk) (dc_limit chunk)
                    offset)
        (hash_fetched sha384) = Raise e ->
  reconcile_chunks scanner_id sha384 fetch_data deleted obj meta_obj s
  = (Raise e, s, map (fetch_of obj) (before ++ [chunk])).
Proof.
  intros Hlive Hfetch Ho He. unfold reconcile_chunks, bind.
  rewrite fetch_object_chunks_live. fold (live_planned deleted obj).
  rewrite Hlive.
  rewrite (fetch_object_chunks_stops deleted obj body before chunk after
             offset e s); [reflexivity| |exact Hfetch|exact Ho|exact He].
  apply Forall_forall. intros c Hc.
  assert (Hin : c ∈ live_planned deleted obj).
  { rewrite Hlive. apply elem_of_app in Hc as [Hc|Hc];
      apply elem_of_app; [now left|right].
    apply list_elem_of_singleton in Hc as ->. left. }
  unfold live_planned in Hin. now apply list_elem_of_filter in Hin as [Hout _].
Qed.

End Reconcile.

Lemma metadata_by_path_acc (l : list FileMetadata) (n : nat)
    (d : gmap (option string) nat) (path : option string) (i : nat) :
  fold_left (fun d im => <[file_full_path im.2 := im.1]> d)
            (combine (seq n (List.length l)) l) d !! path = Some i ->
  d !! path = Some i
  \/ exists meta_obj,
       (n <= i)%nat /\ l !! (i - n)%nat = Some meta_obj
       /\ file_full_path meta_obj = path.
Proof.
  revert n d. induction l as [|x l IH]; intros n d Hlook; [now left|].
  simpl in Hlook. apply IH in Hlook as [Hlook|(m & Hn & Hm & Hpath)].
  - destruct (decide (file_full_path x = path)) as [Heq|Hne].
    + rewrite Heq, lookup_insert_eq in Hlook. injection Hlook as <-.
      right. exists x. split; [lia|].
      replace (n - n)%nat with 0%nat by lia. now split.
    + rewrite lookup_insert_ne in Hlook by exact Hne. now left.
  - right. exists m. split; [lia|]. split; [|exact Hpath].
    replace (i - n)%nat with (S (i - S n)) by lia. exact Hm.
Qed.

(** The dict of the records by path leads from a path to a record of the
    list that has this path. *)
Lemma metadata_by_path_lookup (stored : list FileMetadata)
    (path : option string) (i : nat) :
  metadata_by_path stored !! path = Some i ->
  exists meta_obj,
    stored !! i = Some meta_obj /\ file_full_path meta_obj = path.
Proof.
  intros Hlook. apply metadata_by_path_acc in Hlook
    as [Hlook|(m & _ & Hm & Hpath)]; [now rewrite lookup_empty in Hlook|].
  exists m. split; [|exact Hpath].
  now replace (i - 0)%nat with i in Hm by lia.
Qed.

(** C1, as amended. For an object found both at the source and in the
    stored metadata, whose record is at position [i] of the list of the
    service:
    - when its size is the stored one, the loop passes it over: nothing is
      fetched, hashed or reset for it;
    - when its size changed, the record is first given the new size, and
      every planned chunk outside the tombstone set is fetched and
      hashed;
    - when every fetch gives a text, and the stored chunks outside the
      tombstone set have distinct keys of path, offset and hash and ids
      without a comma, one batch update resets the stored chunks outside
      the tombstone set whose key is not among the fresh keys: [hash],
      [scanned_at] and [labels] are cleared, the status becomes
      WAIT_FOR_SCAN, and [instance_id] is set to the id of this scanner;
      creations follow; such a stored chunk is reset exactly when no
      planned chunk at its offset was hashed to its stored hash;
    - when a fetch raises, or gives what cannot be hashed, the diff
      raises there: the chunks up to that one have been fetched, nothing
      is reset or created, and the record keeps the new size;
    - no data and a frame cannot be hashed. *)
Theorem diff_resets_stale_chunks_on_resize (scanner_id : string)
    (sha384 : list byte -> list byte)
    (fetch_data : string -> option string -> option Z -> Z -> result ChunkData)
    (deleted : gset string) (obj : ObjectContents) (meta_obj : FileMetadata)
    (later : list (string * Z * ObjectContents))
    (metadata_paths_sizes : gmap (option string) nat) (i : nat)
    (s : Service) :
  metadata_paths_sizes !! Some (full_path obj) = Some i ->
  stored_source_metadata s !! i = Some meta_obj ->
  (file_size meta_obj = size obj ->
   reconcile_objects scanner_id sha384 fetch_data deleted
     ((full_path obj, size obj, obj) :: later) metadata_paths_sizes s
   = reconcile_objects scanner_id sha384 fetch_data deleted later
       metadata_paths_sizes s)
  /\ (file_size meta_obj <> size obj ->
      stored_source_metadata (resized i (size obj) s) !! i
      = Some (set_file_size (size obj) meta_obj)
      /\ (forall body,
            Forall (fetches_text fetch_data obj body)
                   (live_planned deleted obj) ->
            NoDup (map (stored_key meta_obj) (live_stored deleted meta_obj)) ->
            Forall (fun chunk => mem_char "," (dc_id chunk) = false)
                   (live_stored deleted meta_obj) ->
            exists creates,
              reconcile_objects scanner_id sha384 fetch_data deleted
                ((full_path obj, size obj, obj) :: later)
                metadata_paths_sizes s
              = after_effects
                  (map (fetch_of obj) (live_planned deleted obj)
                   ++ match filter (fun chunk =>
                                      stored_key meta_obj chunk
                                      ∉ map (fresh_key sha384 obj body)
                                            (live_planned deleted obj))
                                   (live_stored deleted meta_obj) with
                      | [] => []
                      | stale =>
                          [PatchChunksBatch (fm_id meta_obj) (map dc_id stale)
                             {| up_object_size := size obj;
                                up_scanned_at := None;
                                up_instance_id := Some scanner_id;
                                up_labels := None;
                                up_hash := None;
                                up_status := WAIT_FOR_SCAN |}]
                      end
                   ++ creates)
                  (reconcile_objects scanner_id sha384 fetch_data deleted
                     later metadata_paths_sizes (resized i (size obj) s))
              /\ Forall (fun e => exists a b c d, e = PostChunksBatch a b c d)
                        creates
              /\ (file_full_path meta_obj = Some (full_path obj) ->
                  forall chunk,
                    mem_char "," (fmt (dc_offset chunk)) = false ->
                    (stored_key meta_obj chunk
                     ∉ map (fresh_key sha384 obj body)
                           (live_planned deleted obj)
                     <-> ~ exists planned,
                             planned ∈ live_planned deleted obj
                             /\ fmt (dc_offset planned) = fmt (dc_offset chunk)
                             /\ DataAnalysis.hash_data sha384 (body planned)
                                = fmt (dc_hash chunk))))
      /\ (forall body before chunk after offset e,
            live_planned deleted obj = (before ++ chunk :: after)%list ->
            Forall (fetches_text fetch_data obj body) before ->
            int_of_offset (dc_offset chunk) = Ok offset ->
            rbind (fetch_data (fetch_path obj) (dc_fetch_path chunk)
                              (dc_limit chunk) offset)
                  (hash_fetched sha384) = Raise e ->
            reconcile_objects scanner_id sha384 fetch_data deleted
              ((full_path obj, size obj, obj) :: later) metadata_paths_sizes s
            = (Raise e, resized i (size obj) s,
               map (fetch_of obj) (before ++ [chunk])))
      /\ hash_fetched sha384 NoData = Raise AttributeError
      /\ forall df, exists e, hash_fetched sha384 (Frame df) = Raise e).
Proof.
  intros Hindex Hrecord.
  assert (Hstep :
            reconcile_objects scanner_id sha384 fetch_data deleted
              ((full_path obj, size obj, obj) :: later) metadata_paths_sizes s
            = if file_size meta_obj =? size obj
              then reconcile_objects scanner_id sha384 fetch_data deleted
                     later metadata_paths_sizes s
              else bind (assign_file_size i (size obj))
                     (fun _ =>
                        bind (reconcile_chunks scanner_id sha384 fetch_data
                                deleted obj
                                (set_file_size (size obj) meta_obj))
                             (fun _ =>
                                reconcile_objects scanner_id sha384 fetch_data
                                  deleted later metadata_paths_sizes)) s).
  { simpl. rewrite Hindex. simpl. rewrite Hrecord. reflexivity. }
  split.
  - intros Hsame. rewrite Hstep.
    destruct (Z.eqb_spec (file_size meta_obj) (size obj));
      [reflexivity|contradiction].
  - intros Hdiff.
    destruct (Z.eqb_spec (file_size meta_obj) (size obj)) as [|_];
      [contradiction|].
    split; [|split; [|split; [|split]]].
    + unfold resized. simpl. rewrite list_lookup_alter, Hrecord.
      destruct (decide (i = i)); [reflexivity|contradiction].
    + intros body Hfetch Hnd Hids.
      destruct (reconcile_chunks_effects scanner_id sha384 fetch_data deleted obj
                  (set_file_size (size obj) meta_obj) body
                  (resized i (size obj) s) Hfetch Hnd Hids)
        as (creates & Heq & Hposts).
      exists creates. split; [|split; [exact Hposts|]].
      * rewrite Hstep. unfold bind, assign_file_size. rewrite Heq.
        destruct (reconcile_objects _ _ _ _ later _ _) as [[r s'] es].
        reflexivity.
      * intros Hpath chunk Hchunk.
        assert (Hplanned : Forall (fun planned =>
                                     mem_char "," (fmt (dc_offset planned))
                                     = false)
                                  (live_planned deleted obj)).
        { eapply Forall_impl;
            [exact (fetched_offsets fetch_data deleted obj body Hfetch)|].
          now intros planned [_ Hc]. }
        now rewrite (stored_key_fresh_iff sha384 deleted obj meta_obj body chunk
                       Hpath Hchunk Hplanned).
    + intros body before chunk after offset e Hlive Hfetch Ho He.
      rewrite Hstep. unfold bind, assign_file_size.
      now rewrite (reconcile_chunks_raises scanner_id sha384 fetch_data deleted
                     obj _ body before chunk after offset e _
                     Hlive Hfetch Ho He).
    + reflexivity.
    + intros df. simpl. destruct (existsb _ df); eauto.
Qed.

(** Scenario 3 with the object one byte longer: both chunks are read, and
    the chunk at offset 1_000_000, whose first byte changed, is reset; the
    record of the service has the new size. *)
Lemma diff_resets_stale_chunks_on_resize_witness :
  exists creates,
    reconcile_objects "i-0123456789abcdef0" Scenarios.toy_digest
      Scenarios.source_fetch ∅
      [("bucket/notes.txt", 1200001, Scenarios.source_object 1200001)]
      {[ Some "bucket/notes.txt" := 0%nat ]}
      (mkService [Scenarios.stored_record 1200000] [])
    = (Ok tt, mkService [Scenarios.stored_record 1200001] [],
       ([FetchData "notes.txt" (Some "notes.txt") (Some 1000000) 0;
         FetchData "notes.txt" (Some "notes.txt") (Some 1000000) 1000000;
         PatchChunksBatch "meta-1" ["chunk-b"]
           {| up_object_size := 1200001;
              up_scanned_at := None;
              up_instance_id := Some "i-0123456789abcdef0";
              up_labels := None;
              up_hash := None;
              up_status := WAIT_FOR_SCAN |}] ++ creates ++ [])%list).
Proof.
  destruct (proj1 (proj2 (proj2 (diff_resets_stale_chunks_on_resize
                     "i-0123456789abcdef0" Scenarios.toy_digest
                     Scenarios.source_fetch ∅
                     (Scenarios.source_object 1200001)
                     (Scenarios.stored_record 1200000) []
                     {[ Some "bucket/notes.txt" := 0%nat ]} 0%nat
                     (mkService [Scenarios.stored_record 1200000] [])
                     (lookup_singleton_eq _ _) eq_refl)
                  ltac:(discriminate))) Scenarios.source_text)
    as (creates & Heq & _).
  - repeat constructor; eexists; split; reflexivity.
  - apply (bool_decide_unpack _). vm_compute. exact I.
  - repeat constructor.
  - exists creates. refine (eq_trans Heq _). vm_compute. reflexivity.
Defined.

(** The same scenario through the whole of [remove_deleted_files_from_db]:
    nothing is deleted, nothing is created, the second chunk is reset. *)
Lemma resized_object_scenario :
  remove_deleted_files_from_db "i-0123456789abcdef0" Scenarios.toy_digest
    Scenarios.source_fetch JNull (fun _ => true)
    [Scenarios.source_object 1200001]
    (mkService [Scenarios.stored_record 1200000] [])
  = (Ok tt, mkService [Scenarios.stored_record 1200001] [],
     [FetchData "notes.txt" (Some "notes.txt") (Some 1000000) 0;
      FetchData "notes.txt" (Some "notes.txt") (Some 1000000) 1000000;
      PatchChunksBatch "meta-1" ["chunk-b"]
        {| up_object_size := 1200001;
           up_scanned_at := None;
           up_instance_id := Some "i-0123456789abcdef0";
           up_labels := None;
           up_hash := None;
           up_status := WAIT_FOR_SCAN |}]).
Proof. vm_compute. reflexivity. Qed.

(** C1, as stated, on scenario 3: the object keeps its size of 1_200_000
    bytes while the body of the chunk at offset 1_000_000 hashes to
    something else than the stored hash; the diff reads nothing and sends
    nothing, so the stored chunks stay as they are: SCANNED, with their
    hashes. *)
Lemma same_size_change_is_not_seen :
  DataAnalysis.hash_data Scenarios.toy_digest
    (Scenarios.source_text (Scenarios.planned_chunk "1000000"))
  <> "62626262"
  /\ remove_deleted_files_from_db "i-0123456789abcdef0" Scenarios.toy_digest
       Scenarios.source_fetch JNull (fun _ => true)
       [Scenarios.source_object 1200000]
       (mkService [Scenarios.stored_record 1200000] [])
     = (Ok tt, mkService [Scenarios.stored_record 1200000] [], [])
  /\ map (fun chunk => (dc_offset chunk, dc_status chunk, dc_hash chunk))
         (chunks (Scenarios.stored_record 1200000))
     = [(Some "0", SCANNED, Some "61616161");
        (Some "1000000", SCANNED, Some "62626262")].
Proof.
  split; [vm_compute; discriminate|].
  split; [vm_compute; reflexivity|reflexivity].
Qed.

End DiffFacts.

(** ** Masking, further *)

Module MaskingFacts.
Import PyStr PyStrFacts DataAnalysis.

Lemma chars_app (a b : string) :
  list_ascii_of_string (a ++ b)
  = (list_ascii_of_string a ++ list_ascii_of_string b)%list.
Proof.
  induction a as [|c a IH]; [reflexivity|].
  rewrite append_cons. simpl. now rewrite IH.
Qed.

Lemma chars_length (s : string) :
  List.length (list_ascii_of_string s) = String.length s.
Proof. induction s as [|c s IH]; simpl; [reflexivity|now rewrite IH]. Qed.

Lemma chars_sub_alnum (s : string) :
  list_ascii_of_string (sub_alnum s) = map star (list_ascii_of_string s).
Proof. induction s as [|c s IH]; simpl; [reflexivity|now rewrite IH]. Qed.

Lemma substring_all (s : string) : substring 0 (String.length s) s = s.
Proof. induction s as [|c s IH]; simpl; [reflexivity|now rewrite IH]. Qed.

Lemma substring_nil a (s : string) : substring a 0 s = "".
Proof.
  revert a; induction s as [|c s IH]; intros [|a]; simpl; try reflexivity.
  apply IH.
Qed.

Lemma substring_cut (s : string) (a b c : nat) :
  (a + b + c <= String.length s)%nat ->
  substring a (b + c) s = substring a b s ++ substring (a + b) c s.
Proof.
  revert a b c. induction s as [|x s IH]; intros a b c Hle; simpl in Hle.
  - assert (a = 0 /\ b = 0 /\ c = 0)%nat as (-> & -> & ->) by lia. reflexivity.
  - destruct a as [|a].
    + destruct b as [|b].
      * simpl. destruct c; reflexivity.
      * simpl. rewrite append_cons. f_equal.
        rewrite (IH 0%nat b c) by lia. reflexivity.
    + simpl. apply IH. lia.
Qed.

(** A string cut at [a] and [a + b], with its middle masked. *)
Lemma masked_middle (s : string) (a b : nat) :
  (a + b <= String.length s)%nat ->
  Forall2 (fun c d => d = c \/ d = star c)
    (list_ascii_of_string s)
    (list_ascii_of_string
       (substring 0 a s ++ sub_alnum (substring a b s)
        ++ substring (a + b) (String.length s - (a + b)) s)).
Proof.
  intros Hle.
  rewrite <- (substring_all s) at 1.
  replace (String.length s) with (a + (b + (String.length s - (a + b))))%nat at 1 by lia.
  rewrite (substring_cut s 0 a _) by lia.
  rewrite (substring_cut s (0 + a) b _) by (simpl; lia).
  simpl plus.
  rewrite !chars_app, chars_sub_alnum.
  apply Forall2_app; [|apply Forall2_app].
  - apply Forall2_same_length_lookup_2; [reflexivity|]. intros i x y Hx Hy. left. congruence.
  - apply Forall2_fmap_r. apply Forall2_same_length_lookup_2; [reflexivity|]. intros i x y Hx Hy. right. congruence.
  - apply Forall2_same_length_lookup_2; [reflexivity|]. intros i x y Hx Hy. left. congruence.
Qed.


Lemma masked_all (s : string) :
  Forall2 (fun c d => d = c \/ d = star c)
    (list_ascii_of_string s) (list_ascii_of_string (sub_alnum s)).
Proof.
  rewrite chars_sub_alnum. apply Forall2_fmap_r.
  apply Forall2_same_length_lookup_2; [reflexivity|].
  intros i x y Hx Hy. right. congruence.
Qed.

Lemma masked_same (s : string) :
  Forall2 (fun c d => d = c \/ d = star c)
    (list_ascii_of_string s) (list_ascii_of_string s).
Proof.
  apply Forall2_same_length_lookup_2; [reflexivity|].
  intros i x y Hx Hy. left. congruence.
Qed.

Lemma append_empty_r (s : string) : s ++ "" = s.
Proof. induction s as [|c s IH]; [reflexivity|]. now rewrite append_cons, IH. Qed.

Lemma masked_tail (s : string) (a : nat) :
  (a <= String.length s)%nat ->
  Forall2 (fun c d => d = c \/ d = star c)
    (list_ascii_of_string s)
    (list_ascii_of_string
       (substring 0 a s ++ sub_alnum (substring a (String.length s - a) s))).
Proof.
  intros Hle.
  pose proof (masked_middle s a (String.length s - a) ltac:(lia)) as H.
  replace (String.length s - (a + (String.length s - a)))%nat with 0%nat in H by lia.
  rewrite substring_nil in H.
  now rewrite append_empty_r in H.
Qed.

Lemma substring_suffix (x y : string) :
  substring (String.length x) (String.length y) (x ++ y) = y.
Proof.
  induction x as [|c x IH]; [apply substring_all|].
  rewrite append_cons. simpl. exact IH.
Qed.

Lemma slice_substring (s : string) (lo hi : option Z) (a n : nat) :
  match lo with None => 0 | Some i => clamp (len s) i end = Z.of_nat a ->
  match hi with None => len s | Some i => clamp (len s) i end
  = Z.of_nat (a + n) ->
  slice s lo hi = substring a n s.
Proof.
  intros Ha Hb. unfold slice. rewrite Ha, Hb. f_equal; lia.
Qed.

Ltac clamp_bounds :=
  unfold clamp, len in *;
  repeat match goal with
         | |- context [?x <? ?y] => destruct (Z.ltb_spec x y)
         end;
  lia.

(** The masked value has the characters of the value, each one kept or
    replaced by an asterisk if it is in [A-Za-z0-9]; so it has the
    length of the value. The one exception is a classifier whose name
    contains EMAIL, other than EMAIL_ADDRESS, on a value that starts with
    its only [@] and goes on. *)
Theorem mask_data_keeps_or_stars (entity data : string) :
  entity = "EMAIL_ADDRESS" \/ contains "EMAIL" entity = false
  \/ (forall c domain, split_char "@" data <> [""; String c domain]) ->
  exists masked,
    mask_data entity data = Ok masked
    /\ Forall2 (fun c d => d = c \/ d = star c)
               (list_ascii_of_string data) (list_ascii_of_string masked)
    /\ String.length masked = String.length data.
Proof.
  intros Hcase.
  cut (exists masked,
         mask_data entity data = Ok masked
         /\ Forall2 (fun c d => d = c \/ d = star c)
                    (list_ascii_of_string data) (list_ascii_of_string masked)).
  { intros (masked & Hm & Hf). exists masked. repeat split; try assumption.
    apply Forall2_length in Hf.
    rewrite !chars_length in Hf. now symmetry. }
  unfold mask_data, mask_data_body.
  destruct (String.eqb_spec data "") as [->|Hne].
  { exists "". split; [reflexivity|constructor]. }
  assert (Hpos : (1 <= String.length data)%nat).
  { destruct data; [contradiction|simpl; lia]. }
  destruct (contains "EMAIL" entity && mem_char "@" data) eqn:Hemail.
  - apply andb_true_iff in Hemail as [Hc Hm].
    destruct (split_char "@" data) as [|u [|d [|x r]]] eqn:Hs;
      try (exists data; split; [reflexivity|apply masked_same]).
    pose proof (split_char_two _ _ _ _ Hs) as Hdata.
    destruct (String.eqb_spec entity "EMAIL_ADDRESS") as [->|Hother].
    + destruct (last_piece_suffix "." d) as [before Hd].
      set (tld := last_piece (split_char "." d)) in *.
      eexists. split; [reflexivity|].
      assert (Hlen : String.length data
                     = (String.length u + 1 + String.length before
                        + String.length tld)%nat).
      { rewrite Hdata, length_app. simpl. rewrite Hd at 1. rewrite length_app. lia. }
      assert (Htail : substring (1 + (String.length u + String.length before))
                        (String.length data - (1 + (String.length u + String.length before)))
                        data = tld).
      { replace (String.length data - _)%nat with (String.length tld) by lia.
        rewrite Hdata, Hd at 1.
        change (String "@" (before ++ tld)) with ("@" ++ (before ++ tld)).
        rewrite <- !append_assoc.
        replace (1 + (String.length u + String.length before))%nat
          with (String.length ((u ++ "@") ++ before))
          by (rewrite !length_app; simpl; lia).
        apply substring_suffix. }
      pose proof (masked_middle data 1 (String.length u + String.length before)
                    ltac:(lia)) as H.
      rewrite Htail in H.
      rewrite (slice_substring data None (Some 1) 0 1) by clamp_bounds.
      rewrite (slice_substring data (Some 1) _ 1
                 (String.length u + String.length before)) by clamp_bounds.
      exact H.
    + destruct Hcase as [He|[Hf|Hsplit]]; [contradiction|congruence|].
      eexists. split; [reflexivity|].
      destruct u as [|c u].
      * destruct d as [|c d]; [|now destruct (Hsplit c d)].
        rewrite Hdata. vm_compute. repeat constructor.
      * assert (Hlen : String.length data
                       = (2 + String.length u + String.length d)%nat).
        { rewrite Hdata, length_app. simpl. lia. }
        assert (Htail : substring (2 + String.length u)
                          (String.length data - (2 + String.length u)) data = d).
        { replace (String.length data - _)%nat with (String.length d) by lia.
          rewrite Hdata at 1.
          change (String "@" d) with ("@" ++ d).
          rewrite <- append_assoc.
          replace (2 + String.length u)%nat
            with (String.length (String c u ++ "@"))
            by (rewrite length_app; simpl; lia).
          apply substring_suffix. }
        pose proof (masked_middle data 2 (String.length u) ltac:(lia)) as H.
        rewrite Htail in H.
        rewrite (slice_substring data None (Some 2) 0 2) by clamp_bounds.
        rewrite (slice_substring data (Some 2) _ 2 (String.length u))
          by clamp_bounds.
        exact H.
  - destruct (String.eqb entity "US_SSN" || String.eqb entity "PERSON").
    + destruct (Z.leb_spec (len data) 4) as [H4|H4].
      { eexists. split; [reflexivity|].
        pose proof (masked_tail data 1 ltac:(lia)) as H.
        rewrite (slice_substring data None (Some 1) 0 1) by clamp_bounds.
        rewrite (slice_substring data (Some 1) None 1 (String.length data - 1))
          by clamp_bounds.
        exact H. }
      destruct (Z.ltb_spec 4 (len data)) as [_|]; [|lia].
      destruct (Z.leb_spec (len data) 6) as [H6|H6]; simpl andb; cbv iota.
      { eexists. split; [reflexivity|].
        pose proof (masked_tail data 2 ltac:(unfold len in *; lia)) as H.
        rewrite (slice_substring data None (Some 2) 0 2) by clamp_bounds.
        rewrite (slice_substring data (Some 2) None 2 (String.length data - 2))
          by clamp_bounds.
        exact H. }
      eexists. split; [reflexivity|].
      pose proof (masked_middle data 2 (String.length data - 4)
                    ltac:(unfold len in *; lia)) as H.
      rewrite (slice_substring data None (Some 2) 0 2) by clamp_bounds.
      rewrite (slice_substring data (Some 2) (Some (-2)) 2
                 (String.length data - 4)) by clamp_bounds.
      rewrite (slice_substring data (Some (-2)) None
                 (2 + (String.length data - 4))
                 (String.length data - (2 + (String.length data - 4))))
        by clamp_bounds.
      exact H.
    + eexists. split; [reflexivity|apply masked_all].
Qed.

Lemma mask_data_keeps_or_stars_witness :
  exists masked,
    mask_data "US_SSN" "078-05-1120" = Ok masked
    /\ Forall2 (fun c d => d = c \/ d = star c)
               (list_ascii_of_string "078-05-1120") (list_ascii_of_string masked)
    /\ String.length masked = String.length "078-05-1120".
Proof.
  apply (mask_data_keeps_or_stars "US_SSN" "078-05-1120").
  right. left. reflexivity.
Defined.

Lemma split_char_absent sep s : mem_char sep s = false -> split_char sep s = [s].
Proof.
  induction s as [|c s IH]; intros Hm; [reflexivity|].
  simpl in *. apply orb_false_iff in Hm as [Hc Hm].
  rewrite Ascii.eqb_sym, Hc, (IH Hm). reflexivity.
Qed.

(** The exception: for a classifier whose name contains EMAIL, other than
    EMAIL_ADDRESS, a value that starts with its only [@] comes back with
    the first character of the domain written twice and nothing masked. *)
Lemma mask_data_leading_at (entity : string) (c : ascii) (domain : string) :
  contains "EMAIL" entity = true ->
  entity <> "EMAIL_ADDRESS" ->
  mem_char "@" (String c domain) = false ->
  mask_data entity (String "@" (String c domain))
  = Ok (String "@" (String c (String c domain))).
Proof.
  intros Hc Hne Hm. unfold mask_data, mask_data_body.
  change (String.eqb (String "@" (String c domain)) "") with false. cbv iota.
  rewrite Hc.
  change (mem_char "@" (String "@" (String c domain))) with true.
  simpl andb. cbv iota.
  change (split_char "@" (String "@" (String c domain)))
    with ("" :: split_char "@" (String c domain)).
  rewrite (split_char_absent _ _ Hm).
  destruct (String.eqb_spec entity "EMAIL_ADDRESS") as [|_]; [contradiction|].
  rewrite (slice_substring _ None (Some 2) 0 2)
    by (unfold clamp, len; simpl String.length; simpl; lia).
  assert (Hmid : slice (String "@" (String c domain)) (Some 2)
                   (Some (len (String "@" (String c domain))
                          - len (String c domain))) = "").
  { unfold slice, clamp, len. simpl String.length.
    change (2 <? 0) with false. cbv iota.
    match goal with
    | |- context [?x <? 0] => destruct (Z.ltb_spec x 0); [lia|]
    end.
    replace (Z.to_nat (_ - _)) with 0%nat by lia.
    apply substring_nil. }
  rewrite Hmid. simpl. destruct domain; reflexivity.
Qed.

Lemma mask_data_leading_at_witness :
  mask_data "EMAIL" "@x.com" = Ok "@xx.com".
Proof.
  apply (mask_data_leading_at "EMAIL" "x" ".com");
    [reflexivity|discriminate|reflexivity].
Defined.

End MaskingFacts.

(** ** The control-plane client, further *)

Module ClientFacts.
Import SendRequest SendRequestFacts.

(** Three answers 401 in a row: the token is refreshed twice, the third
    401 ends the call with [None], and nothing more is sent whatever the
    control plane would answer next. *)
Lemma unauthorized_gives_up (b1 b2 b3 : option Json) (later : list Response) :
  make_request (Http 401 b1 :: Http 401 b2 :: Http 401 b3 :: later) 0
  = ([Sent 0; TokenRefreshed; Sent 1; TokenRefreshed; Sent 2], Returned JNull).
Proof. reflexivity. Qed.

Lemma make_request_refresh_step (body : option Json) (later : list Response)
    (attempt : Z) :
  attempt <> 2 ->
  make_request (Http 401 body :: later) attempt
  = (Sent attempt :: TokenRefreshed :: (make_request later (attempt + 1)).1,
     (make_request later (attempt + 1)).2).
Proof.
  intros Ha. simpl.
  destruct (Z.eqb_spec attempt 2); [contradiction|].
  now destruct (make_request later (attempt + 1)).
Qed.

(** The count of refreshes is per run of consecutive 401 answers: after
    two of them, an answer 424 or above 500 with a JSON body sends the
    request again with the count back at 0, so that a third 401 is
    answered with a third refresh, and the call goes on as a call at
    attempt 1. *)
Lemma refresh_count_is_reset (status : Z) (b1 b2 b3 : option Json) (body : Json)
    (later : list Response) :
  status = 424 \/ 500 < status ->
  make_request
    (Http 401 b1 :: Http 401 b2 :: Http status (Some body) :: Http 401 b3
     :: later) 0
  = (Sent 0 :: TokenRefreshed :: Sent 1 :: TokenRefreshed :: Sent 2
     :: Slept 1 :: Sent 0 :: TokenRefreshed :: (make_request later 1).1,
     (make_request later 1).2).
Proof.
  intros Hs.
  rewrite (make_request_refresh_step b1 _ 0) by lia.
  rewrite (make_request_refresh_step b2 _ (0 + 1)) by lia.
  rewrite (make_request_retry_step status body _ (0 + 1 + 1) Hs).
  rewrite (make_request_refresh_step b3 _ 0) by lia.
  reflexivity.
Qed.

Lemma refresh_count_is_reset_witness :
  make_request
    [Http 401 None; Http 401 None; Http 503 (Some JNull); Http 401 None;
     Http 200 (Some (JNum 1))] 0
  = ([Sent 0; TokenRefreshed; Sent 1; TokenRefreshed; Sent 2; Slept 1;
      Sent 0; TokenRefreshed; Sent 1], Returned (JNum 1)).
Proof.
  exact (refresh_count_is_reset 503 None None None JNull
           [Http 200 (Some (JNum 1))] (or_intror eq_refl)).
Defined.

End ClientFacts.

(** ** The worker, further *)

Module WorkerFacts.
Import PyStr Schemas Config SendRequest ScanService PipelineFacts.

Lemma analyze_content_data_writes w content :
  Forall (fun e =>
            forall st, In st (statuses_written e) ->
                       st = SCANNED /\ exists c, e = PutChunk c)
         (analyze_content_data w content).1.
Proof.
  assert (Hput : forall now chunk st,
            In st (statuses_written (PutChunk (scanned_chunk now chunk))) ->
            st = SCANNED
            /\ exists c, PutChunk (scanned_chunk now chunk) = PutChunk c).
  { intros now chunk st [<-|[]]. split; [reflexivity|eauto]. }
  unfold analyze_content_data.
  destruct (current_chunk content) as [chunk|]; [|constructor].
  destruct (int_of_offset (dcu_offset chunk)) as [offset|e]; [|constructor].
  destruct (fetch_data w _ _ _ offset) as [data|e].
  - destruct (is_not_valid_chunk data); cbn [fst].
    + constructor; [intros st []|]. constructor; [apply Hput|constructor].
    + repeat (constructor; [intros st []|]).
      apply Forall_app. split.
      * eapply Forall_impl; [apply report_only_posts|].
        intros e (m & c & b & ->) st [].
      * constructor; [apply Hput|constructor].
  - cbn [fst]. constructor; [intros st []|constructor].
Qed.

(** The only statuses a run of a worker writes are IN_PROGRESS, with the
    lease on a chunk in WAIT_FOR_SCAN, and SCANNED, with the PUT that
    saves the chunk: whatever goes wrong after the lease, no request of
    the run, single or batch, gives a chunk back to WAIT_FOR_SCAN or marks
    it FAILED. *)
Theorem worker_writes_two_statuses (w : Worker) (object_content : ObjectContents)
    (latest_data_type : option datetime) (scanner_id : string) :
  Forall (fun e =>
            forall st, In st (statuses_written e) ->
                       (st = IN_PROGRESS
                        /\ exists f u, e = PatchChunk f u
                                       /\ dcu_status f = Some WAIT_FOR_SCAN)
                       \/ (st = SCANNED /\ exists c, e = PutChunk c))
         (run_scanner w object_content latest_data_type scanner_id).
Proof.
  unfold run_scanner.
  destruct (current_chunk object_content) as [chunk|]; [|constructor].
  destruct (service_ready w); simpl negb; cbv iota; [|constructor].
  unfold scanning_update_status.
  match goal with
  | |- context [PatchChunk ?f ?u] => set (lease := PatchChunk f u)
  end.
  assert (Hlease : forall st, In st (statuses_written lease) ->
            (st = IN_PROGRESS
             /\ exists f u, lease = PatchChunk f u
                            /\ dcu_status f = Some WAIT_FOR_SCAN)
            \/ (st = SCANNED /\ exists c, lease = PutChunk c)).
  { intros st [<-|[]]. left. split; [reflexivity|].
    unfold lease. eexists _, _. split; reflexivity. }
  clearbody lease.
  destruct (truthy _); simpl negb; cbv iota;
    [|constructor; [exact Hlease|constructor]].
  destruct (hyperscan_ready w); simpl negb; cbv iota;
    [|constructor; [exact Hlease|constructor]].
  match goal with
  | |- context [analyze_content_data w ?c] =>
      pose proof (analyze_content_data_writes w c) as Ha;
      destruct (analyze_content_data w c) as [effects outcome]
  end.
  cbn [fst] in Ha.
  assert (Hw : Forall (fun e =>
            forall st, In st (statuses_written e) ->
                       (st = IN_PROGRESS
                        /\ exists f u, e = PatchChunk f u
                                       /\ dcu_status f = Some WAIT_FOR_SCAN)
                       \/ (st = SCANNED /\ exists c, e = PutChunk c))
            effects).
  { eapply Forall_impl; [exact Ha|]. intros e He st Hst. right. now apply He. }
  destruct outcome as [[]|e].
  - constructor; [exact Hlease|].
    constructor; [intros st []|].
    apply Forall_app. split; [exact Hw|].
    constructor; [intros st []|constructor].
  - constructor; [exact Hlease|].
    constructor; [intros st []|exact Hw].
Qed.

(** When the read of a leased chunk raises, the run ends there: the chunk
    is not saved and no status is written after the lease, so the control
    plane keeps it IN_PROGRESS under this scanner. *)
Lemma failed_fetch_keeps_the_lease (w : Worker) (object_content : ObjectContents)
    (chunk : DataChunkUpdate) (latest_data_type : option datetime)
    (scanner_id : string) (offset : Z) (e : exn) :
  current_chunk object_content = Some chunk ->
  service_ready w = true ->
  truthy (lease_reply w) = true ->
  hyperscan_ready w = true ->
  int_of_offset (dcu_offset chunk) = Ok offset ->
  fetch_data w (fetch_path object_content) (dcu_fetch_path chunk)
             (dcu_limit chunk) offset = Raise e ->
  run_scanner w object_content latest_data_type scanner_id
  = [lease_request chunk scanner_id; CompileHyperscanPatterns;
     FetchData (fetch_path object_content) (dcu_fetch_path chunk)
               (dcu_limit chunk) offset].
Proof.
  intros Hc Hs Hl Hh Ho Hf. unfold run_scanner. rewrite Hc, Hs.
  unfold scanning_update_status.
  rewrite SendRequestFacts.truthy_send_request_plain, Hl, Hh.
  simpl negb. cbv iota.
  unfold analyze_content_data, set_latest_data_type.
  cbn [current_chunk dcu_offset fetch_path dcu_fetch_path dcu_limit].
  rewrite Ho, Hf. reflexivity.
Qed.

Lemma failed_fetch_keeps_the_lease_witness :
  run_scanner
    (mkWorker true (JNum 1) true (fun _ _ _ _ => Raise OSError) false
              (fun _ _ => false) (fun _ _ => [[]]) 1700000000 1700000001)
    Scenarios.queued (Some 1699999999) "i-0123456789abcdef0"
  = [lease_request Scenarios.queued_chunk "i-0123456789abcdef0";
     CompileHyperscanPatterns;
     FetchData "notes.txt" (Some "notes.txt") (Some 1000000) 0].
Proof.
  exact (failed_fetch_keeps_the_lease
           (mkWorker true (JNum 1) true (fun _ _ _ _ => Raise OSError) false
                     (fun _ _ => false) (fun _ _ => [[]]) 1700000000 1700000001)
           Scenarios.queued Scenarios.queued_chunk (Some 1699999999)
           "i-0123456789abcdef0" 0 OSError
           eq_refl eq_refl eq_refl eq_refl eq_refl eq_refl).
Defined.

End WorkerFacts.

(** ** Chunk planning, further *)

Module PlanningFacts.
Import PyStr Schemas Config FileService ScanService FileServiceFacts.

Lemma in_range (n i : Z) : 0 <= i < n -> In i (range n).
Proof.
  intros Hi. unfold range. apply in_map_iff.
  exists (Z.to_nat i). split; [lia|]. apply in_seq. lia.
Qed.

Lemma int_of_offset_str_of_Z (n : Z) : int_of_offset (Some (str_of_Z n)) = Ok n.
Proof.
  unfold int_of_offset, str_of_Z.
  rewrite NilZero.isi.
  - now rewrite DecimalZ.of_to.
  - destruct n; simpl; try discriminate.
    intros [= H]. now apply Unsigned.to_uint_nonnil in H.
  - destruct n; simpl; try discriminate.
    intros [= H]. now apply Unsigned.to_uint_nonnil in H.
Qed.

(** No byte of a plain object of at most [2^34 * 1_000_000] bytes is left
    without a chunk: the byte at position [k] lies in the window of a
    planned chunk, whose offset the worker reads back as a number. *)
Theorem planned_chunks_cover_the_object (settings : Settings)
    (env : Connector) (content : ObjectContents) (k : Z) :
  endswith_any UNSUPPORTED_EXTENSIONS (object_name content) = false ->
  endswith_any ARCHIVE_EXTENSIONS (fetch_path content) = false ->
  endswith_any CONTAINER_TYPES (fetch_path content) = false ->
  size content <= 2 ^ 34 * CHUNK_BYTES_CAPACITY ->
  0 <= k < size content ->
  exists planned chunk offset,
    collect_file_chunks settings env content = Some planned
    /\ In chunk (data_chunks planned)
    /\ int_of_offset (dc_offset chunk) = Ok offset
    /\ dc_limit chunk = Some CHUNK_BYTES_CAPACITY
    /\ offset <= k < offset + CHUNK_BYTES_CAPACITY.
Proof.
  intros Hu Ha Hc Hmax Hk.
  unfold collect_file_chunks, collect_file_chunks_body.
  destruct (Z.eqb_spec (size content) 0) as [E|Hnz]; [lia|].
  assert (Hsize : 0 < size content <= 2 ^ 34 * CHUNK_BYTES_CAPACITY) by lia.
  rewrite Ha, (create_file_chunks_plain settings env _ _ _ Hsize Hu Hc).
  simpl rbind.
  set (i := k / CHUNK_BYTES_CAPACITY).
  assert (Hi : 0 <= i < (size content - 1) / CHUNK_BYTES_CAPACITY + 1).
  { unfold i, CHUNK_BYTES_CAPACITY. split; [apply Z.div_pos; lia|].
    assert (k / 1000000 <= (size content - 1) / 1000000)
      by (apply Z.div_le_mono; lia).
    lia. }
  pose proof (in_range _ i Hi) as Hin.
  assert (Hchunk : In (new_chunk settings env (fetch_path content) i)
                      (map (new_chunk settings env (fetch_path content))
                           (range ((size content - 1) / CHUNK_BYTES_CAPACITY + 1))))
    by now apply in_map.
  eexists _, (new_chunk settings env (fetch_path content) i),
    (i * CHUNK_BYTES_CAPACITY).
  split; [reflexivity|].
  split.
  { unfold without_chunks_scanned. simpl data_chunks.
    destruct (map _ _) eqn:Hm; [destruct Hchunk|].
    simpl data_chunks. exact Hchunk. }
  split; [apply int_of_offset_str_of_Z|].
  split; [reflexivity|].
  unfold i, CHUNK_BYTES_CAPACITY.
  pose proof (Z.div_mod k 1000000 ltac:(lia)).
  pose proof (Z.mod_pos_bound k 1000000 ltac:(lia)).
  lia.
Qed.

Lemma planned_chunks_cover_the_object_witness :
  exists planned chunk offset,
    collect_file_chunks Scenarios.settings (Scenarios.connector (Raw []) 0)
                        (Scenarios.discovered "notes.txt" 2500000)
    = Some planned
    /\ In chunk (data_chunks planned)
    /\ int_of_offset (dc_offset chunk) = Ok offset
    /\ dc_limit chunk = Some CHUNK_BYTES_CAPACITY
    /\ offset <= 2400000 < offset + CHUNK_BYTES_CAPACITY.
Proof.
  apply (planned_chunks_cover_the_object Scenarios.settings
           (Scenarios.connector (Raw []) 0)
           (Scenarios.discovered "notes.txt" 2500000) 2400000);
    [reflexivity|reflexivity|reflexivity|vm_compute; discriminate|simpl; lia].
Defined.

(** Every object that discovery keeps has a chunk planned, or has one of
    the statuses SCANNED, SKIPPED and FAILED: none is handed on with
    nothing to scan and its status untouched. *)
Theorem kept_object_has_a_chunk_or_a_final_status (settings : Settings)
    (env : Connector) (content : ObjectContents) :
  match collect_file_chunks settings env content with
  | None => True
  | Some kept =>
      data_chunks kept <> []
      \/ status kept = Some SCANNED
      \/ status kept = Some SKIPPED
      \/ status kept = Some FAILED
  end.
Proof.
  assert (Hdone : forall c,
            data_chunks (without_chunks_scanned c) <> []
            \/ status (without_chunks_scanned c) = Some SCANNED
            \/ status (without_chunks_scanned c) = Some SKIPPED
            \/ status (without_chunks_scanned c) = Some FAILED).
  { intros c. unfold without_chunks_scanned.
    destruct (data_chunks c) eqn:Hc; [right; left; reflexivity|].
    left. rewrite Hc. discriminate. }
  unfold collect_file_chunks.
  destruct (size content =? 0); [right; left; reflexivity|].
  unfold collect_file_chunks_body.
  destruct (endswith_any ARCHIVE_EXTENSIONS (fetch_path content)).
  - destruct (INITIAL_DISK_SPACE settings <=? size content);
      [right; right; left; reflexivity|].
    destruct (read_data env (fetch_path content)) as [[data|]|e]; simpl;
      [|exact I|right; right; right; reflexivity].
    destruct (blob_empty data); [exact I|].
    destruct (check_archive_memory_cost env (full_path content) data)
      as [[|]|]; try exact I.
    destruct (chunks_of_unpacked settings env _) as [chunks|e]; simpl;
      [apply Hdone|right; right; right; reflexivity].
  - destruct (create_file_chunks settings env _ _ _) as [chunks|e]; simpl;
      [apply Hdone|right; right; right; reflexivity].
Qed.

(** The offset of a planned chunk is read back by the worker as the
    number it was planned with: [int(str(i * L)) = i * L]. *)
Theorem planned_offset_is_read_back (settings : Settings)
    (env : Connector) (fetch_path : string) (i : Z) :
  int_of_offset (dc_offset (new_chunk settings env fetch_path i))
  = Ok (i * CHUNK_BYTES_CAPACITY).
Proof. apply int_of_offset_str_of_Z. Qed.

(** The read mode chosen from the archive type is the one chosen from the
    name itself. *)
Theorem tar_mode_of_archive_type (file_name : string) :
  get_tar_read_mode (get_tar_archive_extension file_name)
  = get_tar_read_mode file_name.
Proof.
  unfold get_tar_archive_extension.
  destruct (endswith "tar.gz" file_name) eqn:Hgz.
  - unfold get_tar_read_mode at 2. rewrite Hgz. reflexivity.
  - destruct (endswith "tar.bz2" file_name) eqn:Hbz.
    + unfold get_tar_read_mode at 2. rewrite Hgz, Hbz. reflexivity.
    + unfold get_tar_read_mode at 2. rewrite Hgz, Hbz. reflexivity.
Qed.

End PlanningFacts.

(** ** The source diff, further *)

Module CleanupFacts.
Import PyStr PyStrFacts Schemas SendRequest ScanService DiffFacts.

Lemma dict_set_subset {K V : Type} `{EqDecision K} (k : K) (v : V)
    (d : list (K * V)) (kv : K * V) :
  kv ∈ dict_set k v d -> kv = (k, v) \/ kv ∈ d.
Proof.
  induction d as [|[k' v'] d IH]; simpl.
  - intros Hin. apply list_elem_of_singleton in Hin. now left.
  - destruct (decide (k = k')).
    + intros Hin. apply elem_of_cons in Hin as [->|Hin]; [now left|].
      right. now right.
    + intros Hin. apply elem_of_cons in Hin as [->|Hin]; [right; left|].
      destruct (IH Hin) as [->|Hd]; [now left|right; now right].
Qed.

Lemma dict_of_subset_acc {K V : Type} `{EqDecision K} (kvs acc : list (K * V))
    (kv : K * V) :
  kv ∈ fold_left (fun d kv => dict_set kv.1 kv.2 d) kvs acc ->
  kv ∈ acc \/ kv ∈ kvs.
Proof.
  revert acc. induction kvs as [|[k v] kvs IH]; intros acc Hin; simpl in *.
  - now left.
  - destruct (IH _ Hin) as [Hacc|Hk]; [|right; now right].
    destruct (dict_set_subset _ _ _ _ Hacc) as [->|Hd]; [right; left|now left].
Qed.

(** Every entry of a dict built from pairs is one of the pairs. *)
Lemma dict_of_subset {K V : Type} `{EqDecision K} (kvs : list (K * V))
    (kv : K * V) :
  kv ∈ dict_of kvs -> kv ∈ kvs.
Proof.
  intros Hin. destruct (dict_of_subset_acc kvs [] kv Hin) as [Hnil|Hk];
    [inversion Hnil|exact Hk].
Qed.

Lemma filter_all {A : Type} (P : A -> Prop) `{forall x, Decision (P x)}
    (l : list A) :
  Forall P l -> filter P l = l.
Proof.
  induction 1 as [|x l Hx _ IH]; [reflexivity|].
  rewrite filter_cons, IH. now destruct (decide (P x)).
Qed.

Lemma filter_equiv {A : Type} (P Q : A -> Prop)
    `{forall x, Decision (P x)} `{forall x, Decision (Q x)} (l : list A) :
  (forall x, x ∈ l -> (P x <-> Q x)) -> filter P l = filter Q l.
Proof.
  induction l as [|x l IH]; intros Hpq; [reflexivity|].
  rewrite !filter_cons.
  assert (Hx : P x <-> Q x) by (apply Hpq; left).
  rewrite IH by (intros y Hy; apply Hpq; now right).
  destruct (decide (P x)), (decide (Q x)); tauto.
Qed.

(** What [send_request] does with a reply it has to parse. *)
Lemma send_request_model_cases (parses : Json -> bool) (reply : Json) :
  (truthy reply = true
   /\ (forall text, reply <> JStr text)
   /\ parses reply = false
   /\ send_request_model parses reply = Raise ValidationError)
  \/ ((truthy reply = false
       \/ (exists text, reply = JStr text)
       \/ parses reply = true)
      /\ exists j, send_request_model parses reply = Ok j).
Proof.
  unfold send_request_model.
  destruct reply as [|b|n|text|items|fields];
    try (destruct (truthy _) eqn:Ht;
         [destruct (parses _) eqn:Hp;
          [right; split; [right; right; reflexivity|eauto]
          |left; repeat split; discriminate]
         |right; split; [left; reflexivity|eauto]]).
  right. split; [right; left; eauto|eauto].
Qed.

(** [remove_deleted_metadata] sends nothing and returns, or sends one
    batch deletion; every id in the batch is the id of a stored record
    whose path is the path of no object found at the source. After the
    deletion the metadata is loaded again and the method returns, unless
    the reply to the deletion is neither falsy, nor a string, nor a valid
    [FileMetadataRead]: then the parse of the reply raises out of the
    method, nothing is loaded, and the service keeps the metadata it had,
    the deleted records included. *)
Theorem remove_deleted_metadata_spares_the_source (deletion_reply : Json)
    (parses_as_metadata : Json -> bool)
    (fetched_objects : list ObjectContents) (s : Service) :
  let run :=
    remove_deleted_metadata deletion_reply parses_as_metadata
                            fetched_objects s in
  (run.1.1 = Ok tt /\ run.1.2 = s /\ run.2 = [])
  \/ exists ids,
       ids <> []
       /\ (forall id, id ∈ ids ->
             exists metadata,
               metadata ∈ stored_source_metadata s
               /\ fm_id metadata = id
               /\ forall obj, obj ∈ fetched_objects ->
                    file_full_path metadata <> Some (full_path obj))
       /\ ((truthy deletion_reply = true
            /\ (forall text, deletion_reply <> JStr text)
            /\ parses_as_metadata deletion_reply = false
            /\ run.1.1 = Raise ValidationError
            /\ run.1.2 = s
            /\ run.2 = [DeleteBatchMetadata ids])
           \/ ((truthy deletion_reply = false
                \/ (exists text, deletion_reply = JStr text)
                \/ parses_as_metadata deletion_reply = true)
               /\ run.1.1 = Ok tt
               /\ run.2 = [DeleteBatchMetadata ids; GetFileMetadata])).
Proof.
  unfold remove_deleted_metadata, bind, get_service. simpl.
  match goal with
  | |- context [bool_decide ?P] => destruct (bool_decide P)
  end.
  { left. repeat split. }
  match goal with
  | |- context [map snd ?l] => remember (map snd l) as ids eqn:Hids
  end.
  destruct ids as [|id ids].
  { left. repeat split. }
  right. exists (id :: ids). split; [discriminate|]. split.
  - intros i Hi. rewrite Hids in Hi.
    apply list_elem_of_fmap in Hi as ([path i'] & -> & Hin).
    apply list_elem_of_filter in Hin as [Hdel Hin]. simpl in Hdel.
    apply dict_of_subset in Hin.
    apply list_elem_of_fmap in Hin as (metadata & [= -> ->] & Hmeta).
    exists metadata. split; [exact Hmeta|]. split; [reflexivity|].
    intros obj Hobj Heq.
    apply elem_of_difference in Hdel as [_ Hnot]. apply Hnot.
    apply elem_of_list_to_set, list_elem_of_fmap.
    exists obj. split; [exact Heq|exact Hobj].
  - unfold delete_file_metadata, emit, lift, load_stored_metadata, bind, ret.
    destruct (send_request_model_cases parses_as_metadata deletion_reply)
      as [(Ht & Hs & Hp & ->)|(Hc & j & ->)].
    + left. repeat split; assumption.
    + right. split; [exact Hc|]. destruct (replies s); split; reflexivity.
Qed.

(** [remove_deleted_chunks] returns a tombstone set that holds the key of
    no planned chunk of the objects found at the source: for every one of
    them the later loop skips nothing. *)
Theorem tombstones_spare_planned_chunks
    (fetched_objects : list ObjectContents) (s : Service) :
  exists deleted,
    (remove_deleted_chunks fetched_objects s).1.1 = Ok deleted
    /\ forall obj, obj ∈ fetched_objects ->
         live_planned deleted obj = data_chunks obj.
Proof.
  unfold remove_deleted_chunks, bind, get_service. simpl.
  match goal with
  | |- context [map snd (filter _ ?d)] => set (db := d)
  end.
  match goal with
  | |- context [list_to_set (map fst db) ∖ ?src] => set (source := src)
  end.
  exists (list_to_set (map fst db) ∖ source). split.
  - destruct (map snd _); [reflexivity|].
    unfold emit, load_stored_metadata, bind, ret. simpl.
    destruct (replies s); reflexivity.
  - intros obj Hobj. unfold live_planned.
    apply filter_all. apply Forall_forall. intros chunk Hchunk Hin.
    apply elem_of_difference in Hin as [_ Hnot]. apply Hnot.
    unfold source. apply elem_of_list_to_set, list_elem_of_In, in_flat_map.
    exists obj. split; [now apply list_elem_of_In|].
    apply in_map_iff. exists chunk. split; [reflexivity|now apply list_elem_of_In].
Qed.


Lemma hexdigest_not_None (bs : list byte) : DataAnalysis.hexdigest bs <> "None".
Proof.
  destruct bs as [|b r]; [discriminate|]. intros H.
  apply (f_equal (fun s => match s with
                           | String c _ => c
                           | EmptyString => "N"%char
                           end)) in H.
  simpl in H. destruct b; vm_compute in H; discriminate.
Qed.

(** Stored chunks at distinct offsets without a comma have distinct
    keys. *)
Lemma stored_keys_distinct (meta_obj : FileMetadata) (l : list DataChunk) :
  Forall (fun chunk => mem_char "," (fmt (dc_offset chunk)) = false) l ->
  NoDup (map (fun chunk => fmt (dc_offset chunk)) l) ->
  NoDup (map (stored_key meta_obj) l).
Proof.
  induction l as [|x l IH]; intros Hc Hnd; [constructor|].
  apply Forall_cons in Hc as [Hx Hc].
  simpl in Hnd. apply NoDup_cons in Hnd as [Hnotin Hnd].
  simpl. apply NoDup_cons. split; [|now apply IH].
  intros Hin. apply Hnotin.
  apply list_elem_of_fmap in Hin as (y & Hkey & Hy).
  apply list_elem_of_fmap. exists y. split; [|exact Hy].
  rewrite Forall_forall in Hc.
  unfold stored_key in Hkey.
  now apply chunk_key_inj in Hkey as [Ho _]; [|exact Hx|apply Hc].
Qed.

(** The pipeline saves chunks without a hash (it sends the hash the chunk
    came with). For an object whose size changed, when every read of a
    planned chunk gives a text, the stored chunks outside the tombstone
    set that have no hash, and offsets and ids without a comma, one chunk
    to an offset, are all reset, whatever the texts read are: the key of
    such a chunk ends in the word None, which is the digest of no text. *)
Theorem unhashed_chunks_are_all_reset (scanner_id : string)
    (sha384 : list byte -> list byte)
    (fetch_data : string -> option string -> option Z -> Z -> result ChunkData)
    (deleted : gset string) (obj : ObjectContents) (meta_obj : FileMetadata)
    (body : DataChunk -> string) (s : Service) :
  file_full_path meta_obj = Some (full_path obj) ->
  Forall (fetches_text fetch_data obj body) (live_planned deleted obj) ->
  NoDup (map (fun chunk => fmt (dc_offset chunk))
             (live_stored deleted meta_obj)) ->
  Forall (fun chunk => mem_char "," (dc_id chunk) = false
                       /\ mem_char "," (fmt (dc_offset chunk)) = false
                       /\ dc_hash chunk = None)
         (live_stored deleted meta_obj) ->
  live_stored deleted meta_obj <> [] ->
  exists creates,
    reconcile_chunks scanner_id sha384 fetch_data deleted obj meta_obj s
    = (Ok tt, s,
       (map (fetch_of obj) (live_planned deleted obj)
        ++ [PatchChunksBatch (fm_id meta_obj)
              (map dc_id (live_stored deleted meta_obj))
              (reset_params scanner_id meta_obj)]
        ++ creates)%list)
    /\ Forall (fun e => exists a b c d, e = PostChunksBatch a b c d) creates.
Proof.
  intros Hpath Hfetch Hnd Hstored Hne.
  assert (Hplanned : Forall (fun planned =>
                               mem_char "," (fmt (dc_offset planned)) = false)
                            (live_planned deleted obj)).
  { eapply Forall_impl;
      [exact (fetched_offsets fetch_data deleted obj body Hfetch)|].
    now intros planned [_ Hc]. }
  destruct (reconcile_chunks_effects scanner_id sha384 fetch_data deleted obj
              meta_obj body s Hfetch) as (creates & Heq & Hposts).
  { apply stored_keys_distinct; [|exact Hnd].
    eapply Forall_impl; [exact Hstored|]. now intros chunk (_ & Hoff & _). }
  { eapply Forall_impl; [exact Hstored|]. now intros chunk (Hid & _). }
  exists creates. split; [|exact Hposts].
  rewrite Heq. rewrite filter_all.
  - destruct (live_stored deleted meta_obj); [contradiction|reflexivity].
  - rewrite Forall_forall in Hstored. apply Forall_forall.
    intros chunk Hin Hfresh.
    destruct (Hstored chunk Hin) as (_ & Hoff & Hhash).
    apply (stored_key_fresh_iff sha384 deleted obj meta_obj body chunk
             Hpath Hoff Hplanned) in Hfresh.
    destruct Hfresh as (planned & _ & _ & Hh).
    rewrite Hhash in Hh. now apply hexdigest_not_None in Hh.
Qed.


Lemma comma_piece_1 (path offset hash : string) :
  mem_char "," path = false -> mem_char "," offset = false ->
  comma_piece 1 (chunk_key path offset hash) = offset.
Proof.
  intros Hp Ho. unfold comma_piece, chunk_key.
  change ("," ++ offset ++ "," ++ hash)
    with (String "," (offset ++ String "," hash)).
  now rewrite !split_char_app.
Qed.

Lemma dict_set_keys {K V : Type} `{EqDecision K} (k : K) (v : V)
    (d : list (K * V)) (k' : K) :
  k' ∈ map fst (dict_set k v d) <-> k' = k \/ k' ∈ map fst d.
Proof.
  induction d as [|[k0 v0] d IH]; simpl.
  - rewrite list_elem_of_singleton, elem_of_nil. tauto.
  - destruct (decide (k = k0)) as [->|Hne]; simpl.
    + rewrite !elem_of_cons. tauto.
    + rewrite !elem_of_cons, IH. tauto.
Qed.

Lemma dict_of_keys_acc {K V : Type} `{EqDecision K} (kvs acc : list (K * V))
    (k : K) :
  k ∈ map fst (fold_left (fun d kv => dict_set kv.1 kv.2 d) kvs acc)
  <-> k ∈ map fst acc \/ k ∈ map fst kvs.
Proof.
  revert acc. induction kvs as [|[k0 v0] kvs IH]; intros acc; simpl.
  - rewrite elem_of_nil. tauto.
  - rewrite IH, dict_set_keys, elem_of_cons. simpl. tauto.
Qed.

(** The keys of a dict built from pairs are the keys of the pairs. *)
Lemma dict_of_keys {K V : Type} `{EqDecision K} (kvs : list (K * V)) (k : K) :
  k ∈ map fst (dict_of kvs) <-> k ∈ map fst kvs.
Proof.
  unfold dict_of. rewrite dict_of_keys_acc. simpl. rewrite elem_of_nil. tauto.
Qed.

(** For an object whose size changed and whose path holds no comma, when
    every read of a planned chunk gives a text and the stored chunks
    outside the tombstone set have no hash and offsets without a comma,
    new chunks are created exactly at the planned offsets that no stored
    chunk has: what is created is the planned chunks outside the
    tombstone set whose offset is the offset of no stored chunk outside
    it. *)
Theorem new_chunks_fill_the_new_offsets (sha384 : list byte -> list byte)
    (fetch_data : string -> option string -> option Z -> Z -> result ChunkData)
    (deleted : gset string) (obj : ObjectContents) (meta_obj : FileMetadata)
    (body : DataChunk -> string) (s : Service) :
  file_full_path meta_obj = Some (full_path obj) ->
  mem_char "," (full_path obj) = false ->
  Forall (fetches_text fetch_data obj body) (live_planned deleted obj) ->
  Forall (fun chunk => mem_char "," (fmt (dc_offset chunk)) = false
                       /\ dc_hash chunk = None)
         (live_stored deleted meta_obj) ->
  create_newly_added_chunks
    (map (fresh_key sha384 obj body) (live_planned deleted obj))
    (metadata_chunk_keys deleted meta_obj) meta_obj obj
    (list_to_set (map fst (metadata_chunk_keys deleted meta_obj))
     ∖ list_to_set (map (fresh_key sha384 obj body) (live_planned deleted obj)))
    s
  = (Ok tt, s,
     match filter (fun chunk =>
                     (tombstone_key (Some (full_path obj)) (dc_offset chunk)
                      ∉ deleted)
                     /\ (fmt (dc_offset chunk)
                         ∉ map (fun stored => fmt (dc_offset stored))
                               (live_stored deleted meta_obj)))
                  (data_chunks obj) with
     | [] => []
     | created =>
         [PostChunksBatch (fm_id meta_obj) (file_size meta_obj) WAIT_FOR_SCAN
                          created]
     end).
Proof.
  intros Hpath Hcomma Hfetch Hstored.
  pose proof (fetched_offsets fetch_data deleted obj body Hfetch) as Hoffsets.
  unfold create_newly_added_chunks.
  set (planned := live_planned deleted obj) in *.
  set (stored := live_stored deleted meta_obj) in *.
  assert (Hdb : list_to_set (map fst (metadata_chunk_keys deleted meta_obj))
                =@{gset string} list_to_set (map (stored_key meta_obj) stored)).
  { apply set_eq. intros key. rewrite !elem_of_list_to_set.
    unfold metadata_chunk_keys. fold stored.
    rewrite dict_of_keys, map_map. reflexivity. }
  rewrite Hdb.
  assert (Hdisjoint : forall chunk, chunk ∈ stored ->
            stored_key meta_obj chunk
            ∉ map (fresh_key sha384 obj body) planned).
  { intros chunk Hin Hfresh. rewrite Forall_forall in Hstored.
    destruct (Hstored chunk Hin) as (Hoff & Hhash).
    apply (stored_key_fresh_iff sha384 deleted obj meta_obj body chunk
             Hpath Hoff) in Hfresh.
    - destruct Hfresh as (pl & _ & _ & Hh).
      rewrite Hhash in Hh. now apply hexdigest_not_None in Hh.
    - eapply Forall_impl; [exact Hoffsets|]. now intros pl [_ Hc]. }
  assert (Hstored_off : forall chunk, chunk ∈ stored ->
            comma_piece 1 (stored_key meta_obj chunk) = fmt (dc_offset chunk)).
  { intros chunk Hin. rewrite Forall_forall in Hstored.
    destruct (Hstored chunk Hin) as (Hoff & _).
    unfold stored_key. rewrite Hpath. simpl fmt.
    now apply comma_piece_1. }
  assert (Hplanned_off : forall chunk, chunk ∈ planned ->
            comma_piece 1 (fresh_key sha384 obj body chunk)
            = fmt (dc_offset chunk)).
  { intros chunk Hin. rewrite Forall_forall in Hoffsets.
    unfold fresh_key. apply comma_piece_1; [exact Hcomma|now apply Hoffsets]. }
  assert (Hsome : forall chunk, chunk ∈ planned ->
            dc_offset chunk = Some (fmt (dc_offset chunk))).
  { intros chunk Hin. rewrite Forall_forall in Hoffsets.
    now apply Hoffsets. }
  match goal with
  | |- context [filter ?P (data_chunks obj)] =>
      rewrite (filter_equiv P
                 (fun chunk =>
                    (tombstone_key (Some (full_path obj)) (dc_offset chunk)
                     ∉ deleted)
                    /\ (fmt (dc_offset chunk)
                        ∉ map (fun st => fmt (dc_offset st)) stored)))
  end.
  { destruct (filter _ (data_chunks obj)); reflexivity. }
  intros chunk Hchunk.
  assert (Hlive : chunk ∈ planned
                  <-> tombstone_key (Some (full_path obj)) (dc_offset chunk)
                      ∉ deleted).
  { unfold planned, live_planned. rewrite list_elem_of_filter. tauto. }
  rewrite list_elem_of_fmap. split.
  - intros (o & Ho & Hin).
    apply list_elem_of_filter in Hin as [Hnot Hin].
    apply list_elem_of_fmap in Hin as (key & -> & Hkey).
    apply elem_of_elements, elem_of_difference in Hkey as [Hkey _].
    apply elem_of_list_to_set, list_elem_of_fmap in Hkey as (pl & -> & Hpl).
    rewrite (Hplanned_off pl Hpl) in Ho, Hnot.
    assert (Hsame : dc_offset chunk = dc_offset pl)
      by (rewrite Ho; symmetry; now apply Hsome).
    split.
    + rewrite Hsame. apply list_elem_of_filter in Hpl as [Hpl _]. exact Hpl.
    + intros Hin. apply Hnot.
      apply list_elem_of_fmap in Hin as (st & Hst & Hin).
      apply list_elem_of_fmap. exists (stored_key meta_obj st).
      split.
      * rewrite (Hstored_off st Hin), <- Hst, Hsame. reflexivity.
      * apply elem_of_elements, elem_of_difference. split.
        -- apply elem_of_list_to_set, list_elem_of_fmap. now exists st.
        -- rewrite elem_of_list_to_set. now apply Hdisjoint.
  - intros (Hl & Hnew). apply Hlive in Hl.
    exists (fmt (dc_offset chunk)). split; [now apply Hsome|].
    apply list_elem_of_filter. split.
    + intros Hin. apply Hnew.
      apply list_elem_of_fmap in Hin as (key & Hkey & Hin).
      apply elem_of_elements, elem_of_difference in Hin as [Hin _].
      apply elem_of_list_to_set, list_elem_of_fmap in Hin as (st & -> & Hst).
      apply list_elem_of_fmap. exists st.
      split; [|exact Hst]. now rewrite Hkey, (Hstored_off st Hst).
    + apply list_elem_of_fmap. exists (fresh_key sha384 obj body chunk).
      split; [symmetry; now apply Hplanned_off|].
      apply elem_of_elements, elem_of_difference. split.
      * apply elem_of_list_to_set, list_elem_of_fmap. now exists chunk.
      * rewrite elem_of_list_to_set. intros Hin.
        apply list_elem_of_fmap in Hin as (st & Hkey & Hst).
        apply (Hdisjoint st Hst). rewrite <- Hkey.
        apply list_elem_of_fmap. now exists chunk.
Qed.

(** The object of scenario 3 grown to three chunks: the chunk at offset
    2_000_000 is created, and no other. *)
Lemma new_chunks_fill_the_new_offsets_witness :
  create_newly_added_chunks
    (map (fresh_key Scenarios.toy_digest (Scenarios.grown_object 2200000)
                    (fun _ => "aaaa"))
         (live_planned ∅ (Scenarios.grown_object 2200000)))
    (metadata_chunk_keys ∅ (Scenarios.saved_record 2200000))
    (Scenarios.saved_record 2200000) (Scenarios.grown_object 2200000)
    (list_to_set (map fst (metadata_chunk_keys ∅
                             (Scenarios.saved_record 2200000)))
     ∖ list_to_set
         (map (fresh_key Scenarios.toy_digest
                         (Scenarios.grown_object 2200000)
                         (fun _ => "aaaa"))
              (live_planned ∅ (Scenarios.grown_object 2200000))))
    (mkService [Scenarios.saved_record 2200000] [])
  = (Ok tt, mkService [Scenarios.saved_record 2200000] [],
     [PostChunksBatch "meta-1" 2200000 Schemas.WAIT_FOR_SCAN
                      [Scenarios.planned_chunk "2000000"]]).
Proof.
  refine (eq_trans
            (new_chunks_fill_the_new_offsets
               Scenarios.toy_digest (fun _ _ _ _ => Ok (Text "aaaa")) ∅
               (Scenarios.grown_object 2200000)
               (Scenarios.saved_record 2200000) (fun _ => "aaaa")
               (mkService [Scenarios.saved_record 2200000] [])
               _ _ _ _) _).
  - reflexivity.
  - reflexivity.
  - repeat constructor; eexists; split; reflexivity.
  - repeat constructor.
  - vm_compute. reflexivity.
Defined.

(** The object of scenario 3 grown by one byte, with its two stored
    chunks saved without a hash and the same bodies at the source as when
    they were scanned: both are reset. *)
Lemma unhashed_chunks_are_all_reset_witness :
  exists creates,
    reconcile_chunks "i-0123456789abcdef0" Scenarios.toy_digest
      (fun _ _ _ _ => Ok (Text "aaaa")) ∅
      (Scenarios.source_object 1200001) (Scenarios.saved_record 1200001)
      (mkService [Scenarios.saved_record 1200001] [])
    = (Ok tt, mkService [Scenarios.saved_record 1200001] [],
       (map (fetch_of (Scenarios.source_object 1200001))
            (live_planned ∅ (Scenarios.source_object 1200001))
        ++ [PatchChunksBatch "meta-1"
              (map Schemas.dc_id
                   (live_stored ∅ (Scenarios.saved_record 1200001)))
              (reset_params "i-0123456789abcdef0"
                            (Scenarios.saved_record 1200001))]
        ++ creates)%list)
    /\ Forall (fun e => exists a b c d, e = PostChunksBatch a b c d) creates.
Proof.
  apply (unhashed_chunks_are_all_reset "i-0123456789abcdef0"
           Scenarios.toy_digest (fun _ _ _ _ => Ok (Text "aaaa")) ∅
           (Scenarios.source_object 1200001)
           (Scenarios.saved_record 1200001) (fun _ => "aaaa")
           (mkService [Scenarios.saved_record 1200001] [])).
  - reflexivity.
  - repeat constructor; eexists; split; reflexivity.
  - apply (bool_decide_unpack _). vm_compute. exact I.
  - repeat constructor.
  - discriminate.
Defined.

End CleanupFacts.

(** ** Reading a chunk from S3 *)

Module FetchFacts.
Import PyStr PyStrFacts Schemas Config SendRequest ScanService S3Service.
Import PlanningFacts.

Lemma substring_length_le (s : string) (a n : nat) :
  (String.length (substring a n s) <= String.length s - a)%nat.
Proof.
  revert a n. induction s as [|c s IH]; intros a n.
  - destruct a, n; simpl; lia.
  - destruct a as [|a].
    + destruct n as [|n]; simpl; [lia|]. specialize (IH 0%nat n). lia.
    + simpl. apply IH.
Qed.

(** A slice that starts at [lo >= 0] holds at most the characters from
    [lo] on. *)
Lemma slice_length_le (s : string) (lo : Z) (hi : option Z) :
  0 <= lo -> len (slice s (Some lo) hi) <= Z.max 0 (len s - lo).
Proof.
  intros Hlo. unfold slice, len.
  pose proof (substring_length_le s
                (Z.to_nat (clamp (Z.of_nat (String.length s)) lo))
                (Z.to_nat (match hi with
                           | Some i => clamp (Z.of_nat (String.length s)) i
                           | None => Z.of_nat (String.length s)
                           end - clamp (Z.of_nat (String.length s)) lo))) as H.
  unfold clamp in *.
  destruct (Z.ltb_spec lo 0); [lia|]. lia.
Qed.

Section Plain.
Variable b : Bucket.
Variable p : Parsers.

Lemma prepare_file_text object_data file_name limit offset :
  read_as_text file_name ->
  prepare_file p object_data file_name (Some limit) offset
  = Text (slice (decode_replace p object_data) (Some offset)
                (Some (offset + limit))).
Proof.
  intros (Hs & Hu). unfold prepare_file, prepare_file_body. rewrite Hu.
  unfold endswith_any in Hs |- *. cbn [existsb] in Hs |- *.
  repeat (apply orb_false_iff in Hs as [? Hs]).
  repeat match goal with H : endswith _ _ = false |- _ => rewrite H; clear H end.
  reflexivity.
Qed.

Lemma fetch_data_plain disk fetch_path chunk_path limit offset :
  plain_text fetch_path ->
  0 < offset ->
  (fetch_data b p disk fetch_path chunk_path (Some limit) offset).1
  = Ok match read_data_chunk b fetch_path (limit + OVERLAP_BYTES)
                             (offset - OVERLAP_BYTES) with
       | None | Some [] => NoData
       | Some object_data =>
           Text (slice (decode_replace p object_data)
                       (Some (offset - OVERLAP_BYTES))
                       (Some (offset - OVERLAP_BYTES
                              + (limit + OVERLAP_BYTES))))
       end.
Proof.
  intros (Ha & Hc & Htext) Hpos. unfold fetch_data.
  destruct (Z.ltb_spec 0 offset); [|lia].
  rewrite Ha, Hc.
  destruct (read_data_chunk b fetch_path _ _) as [[|x data]|]; try reflexivity.
  now rewrite prepare_file_text.
Qed.

(** What is left of the chunk after the second cut. *)
Lemma plain_window_bound disk fetch_path chunk_path limit offset :
  plain_text fetch_path ->
  0 <= limit ->
  OVERLAP_BYTES <= offset ->
  (forall object_data,
     read_data_chunk b fetch_path (limit + OVERLAP_BYTES)
                     (offset - OVERLAP_BYTES) = Some object_data ->
     Z.of_nat (List.length object_data) <= limit + OVERLAP_BYTES + 1) ->
  (forall object_data,
     (String.length (decode_replace p object_data)
      <= List.length object_data)%nat) ->
  exists data,
    (fetch_data b p disk fetch_path chunk_path (Some limit) offset).1 = Ok data
    /\ (data = NoData
        \/ exists text,
             data = Text text
             /\ len text <= Z.max 0 (limit + 2 * OVERLAP_BYTES + 1 - offset)).
Proof.
  intros Hplain Hlimit Hoffset Hrange Hdecode.
  rewrite fetch_data_plain by (unfold OVERLAP_BYTES in *; auto; lia).
  destruct (read_data_chunk b fetch_path _ _) as [[|x object_data]|] eqn:Hread;
    eauto.
  eexists. split; [reflexivity|]. right. eexists. split; [reflexivity|].
  pose proof (Hrange _ eq_refl) as Hlen.
  pose proof (Hdecode (x :: object_data)) as Hdec.
  pose proof (slice_length_le (decode_replace p (x :: object_data))
                (offset - OVERLAP_BYTES)
                (Some (offset - OVERLAP_BYTES + (limit + OVERLAP_BYTES)))
                ltac:(lia)) as Hslice.
  unfold len in *. lia.
Qed.

End Plain.

(** S3, plain objects: the bytes of the range [offset - 255, offset +
    limit] are decoded and then cut a second time at the same indexes, so
    of a chunk at [offset >= 255] at most [limit + 511 - offset]
    characters are left. *)
Theorem plain_chunk_is_cut_twice (b : Bucket) (p : Parsers) (disk : Disk)
    (fetch_path : string) (chunk_path : option string) (limit offset : Z) :
  plain_text fetch_path ->
  0 <= limit ->
  OVERLAP_BYTES <= offset ->
  (forall object_data,
     read_data_chunk b fetch_path (limit + OVERLAP_BYTES)
                     (offset - OVERLAP_BYTES) = Some object_data ->
     Z.of_nat (List.length object_data) <= limit + OVERLAP_BYTES + 1) ->
  (forall object_data,
     (String.length (decode_replace p object_data)
      <= List.length object_data)%nat) ->
  exists data,
    (fetch_data b p disk fetch_path chunk_path (Some limit) offset).1 = Ok data
    /\ (data = NoData
        \/ exists text,
             data = Text text
             /\ len text <= Z.max 0 (limit + 511 - offset)).
Proof.
  intros Hplain Hlimit Hoffset Hrange Hdecode.
  destruct (plain_window_bound b p disk fetch_path chunk_path limit offset
              Hplain Hlimit Hoffset Hrange Hdecode) as (data & Hfetch & Hdata).
  exists data. split; [exact Hfetch|].
  destruct Hdata as [->|(text & -> & Hlen)]; [now left|].
  right. exists text. split; [reflexivity|].
  unfold OVERLAP_BYTES in Hlen. lia.
Qed.

Lemma len_zero (s : string) : len s <= 0 -> s = "".
Proof. destruct s; [reflexivity|]. unfold len. simpl. lia. Qed.

(** S3, plain objects: a chunk planned at index 2 or later comes back
    empty or not at all, and the worker saves it as SCANNED at once: it is
    never probed or classified, and nothing is reported for it. *)
Theorem late_plain_chunks_are_saved_unread (b : Bucket) (p : Parsers)
    (disk : Disk) (w : Worker) (content : ObjectContents)
    (chunk : DataChunkUpdate) (i : Z) :
  (forall fetch_path chunk_path limit offset,
     ScanService.fetch_data w fetch_path chunk_path limit offset
     = (fetch_data b p disk fetch_path chunk_path limit offset).1) ->
  current_chunk content = Some chunk ->
  dcu_offset chunk = Some (str_of_Z (i * CHUNK_BYTES_CAPACITY)) ->
  dcu_limit chunk = Some CHUNK_BYTES_CAPACITY ->
  2 <= i ->
  plain_text (fetch_path content) ->
  (forall object_data,
     read_data_chunk b (fetch_path content)
                     (CHUNK_BYTES_CAPACITY + OVERLAP_BYTES)
                     (i * CHUNK_BYTES_CAPACITY - OVERLAP_BYTES)
     = Some object_data ->
     Z.of_nat (List.length object_data)
     <= CHUNK_BYTES_CAPACITY + OVERLAP_BYTES + 1) ->
  (forall object_data,
     (String.length (decode_replace p object_data)
      <= List.length object_data)%nat) ->
  analyze_content_data w content
  = ([FetchData (fetch_path content) (dcu_fetch_path chunk)
                (Some CHUNK_BYTES_CAPACITY) (i * CHUNK_BYTES_CAPACITY);
      PutChunk (scanned_chunk (utcnow_saved w) chunk)], Ok tt).
Proof.
  intros Hw Hchunk Hoffset Hlimit Hi Hplain Hrange Hdecode.
  unfold analyze_content_data.
  rewrite Hchunk, Hoffset, int_of_offset_str_of_Z, Hlimit, Hw.
  destruct (plain_window_bound b p disk (fetch_path content)
              (dcu_fetch_path chunk) CHUNK_BYTES_CAPACITY
              (i * CHUNK_BYTES_CAPACITY) Hplain
              ltac:(unfold CHUNK_BYTES_CAPACITY; lia)
              ltac:(unfold CHUNK_BYTES_CAPACITY, OVERLAP_BYTES; lia)
              Hrange Hdecode) as (data & -> & Hdata).
  destruct Hdata as [->|(text & -> & Hlen)]; [reflexivity|].
  rewrite (len_zero text); [reflexivity|].
  unfold CHUNK_BYTES_CAPACITY, OVERLAP_BYTES in Hlen. lia.
Qed.


Lemma string_of_list_byte_length (bs : list byte) :
  String.length (string_of_list_byte bs) = List.length bs.
Proof.
  induction bs as [|x bs IH]; [reflexivity|].
  change (string_of_list_byte (x :: bs))
    with (String (ascii_of_byte x) (string_of_list_byte bs)).
  simpl String.length. simpl List.length. now rewrite IH.
Qed.

Lemma plain_chunk_is_cut_twice_witness :
  exists data,
    (fetch_data S3Scenarios.short_bucket S3Scenarios.ascii_parsers ∅
                "notes.txt" (Some "notes.txt") (Some 1000000) 1000000).1
    = Ok data
    /\ (data = NoData
        \/ exists text,
             data = Text text
             /\ len text <= Z.max 0 (1000000 + 511 - 1000000)).
Proof.
  apply (plain_chunk_is_cut_twice S3Scenarios.short_bucket
           S3Scenarios.ascii_parsers ∅ "notes.txt" (Some "notes.txt")
           1000000 1000000).
  - repeat split.
  - lia.
  - unfold OVERLAP_BYTES. lia.
  - intros object_data [= <-]. unfold OVERLAP_BYTES. simpl. lia.
  - intros object_data. simpl. rewrite string_of_list_byte_length. lia.
Defined.

Lemma late_plain_chunks_are_saved_unread_witness :
  analyze_content_data
    (S3Scenarios.s3_worker S3Scenarios.short_bucket S3Scenarios.ascii_parsers ∅)
    S3Scenarios.third
  = ([FetchData "notes.txt" (Some "notes.txt") (Some CHUNK_BYTES_CAPACITY)
                (2 * CHUNK_BYTES_CAPACITY);
      PutChunk (scanned_chunk 1700000000 S3Scenarios.third_chunk)], Ok tt).
Proof.
  apply (late_plain_chunks_are_saved_unread S3Scenarios.short_bucket
           S3Scenarios.ascii_parsers ∅
           (S3Scenarios.s3_worker S3Scenarios.short_bucket
                                  S3Scenarios.ascii_parsers ∅)
           S3Scenarios.third S3Scenarios.third_chunk 2).
  - reflexivity.
  - reflexivity.
  - reflexivity.
  - reflexivity.
  - lia.
  - repeat split.
  - intros object_data [= <-]. unfold CHUNK_BYTES_CAPACITY, OVERLAP_BYTES.
    simpl. lia.
  - intros object_data. simpl. rewrite string_of_list_byte_length. lia.
Defined.

Lemma substring_length_count (s : string) (a n : nat) :
  (String.length (substring a n s) <= n)%nat.
Proof.
  revert a n. induction s as [|c s IH]; intros a n.
  - destruct a, n; simpl; lia.
  - destruct a as [|a].
    + destruct n as [|n]; simpl; [lia|]. specialize (IH 0%nat n). lia.
    + simpl. apply IH.
Qed.

Lemma slice_window (s : string) (offset limit : Z) :
  0 <= offset -> 0 <= limit ->
  len (slice s (Some offset) (Some (offset + limit))) <= limit.
Proof.
  intros Ho Hl. unfold slice, len.
  match goal with
  | |- Z.of_nat (String.length (substring ?a ?n s)) <= _ =>
      pose proof (substring_length_count s a n) as H
  end.
  unfold clamp in *.
  destruct (Z.ltb_spec offset 0); [lia|].
  destruct (Z.ltb_spec (offset + limit) 0); lia.
Qed.

Lemma slice_list_window {A : Type} (l : list A) (offset limit : Z) :
  0 <= offset -> 0 <= limit ->
  Z.of_nat (List.length (slice_list l offset (offset + limit))) <= limit.
Proof.
  intros Ho Hl. unfold slice_list. rewrite length_firstn.
  unfold clamp.
  destruct (Z.ltb_spec offset 0); [lia|].
  destruct (Z.ltb_spec (offset + limit) 0); lia.
Qed.

Lemma iloc_window (df : DataFrame) (offset limit : Z) :
  0 <= offset -> 0 <= limit ->
  Forall (fun column => Z.of_nat (List.length column.2) <= limit)
         (iloc df offset (offset + limit)).
Proof.
  intros Ho Hl. unfold iloc. apply Forall_fmap, Forall_forall.
  intros column _. simpl. now apply slice_list_window.
Qed.

(** Whatever the format, [prepare_file] gives at most [limit] characters
    of text, or at most [limit] rows of every column. *)
Theorem prepare_file_respects_limit (p : Parsers) (object_data : list byte)
    (file_name : string) (limit offset : Z) :
  0 <= offset ->
  0 <= limit ->
  match prepare_file p object_data file_name (Some limit) offset with
  | NoData => True
  | Text text => len text <= limit
  | Frame df =>
      Forall (fun column => Z.of_nat (List.length column.2) <= limit) df
  end.
Proof.
  intros Ho Hl. unfold prepare_file, prepare_file_body, window_end.
  destruct (endswith "pdf" file_name).
  { destruct (pdf_pages p object_data); simpl; [now apply slice_window|exact I]. }
  destruct (endswith_any ["xlsx"; "xls"] file_name).
  { destruct (read_excel p _ object_data); simpl; [now apply iloc_window|exact I]. }
  destruct (endswith "csv" file_name).
  { destruct (read_csv_first p object_data _) as [[content|]|]; simpl;
      [now apply iloc_window|exact I|exact I]. }
  destruct (endswith "docx" file_name).
  { destruct (docx_paragraphs p object_data); simpl;
      [now apply slice_window|exact I]. }
  destruct (endswith "doc" file_name).
  { destruct (antiword p object_data); simpl; [now apply slice_window|exact I]. }
  destruct (endswith_any UNSUPPORTED_EXTENSIONS file_name).
  { simpl. unfold len. simpl. lia. }
  simpl. now apply slice_window.
Qed.

Lemma prepare_file_respects_limit_witness :
  match prepare_file S3Scenarios.ascii_parsers [x68; x65; x6c; x6c; x6f]
                     "notes.txt" (Some 3) 1 with
  | NoData => True
  | Text text => len text <= 3
  | Frame df => Forall (fun column => Z.of_nat (List.length column.2) <= 3) df
  end.
Proof.
  apply (prepare_file_respects_limit S3Scenarios.ascii_parsers
           [x68; x65; x6c; x6c; x6f] "notes.txt" 3 1); lia.
Defined.


(** S3, members of an archive that is unpacked on the local disk: the
    whole member is decoded, and the chunk at [offset > 0] is the window
    of the text from [offset - 255] to [offset + limit]. *)
Theorem archive_member_chunk_window (b : Bucket) (p : Parsers) (disk : Disk)
    (fetch_path chunk_path : string) (content : list byte) (limit offset : Z) :
  endswith_any FileService.ARCHIVE_EXTENSIONS fetch_path = true ->
  disk !! chunk_path = Some content ->
  read_as_text (last_piece (split_char "/" chunk_path)) ->
  0 < offset ->
  fetch_data b p disk fetch_path (Some chunk_path) (Some limit) offset
  = (Ok (Text (slice (decode_replace p content) (Some (offset - 255))
                     (Some (offset + limit)))), disk).
Proof.
  intros Ha Hdisk Htext Hpos. unfold fetch_data.
  destruct (Z.ltb_spec 0 offset); [|lia].
  rewrite Ha, Hdisk. unfold read_archive_object_chunk. rewrite Hdisk.
  rewrite (prepare_file_text p _ _ _ _ Htext). unfold OVERLAP_BYTES.
  replace (offset - 255 + (limit + 255)) with (offset + limit) by lia.
  reflexivity.
Qed.

Lemma archive_member_chunk_window_witness :
  fetch_data S3Scenarios.short_bucket S3Scenarios.ascii_parsers
    {[ "/data/dump.zip_extracted_archive/rows.txt" := [x68; x65; x6c; x6c; x6f] ]}
    "dump.zip" (Some "/data/dump.zip_extracted_archive/rows.txt")
    (Some 1000000) 1000000
  = (Ok (Text (slice (string_of_list_byte [x68; x65; x6c; x6c; x6f])
                     (Some (1000000 - 255)) (Some (1000000 + 1000000)))),
     {[ "/data/dump.zip_extracted_archive/rows.txt" := [x68; x65; x6c; x6c; x6f] ]}).
Proof.
  apply (archive_member_chunk_window S3Scenarios.short_bucket
           S3Scenarios.ascii_parsers
           {[ "/data/dump.zip_extracted_archive/rows.txt"
              := [x68; x65; x6c; x6c; x6f] ]}
           "dump.zip" "/data/dump.zip_extracted_archive/rows.txt"
           [x68; x65; x6c; x6c; x6f] 1000000 1000000).
  - reflexivity.
  - apply lookup_singleton_eq.
  - split; reflexivity.
  - lia.
Defined.

End FetchFacts.

(** ** The batches of findings *)

Module FindingsFacts.
Import PyStr Schemas DataAnalysis ScanService Findings.

Section Batches.
Variable sha384 : list byte -> list byte.
Variable id_name_mapper : gmap Z string.

Lemma process_results_batches object_name column_name results findings
    rest processed :
  Forall2 (finding_of sha384 id_name_mapper object_name column_name)
          results findings ->
  match rest with
  | [] => True
  | result :: _ => id_name_mapper !! result.1 = None
  end ->
  Z.of_nat (List.length processed) < SENSITIVE_DATA_CHUNK ->
  let batches :=
    process_results sha384 id_name_mapper object_name column_name
                    (results ++ rest) processed in
  concat batches = (processed ++ findings)%list
  /\ (exists full final,
        batches = (full ++ [final])%list
        /\ Forall (fun batch => Z.of_nat (List.length batch)
                                = SENSITIVE_DATA_CHUNK) full
        /\ Z.of_nat (List.length final) < SENSITIVE_DATA_CHUNK).
Proof.
  intros Hall Hrest. revert processed.
  induction Hall as [|[_id value] file_data results findings Hf _ IH];
    intros processed Hlen.
  - assert (Hstop : process_results sha384 id_name_mapper object_name
                      column_name rest processed = [processed]).
    { destruct rest as [|[_id value] rest]; [reflexivity|].
      simpl in *. now rewrite Hrest. }
    change (([] ++ rest)%list) with rest. cbv zeta. rewrite Hstop.
    simpl. rewrite !app_nil_r. split; [reflexivity|].
    exists [], processed. repeat split; [constructor|exact Hlen].
  - destruct Hf as (recognizer & Hname & Hmade). simpl in Hname, Hmade.
    simpl. rewrite Hname, Hmade.
    destruct (Z.leb_spec SENSITIVE_DATA_CHUNK
                (Z.of_nat (List.length (processed ++ [file_data])))) as [Hfull|Hroom].
    + destruct (IH [] ltac:(unfold SENSITIVE_DATA_CHUNK; simpl; lia))
        as (Hconcat & full & final & Hb & Hfulls & Hfinal).
      split.
      * simpl. rewrite Hconcat. now rewrite <- app_assoc.
      * exists ((processed ++ [file_data]) :: full)%list, final.
        split; [now rewrite Hb|]. split; [|exact Hfinal].
        constructor; [|exact Hfulls].
        rewrite length_app in *. simpl in *. lia.
    + destruct (IH (processed ++ [file_data])%list Hroom)
        as (Hconcat & Hshape).
      split; [|exact Hshape].
      rewrite Hconcat. now rewrite <- app_assoc.
Qed.

End Batches.

(** When every id has a name, the batches of [_process_data] hold the
    findings of all the results, once each and in their order; every
    batch but the last holds exactly 100_000 findings and the last one
    fewer. *)
Theorem findings_are_batched (sha384 : list byte -> list byte)
    (id_name_mapper : gmap Z string) (_analyze : string -> list (Z * string))
    (object_name data : string) (column_name : option string)
    (findings : list Finding) :
  Forall2 (finding_of sha384 id_name_mapper object_name
                      (truthy_column column_name))
          (_analyze data) findings ->
  concat (_process_data sha384 id_name_mapper _analyze object_name data
                        column_name) = findings
  /\ exists full final,
       _process_data sha384 id_name_mapper _analyze object_name data
                     column_name = (full ++ [final])%list
       /\ Forall (fun batch => Z.of_nat (List.length batch)
                               = SENSITIVE_DATA_CHUNK) full
       /\ Z.of_nat (List.length final) < SENSITIVE_DATA_CHUNK.
Proof.
  intros Hall. unfold _process_data.
  pose proof (process_results_batches sha384 id_name_mapper object_name
                (truthy_column column_name) (_analyze data) findings [] []
                Hall I ltac:(unfold SENSITIVE_DATA_CHUNK; simpl; lia)) as H.
  now rewrite app_nil_r in H.
Qed.

Lemma findings_are_batched_witness :
  concat (_process_data (fun message => message) {[ 1 := "US_SSN" ]}
            (fun _ => [(1, "078-05-1120")]) "notes.txt" "ssn 078-05-1120"
            None)
  = [mkFinding "notes.txt" "US_SSN" "USA" "3037382d30352d31313230"
               "07*-**-**20" None]
  /\ exists full final,
       _process_data (fun message => message) {[ 1 := "US_SSN" ]}
         (fun _ => [(1, "078-05-1120")]) "notes.txt" "ssn 078-05-1120" None
       = (full ++ [final])%list
       /\ Forall (fun batch => Z.of_nat (List.length batch)
                               = SENSITIVE_DATA_CHUNK) full
       /\ Z.of_nat (List.length final) < SENSITIVE_DATA_CHUNK.
Proof.
  apply (findings_are_batched (fun message => message) {[ 1 := "US_SSN" ]}
           (fun _ => [(1, "078-05-1120")]) "notes.txt" "ssn 078-05-1120" None).
  repeat constructor. exists "US_SSN". split; [|reflexivity].
  apply lookup_singleton_eq.
Defined.

(** A result whose id has no name ends the loop: the findings made before
    it are yielded, and every result after it is dropped, whatever its
    id. *)
Theorem unnamed_id_ends_the_batches (sha384 : list byte -> list byte)
    (id_name_mapper : gmap Z string) (_analyze : string -> list (Z * string))
    (object_name data : string) (column_name : option string)
    (before after : list (Z * string)) (unnamed : Z * string)
    (findings : list Finding) :
  _analyze data = (before ++ unnamed :: after)%list ->
  Forall2 (finding_of sha384 id_name_mapper object_name
                      (truthy_column column_name)) before findings ->
  id_name_mapper !! unnamed.1 = None ->
  concat (_process_data sha384 id_name_mapper _analyze object_name data
                        column_name) = findings.
Proof.
  intros Hresults Hall Hnone. unfold _process_data. rewrite Hresults.
  exact (proj1 (process_results_batches sha384 id_name_mapper object_name
                  (truthy_column column_name) before findings
                  (unnamed :: after) [] Hall Hnone
                  ltac:(unfold SENSITIVE_DATA_CHUNK; simpl; lia))).
Qed.

Lemma unnamed_id_ends_the_batches_witness :
  concat (_process_data (fun message => message) {[ 1 := "US_SSN" ]}
            (fun _ => [(7, "4111111111111111"); (1, "078-05-1120")])
            "notes.txt" "card 4111111111111111 ssn 078-05-1120" None)
  = [].
Proof.
  apply (unnamed_id_ends_the_batches (fun message => message)
           {[ 1 := "US_SSN" ]}
           (fun _ => [(7, "4111111111111111"); (1, "078-05-1120")])
           "notes.txt" "card 4111111111111111 ssn 078-05-1120" None
           [] [(1, "078-05-1120")] (7, "4111111111111111") []).
  - reflexivity.
  - constructor.
  - apply lookup_singleton_ne. discriminate.
Defined.

End FindingsFacts.

(** ** The filters of discovery *)

Module DiscoveryFacts.
Import PyStr Schemas ScanService Discovery.

Lemma includes_loop_stops data_type cls included :
  Exists (fun cl => falsy match data_type with
                          | SOURCE => data_sources cl
                          | OBJECT => data_objects cl
                          end = true) cls ->
  includes_loop data_type cls included = ∅.
Proof.
  intros Hex. revert included.
  induction Hex as [cl later Hcl|cl later _ IH]; intros included; simpl.
  - destruct data_type; now rewrite Hcl.
  - destruct data_type;
      match goal with |- context [falsy ?x] => destruct (falsy x) end;
      auto.
Qed.

Lemma includes_loop_union data_type cls included name :
  Forall (fun cl => falsy match data_type with
                          | SOURCE => data_sources cl
                          | OBJECT => data_objects cl
                          end = false) cls ->
  name ∈ includes_loop data_type cls included
  <-> name ∈ included
      \/ exists cl, cl ∈ cls
                    /\ name ∈ listed match data_type with
                                     | SOURCE => data_sources cl
                                     | OBJECT => data_objects cl
                                     end.
Proof.
  intros Hall. revert included.
  induction Hall as [|cl later Hcl _ IH]; intros included; simpl.
  - split; [now left|]. intros [H|(cl & Hin & _)]; [exact H|inversion Hin].
  - assert (Hgo : includes_loop data_type (cl :: later) included
                  = includes_loop data_type later
                      (included ∪ list_to_set
                                    (listed match data_type with
                                            | SOURCE => data_sources cl
                                            | OBJECT => data_objects cl
                                            end))).
    { simpl. destruct data_type; now rewrite Hcl. }
    simpl in Hgo. rewrite Hgo, IH, elem_of_union, elem_of_list_to_set.
    split.
    + intros [[H|H]|(cl' & Hin & H)].
      * now left.
      * right. exists cl. split; [left|]. destruct data_type; exact H.
      * right. exists cl'. split; [now right|exact H].
    + intros [H|(cl' & Hin & H)]; [now left; left|].
      apply elem_of_cons in Hin as [->|Hin].
      * left. right. destruct data_type; exact H.
      * right. exists cl'. split; assumption.
Qed.

(** [get_classification_includes]: one classification that lists nothing
    of the asked kind makes the result empty, whatever the others list;
    when every classification lists something, the result is what they
    list together. *)
Theorem classification_includes (data_type : DataClassificationType)
    (classifications : list DataClassification) :
  (Exists (fun cl => falsy match data_type with
                           | SOURCE => data_sources cl
                           | OBJECT => data_objects cl
                           end = true) classifications ->
   get_classification_includes data_type classifications = ∅)
  /\ (Forall (fun cl => falsy match data_type with
                              | SOURCE => data_sources cl
                              | OBJECT => data_objects cl
                              end = false) classifications ->
      forall name,
        name ∈ get_classification_includes data_type classifications
        <-> exists cl, cl ∈ classifications
                       /\ name ∈ listed match data_type with
                                        | SOURCE => data_sources cl
                                        | OBJECT => data_objects cl
                                        end).
Proof.
  unfold get_classification_includes. split.
  - apply includes_loop_stops.
  - intros Hall name. rewrite (includes_loop_union _ _ _ _ Hall).
    split; [|now right]. intros [H|H]; [|exact H].
    now apply not_elem_of_empty in H.
Qed.

Lemma classification_includes_witness :
  get_classification_includes OBJECT
    [mkDataClassification (Some ["bucket"]) (Some ["a.txt"; "b.txt"]);
     mkDataClassification (Some ["bucket"]) None] = ∅.
Proof.
  apply (proj1 (classification_includes OBJECT
                  [mkDataClassification (Some ["bucket"])
                                        (Some ["a.txt"; "b.txt"]);
                   mkDataClassification (Some ["bucket"]) None])).
  right. left. reflexivity.
Defined.

(** The empty result reads as no restriction: when one classification
    lists no object, the objects the others list do not restrict the
    scan, and every object with a supported name is kept. *)
Theorem one_open_classification_lifts_the_filter
    (is_supported_filename : ObjectContents -> bool)
    (classifications : list DataClassification)
    (objects : list ObjectContents) :
  Exists (fun cl => falsy (data_objects cl) = true) classifications ->
  filter_objects_by_classifications is_supported_filename classifications
                                    objects
  = List.filter is_supported_filename objects.
Proof.
  intros Hex. unfold filter_objects_by_classifications,
                get_classification_includes.
  rewrite (includes_loop_stops OBJECT classifications ∅ Hex).
  apply List.filter_ext. intros obj.
  now rewrite bool_decide_eq_true_2 by reflexivity.
Qed.

Lemma one_open_classification_lifts_the_filter_witness :
  filter_objects_by_classifications (fun _ => true)
    [mkDataClassification None (Some ["a.txt"]);
     mkDataClassification None (Some [])]
    [Scenarios.discovered "a.txt" 1; Scenarios.discovered "z.txt" 1]
  = List.filter (fun _ => true)
      [Scenarios.discovered "a.txt" 1; Scenarios.discovered "z.txt" 1].
Proof.
  apply (one_open_classification_lifts_the_filter (fun _ => true)
           [mkDataClassification None (Some ["a.txt"]);
            mkDataClassification None (Some [])]
           [Scenarios.discovered "a.txt" 1; Scenarios.discovered "z.txt" 1]).
  right. left. reflexivity.
Defined.

(** After [filter_scanned], [save_newly_added] makes the same records as
    without it, when both read the same stored metadata: every record
    that is SCANNED is a record. *)
Theorem filter_scanned_is_absorbed (stored_source_metadata : list FileMetadata)
    (objects : list ObjectContents) :
  save_newly_added stored_source_metadata
                   (filter_scanned stored_source_metadata objects)
  = save_newly_added stored_source_metadata objects.
Proof.
  unfold save_newly_added, filter_scanned.
  induction objects as [|obj objects IH]; [reflexivity|].
  rewrite !filter_cons.
  destruct (decide ((Some (full_path obj), etag obj)
                    ∉ path_etags (fun _ => true) stored_source_metadata))
    as [Hnew|Hknown].
  - destruct (decide ((Some (full_path obj), etag obj) ∉ path_etags _ _))
      as [_|Hscanned].
    + rewrite filter_cons. destruct (decide _); [|contradiction].
      now rewrite IH.
    + exfalso. apply Hscanned. intros Hin. apply Hnew.
      unfold path_etags in *.
      apply elem_of_list_to_set, list_elem_of_fmap in Hin
        as (meta & Heq & Hmeta).
      apply list_elem_of_filter in Hmeta as [_ Hmeta].
      apply elem_of_list_to_set, list_elem_of_fmap.
      exists meta. split; [exact Heq|].
      apply list_elem_of_filter. now split.
  - destruct (decide ((Some (full_path obj), etag obj) ∉ path_etags _ _)).
    + rewrite filter_cons. destruct (decide _); [contradiction|]. exact IH.
    + exact IH.
Qed.

End DiscoveryFacts.

(** ** The recognizers and their names *)

Module RecognizersFacts.
Import Schemas Recognizers.

Lemma recognizers_append engine r a x :
  x ∈ recognizers (append_recognizer engine r a) ->
  x ∈ recognizers a \/ x = r.
Proof.
  unfold recognizers, append_recognizer.
  destruct engine as [engine|]; [|now left].
  repeat match goal with
         | |- context [match ?e with _ => _ end] => destruct e
         end;
    simpl; rewrite ?elem_of_app, ?list_elem_of_singleton; tauto.
Qed.

Lemma collect_made _id data_type c x :
  x ∈ recognizers (attrs (collect _id data_type c)) ->
  x ∈ recognizers (attrs c)
  \/ (pr_id x = _id /\ pr_name x = cl_name data_type
      /\ cl_patterns data_type = Some (pr_patterns x)).
Proof.
  unfold collect.
  destruct (cl_patterns data_type) as [[|pattern patterns]|] eqn:Hp.
  - destruct (cl_engine data_type) as [engine|]; [|now left].
    repeat match goal with
           | |- context [match ?e with _ => _ end] => destruct e
           end; now left.
  - assert (Hgo : forall engine,
              x ∈ recognizers
                    (append_recognizer engine
                       (mkPatternRecognizer _id (cl_name data_type)
                                            (pattern :: patterns)) (attrs c)) ->
              x ∈ recognizers (attrs c)
              \/ (pr_id x = _id /\ pr_name x = cl_name data_type
                  /\ Some (pattern :: patterns) = Some (pr_patterns x))).
    { intros engine Hin. apply recognizers_append in Hin as [Hin| ->];
        [now left|right; repeat split]. }
    destruct (cl_engine data_type) as [engine|]; [|apply Hgo].
    destruct (String.eqb_spec engine "MITIE") as [->|Hne]; [now left|].
    intros Hin. apply (Hgo (Some engine)).
    revert Hin.
    repeat match goal with
           | |- context [match ?e with _ => _ end] =>
               destruct e; try (exfalso; apply Hne; reflexivity)
           end; auto.
  - destruct (cl_engine data_type) as [engine|]; [|now left].
    repeat match goal with
           | |- context [match ?e with _ => _ end] => destruct e
           end; now left.
Qed.

Lemma collect_all_made start data_types c x :
  x ∈ recognizers (attrs (collect_all start data_types c)) ->
  x ∈ recognizers (attrs c) \/ made_of start data_types x.
Proof.
  revert start c. induction data_types as [|data_type later IH];
    intros start c Hin; simpl in Hin; [now left|].
  apply IH in Hin as [Hin|(dt & Hstart & Hdt & Hname & Hpat)].
  - apply collect_made in Hin as [Hin|(Hid & Hname & Hpat)]; [now left|].
    right. exists data_type. rewrite Hid.
    replace (Z.to_nat (start - start)) with 0%nat by lia.
    repeat split; [lia|exact Hname|exact Hpat].
  - right. exists dt. split; [lia|]. split; [|now split].
    replace (Z.to_nat (pr_id x - start)) with (S (Z.to_nat (pr_id x - (start + 1))))
      by lia.
    exact Hdt.
Qed.

Lemma mapper_keeps (k : Z) (l : list PatternRecognizer) (m : gmap Z string) :
  (forall r, r ∈ l -> pr_id r <> k) ->
  fold_left (fun mapper r => <[pr_id r := pr_name r]> mapper) l m !! k = m !! k.
Proof.
  revert m. induction l as [|x l IH]; intros m Hne; [reflexivity|].
  simpl. rewrite IH by (intros r Hr; apply Hne; now right).
  apply lookup_insert_ne. apply Hne. left.
Qed.

Lemma mapper_names (l : list PatternRecognizer) (m : gmap Z string)
    (r : PatternRecognizer) :
  r ∈ l ->
  exists r', r' ∈ l /\ pr_id r' = pr_id r
             /\ fold_left (fun mapper r => <[pr_id r := pr_name r]> mapper) l m
                !! pr_id r = Some (pr_name r').
Proof.
  revert m. induction l as [|x l IH] using rev_ind; intros m Hin;
    [inversion Hin|].
  rewrite fold_left_app. simpl.
  destruct (decide (pr_id x = pr_id r)) as [Heq|Hne].
  - exists x. split; [apply elem_of_app; right; left|]. split; [exact Heq|].
    rewrite <- Heq. apply lookup_insert_eq.
  - apply elem_of_app in Hin as [Hin|Hin].
    + destruct (IH m Hin) as (r' & Hr' & Hid & Hlook).
      exists r'. split; [apply elem_of_app; now left|]. split; [exact Hid|].
      now rewrite lookup_insert_ne.
    + apply list_elem_of_singleton in Hin. subst. contradiction.
Qed.

(** The mapper [set_recognizers] builds names every id a recognizer
    carries, with the name of that recognizer, and gives id 0 the name
    PERSON; the id of a recognizer is the position, counted from 1, of the
    data type it was made of. *)
Theorem recognizer_ids_are_named (data_types : list DataClassifiers) :
  id_name_mapper (set_recognizers data_types) !! 0 = Some "PERSON"
  /\ forall r,
       r ∈ recognizers (set_recognizers data_types) ->
       id_name_mapper (set_recognizers data_types) !! pr_id r
       = Some (pr_name r)
       /\ made_of 1 data_types r.
Proof.
  unfold set_recognizers.
  set (c := collect_all 1 data_types _).
  assert (Hmade : forall r, r ∈ recognizers (attrs c) -> made_of 1 data_types r).
  { intros r Hin. apply collect_all_made in Hin as [Hin|Hin]; [|exact Hin].
    inversion Hin. }
  simpl. fold (recognizers (attrs c)). split.
  - rewrite mapper_keeps; [apply lookup_singleton_eq|].
    intros r Hin. destruct (Hmade r Hin) as (_ & Hid & _). lia.
  - intros r Hin. change (r ∈ recognizers (attrs c)) in Hin.
    split; [|now apply Hmade].
    destruct (mapper_names (recognizers (attrs c)) {[ 0 := "PERSON" ]} r Hin)
      as (r' & Hr' & Hid & ->).
    f_equal.
    destruct (Hmade r Hin) as (dt & _ & Hdt & Hname & _).
    destruct (Hmade r' Hr') as (dt' & _ & Hdt' & Hname' & _).
    rewrite Hid, Hdt in Hdt'. injection Hdt' as <-. congruence.
Qed.

End RecognizersFacts.
